(** * TIMIT label tokenisation: vocabularies and index sequences

    A shallow embedding of [timit/transcript_character.py] and
    [timit/transcript_phone.py]: the two symbol indexers ([Char2idx],
    [Phone2idx]), the 61 -> 48/39 phone collapsing ([map_phone2phone]) and the
    two corpus readers ([read_char], [read_phone]) that build the vocabulary
    files and tokenise every utterance.

    Python values are modelled as follows.
    - [str] is [string], a sequence of 8-bit characters on which [lower],
      [upper] and the white-space tests act as on ASCII; a character is a
      string of length one.
    - [dict] with string keys is [gmap string _]; the insertion-ordered
      [trans_dict], whose iteration order decides which utterance is tokenised
      first, is an association list.
    - [set] is [gset string]; [sorted] is a merge sort for the character-code
      order on strings.
    - The file system is a finite map from paths to file contents, together
      with the set of the paths that are directories.
    - Exceptions are the error side of [result]; [IOError] stands for
      [OSError] and its subclasses. *)

From Stdlib Require Import Ascii String.
From stdpp Require Import gmap strings list sorting pretty.
From Equations Require Import Equations.

Local Open Scope string_scope.
Local Open Scope nat_scope.
Local Open Scope list_scope.
Local Open Scope stdpp_scope.

(** ** Exceptions *)

Inductive exn : Type :=
  | IndexError
  | KeyError (key : string)
  | ValueError
  | IOError (path : string).

Inductive result (A : Type) : Type :=
  | Ok (a : A)
  | Raise (e : exn).
Arguments Ok {A} a.
Arguments Raise {A} e.

#[global] Instance result_ret : MRet result := λ A a, Ok a.
#[global] Instance result_bind : MBind result := λ A B f r,
  match r with
  | Ok a => f a
  | Raise e => Raise e
  end.
#[global] Instance result_fmap : FMap result := λ A B f r,
  match r with
  | Ok a => Ok (f a)
  | Raise e => Raise e
  end.

(** [for x in xs: st = body(st, x)] where the body may raise. *)
Fixpoint for_each {S A : Type} (body : S → A → result S) (xs : list A) (st : S)
    : result S :=
  match xs with
  | [] => Ok st
  | x :: xs' => st' ← body st x; for_each body xs' st'
  end.



(** ** The fragment of Python's [str], [list], [dict] and [re] the sources use *)

Module Py.

(** Characters that [str.strip], [str.split()] and the pattern [\s] treat as
    white space: space, [\t], [\n], [\v], [\f], [\r]. *)
Definition isspace (c : ascii) : bool := Ascii.is_space c.

Definition lower_char (c : ascii) : ascii :=
  let n := nat_of_ascii c in
  if (65 <=? n) && (n <=? 90) then ascii_of_nat (n + 32) else c.

Definition upper_char (c : ascii) : ascii :=
  let n := nat_of_ascii c in
  if (97 <=? n) && (n <=? 122) then ascii_of_nat (n - 32) else c.

Fixpoint map_chars (f : ascii → ascii) (s : string) : string :=
  match s with
  | "" => ""
  | String c s' => String (f c) (map_chars f s')
  end.

(** [s.lower()], [s.upper()] *)
Definition lower : string → string := map_chars lower_char.
Definition upper : string → string := map_chars upper_char.

(** [list(s)]: the characters of [s], each a string of length one. *)
Fixpoint chars (s : string) : list string :=
  match s with
  | "" => []
  | String c s' => String c "" :: chars s'
  end.

Fixpoint lstrip (s : string) : string :=
  match s with
  | "" => ""
  | String c s' => if isspace c then lstrip s' else s
  end.

Fixpoint rstrip (s : string) : string :=
  match s with
  | "" => ""
  | String c s' =>
      match rstrip s' with
      | "" => if isspace c then "" else String c ""
      | r => String c r
      end
  end.

(** [s.strip()] *)
Definition strip (s : string) : string := rstrip (lstrip s).

(** [s[i]] for [i >= 0] *)
Definition getitem (s : string) (i : nat) : result string :=
  match String.get i s with
  | Some c => Ok (String c "")
  | None => Raise IndexError
  end.

(** [s[-1]] *)
Definition last (s : string) : result string :=
  match s with
  | "" => Raise IndexError
  | _ => getitem s (String.length s - 1)
  end.

(** [s[i:j]] and [s[i:]] for [0 <= i]; slices never raise. *)
Definition slice (s : string) (i j : nat) : string :=
  String.substring i (j - i) s.
Definition slice_from (s : string) (i : nat) : string :=
  String.substring i (String.length s - i) s.

(** [s.startswith(p)] *)
Fixpoint startswith (p s : string) : bool :=
  match p, s with
  | "", _ => true
  | String a p', String b s' => Ascii.eqb a b && startswith p' s'
  | String _ _, "" => false
  end.

(** [sub in s] *)
Fixpoint contains (sub s : string) : bool :=
  match s with
  | "" => startswith sub ""
  | String _ s' => startswith sub s || contains sub s'
  end.

(** [s.split(sep)] with an explicit separator: every occurrence of [sep]
    (leftmost first, not overlapping) cuts the string, empty pieces are kept,
    and an empty separator raises [ValueError].  [skip] counts the characters
    of the separator just matched that are still to be passed over; [cur] is
    the current piece, reversed. *)
Fixpoint split_go (sep s : string) (skip : nat) (cur : string) : list string :=
  match s with
  | "" => [String.rev cur]
  | String c s' =>
      match skip with
      | S k => split_go sep s' k cur
      | 0 =>
          if startswith sep s
          then String.rev cur :: split_go sep s' (String.length sep - 1) ""
          else split_go sep s' 0 (String c cur)
      end
  end.

Definition split (s sep : string) : result (list string) :=
  match sep with
  | "" => Raise ValueError
  | _ => Ok (split_go sep s 0 "")
  end.

(** [s.split()]: cut at runs of white space, no empty pieces. *)
Fixpoint split_ws_go (s : string) (cur : option string) : list string :=
  match s with
  | "" => match cur with Some w => [String.rev w] | None => [] end
  | String c s' =>
      if isspace c
      then match cur with
           | Some w => String.rev w :: split_ws_go s' None
           | None => split_ws_go s' None
           end
      else split_ws_go s' (Some (String c (default "" cur)))
  end.

Definition split_ws (s : string) : list string := split_ws_go s None.

(** [sep.join(l)] *)
Fixpoint join (sep : string) (l : list string) : string :=
  match l with
  | [] => ""
  | [x] => x
  | x :: l' => x +:+ sep +:+ join sep l'
  end.

(** [l[i]] for [i >= 0] and [l[-2]], [l[-1]] *)
Definition item {A : Type} (l : list A) (i : nat) : result A :=
  match l !! i with
  | Some x => Ok x
  | None => Raise IndexError
  end.

Definition item_from_end {A : Type} (l : list A) (k : nat) : result A :=
  if decide (1 ≤ k ≤ length l) then item l (length l - k) else Raise IndexError.

(** [d[k]] *)
Definition dict_get {V : Type} (d : gmap string V) (k : string) : result V :=
  match d !! k with
  | Some v => Ok v
  | None => Raise (KeyError k)
  end.

(** [l.remove(x)]: delete the first occurrence ([ValueError] when absent). *)
Fixpoint remove_first (x : string) (l : list string) : option (list string) :=
  match l with
  | [] => None
  | y :: l' =>
      if decide (y = x) then Some l'
      else cons y <$> remove_first x l'
  end.

(** [range(a, b)] *)
Definition range (a b : nat) : list nat := seq a (b - a).

(** *** Files *)

Abbreviation filesystem := (gmap string string).

(** [open(path, 'r')] followed by reading the whole file *)
Definition read_file (fs : filesystem) (path : string) : result string :=
  match fs !! path with
  | Some data => Ok data
  | None => Raise (IOError path)
  end.

(** [f.readlines()] and [for line in f]: the lines of the file, each with
    its terminating newline (the last one may lack it). *)
Fixpoint readlines_go (data : string) (cur : string) : list string :=
  match data with
  | "" => match cur with "" => [] | _ => [String.rev cur] end
  | String c data' =>
      if Ascii.eqb c "010"
      then String.rev (String c cur) :: readlines_go data' ""
      else readlines_go data' (String c cur)
  end.

Definition readlines (data : string) : list string := readlines_go data "".

(** [for x in l: f.write('%s\n' % x)] on a file opened with ['w'] *)
Fixpoint write_lines (l : list string) : string :=
  match l with
  | [] => ""
  | x :: l' => x +:+ "
" +:+ write_lines l'
  end.

(** [os.path.join(dir, name)] for a relative [name] *)
Definition ends_with_slash (dir : string) : bool :=
  match String.rev dir with
  | String c _ => Ascii.eqb c "/"
  | "" => false
  end.

Definition path_join (dir name : string) : string :=
  match dir with
  | "" => name
  | _ => if ends_with_slash dir then dir +:+ name else dir +:+ "/" +:+ name
  end.

(** [os.path.basename(path)] *)
Definition basename (path : string) : string :=
  List.last (split_go "/" path 0 "") "".

(** *** Directories *)

(** The directories that exist, each by its path without trailing slashes;
    the current directory and the root always exist. *)
Abbreviation directories := (gset string).

Fixpoint lstrip_slashes (path : string) : string :=
  match path with
  | "" => ""
  | String c path' => if Ascii.eqb c "/" then lstrip_slashes path' else path
  end.

Definition rstrip_slashes (path : string) : string :=
  String.rev (lstrip_slashes (String.rev path)).

(** The directory that holds [path]: what precedes its last slash. *)
Definition parent (path : string) : string :=
  rstrip_slashes (join "/" (removelast (split_go "/" path 0 ""))).

(** [os.path.isdir(path)] *)
Definition isdir (dirs : directories) (path : string) : bool :=
  match path with
  | "" => false
  | _ =>
      let path := rstrip_slashes path in
      bool_decide (path = "" ∨ path ∈ dirs)
  end.

(** [os.mkdir(path)]: [FileNotFoundError] for the empty path and for a
    missing parent directory, [FileExistsError] for a path that exists, as a
    directory or as a file; otherwise the directory is made. *)
Definition os_mkdir (dirs : directories) (fs : filesystem) (path : string)
    : result directories :=
  let name := rstrip_slashes path in
  if decide (name = "") then Raise (IOError path)
  else if decide (name ∈ dirs) then Raise (IOError path)
  else if decide (is_Some (fs !! name)) then Raise (IOError path)
  else if decide (parent name = "" ∨ parent name ∈ dirs)
  then Ok ({[name]} ∪ dirs)
  else Raise (IOError path).

(** [sorted(list(s))] for a set of strings *)
Definition sorted (l : list string) : list string := merge_sort String.le l.

(** [re.sub('[...]+', repl, s)] for a character class: every maximal run of
    characters of the class is replaced by [repl]. *)
Fixpoint re_sub_runs (cls : ascii → bool) (repl s : string) (in_run : bool)
    : string :=
  match s with
  | "" => ""
  | String c s' =>
      if cls c
      then (if in_run then "" else repl) +:+ re_sub_runs cls repl s' true
      else String c (re_sub_runs cls repl s' false)
  end.

(** [re.sub('[...]', repl, s)]: every character of the class is replaced. *)
Fixpoint re_sub_each (cls : ascii → bool) (repl s : string) : string :=
  match s with
  | "" => ""
  | String c s' =>
      if cls c then repl +:+ re_sub_each cls repl s'
      else String c (re_sub_each cls repl s')
  end.

(** [re.sub('  ', ' ', s)]: leftmost, non-overlapping pairs of spaces become
    one space. *)
Fixpoint re_sub_two_spaces (s : string) : string :=
  match s with
  | "" => ""
  | String c s' =>
      match s' with
      | "" => String c ""
      | String c' r =>
          if Ascii.eqb c " " && Ascii.eqb c' " "
          then String " " (re_sub_two_spaces r)
          else String c (re_sub_two_spaces s')
      end
  end.

(** [d[k] = v] on an insertion-ordered dictionary *)
Fixpoint dict_set {V : Type} (k : string) (v : V) (d : list (string * V))
    : list (string * V) :=
  match d with
  | [] => [(k, v)]
  | (k', v') :: d' =>
      if decide (k' = k) then (k, v) :: d' else (k', v') :: dict_set k v d'
  end.

End Py.

(** ** Termination measures of the two [while] loops *)

(** A value together with the equation that says where it comes from, for the
    loop tests below. *)
Definition inspect {A : Type} (a : A) : {b : A | a = b} := exist _ a eq_refl.

Lemma re_sub_two_spaces_cons (c c' : ascii) (r : string) :
  Py.re_sub_two_spaces (String c (String c' r)) =
    if Ascii.eqb c " " && Ascii.eqb c' " "
    then String " " (Py.re_sub_two_spaces r)
    else String c (Py.re_sub_two_spaces (String c' r)).
Proof. done. Qed.

Lemma re_sub_two_spaces_length (n : nat) (s : string) :
  String.length s ≤ n →
  String.length (Py.re_sub_two_spaces s) ≤ String.length s.
Proof.
  revert s. induction n as [|n IH]; intros [|c [|c' r]] Hn;
    cbn [String.length] in Hn; try (cbn; lia).
  rewrite re_sub_two_spaces_cons.
  destruct (Ascii.eqb c " " && Ascii.eqb c' " "); cbn [String.length].
  - specialize (IH r). lia.
  - specialize (IH (String c' r)). cbn [String.length] in IH. lia.
Qed.

Lemma re_sub_two_spaces_shrinks (s : string) :
  Py.contains "  " s = true →
  String.length (Py.re_sub_two_spaces s) < String.length s.
Proof.
  induction s as [|c s IH]; [done|].
  destruct s as [|c' r]; [by cbn; rewrite andb_false_r|].
  rewrite re_sub_two_spaces_cons.
  cbn [Py.contains Py.startswith].
  rewrite andb_true_r, (Ascii.eqb_sym " " c), (Ascii.eqb_sym " " c').
  destruct (Ascii.eqb c " " && Ascii.eqb c' " ").
  - intros _. pose proof (re_sub_two_spaces_length _ r (le_n _)).
    cbn [String.length]. lia.
  - rewrite orb_false_l. intros H. apply IH in H.
    cbn [String.length] in *. lia.
Defined.

Lemma remove_first_length (x : string) (l l' : list string) :
  Py.remove_first x l = Some l' → length l' < length l.
Proof.
  revert l'. induction l as [|y l IH]; intros l'; cbn [Py.remove_first]; [done|].
  case_decide.
  - intros [= <-]. cbn [length]. lia.
  - destruct (Py.remove_first x l) as [l''|]; [|done].
    intros [= <-]. specialize (IH _ eq_refl). cbn [length]. lia.
Defined.

(** ** [timit/transcript_character.py] *)

Module transcript_character.

(** *** class [Char2idx] *)

Record Char2idx : Type := {
  space_mark : string;
  capital_divide : bool;
  double_letter : bool;
  remove_list : list string;
  map_dict : gmap string nat
}.

(** One turn of the loop over the lines of the vocabulary file; the state is
    [(self.map_dict, vocab_count)]. *)
Definition vocab_line (remove_list : list string)
    (st : gmap string nat * nat) (line : string) : gmap string nat * nat :=
  let char := Py.strip line in
  if decide (char ∈ remove_list) then st
  else (<[char := st.2]> st.1, st.2 + 1).

(** [Char2idx.__init__] *)
Definition Char2idx_init (fs : Py.filesystem) (vocab_file_path : string)
    (space_mark : string) (capital_divide double_letter : bool)
    (remove_list : list string) : result Char2idx :=
  data ← Py.read_file fs vocab_file_path;
  let '(map_dict, vocab_count) :=
    foldl (vocab_line remove_list) (∅, 0) (Py.readlines data) in
  (* Add <SOS> & <EOS> *)
  let map_dict := <["<" := vocab_count]> map_dict in
  let map_dict := <[">" := vocab_count + 1]> map_dict in
  mret {| space_mark := space_mark; capital_divide := capital_divide;
          double_letter := double_letter; remove_list := remove_list;
          map_dict := map_dict |}.

(** The body of the double-letter loops of [__call__]; the state is
    [(skip_flag, index_list)]. *)
Definition pair_scan (map_dict : gmap string nat) (word : string)
    (st : bool * list nat) (i : nat) : result (bool * list nat) :=
  let '(skip_flag, index_list) := st in
  if skip_flag then Ok (false, index_list)
  else if decide (Py.slice word i (i + 2) ∈ dom map_dict)
  then idx ← Py.dict_get map_dict (Py.slice word i (i + 2));
       Ok (true, index_list ++ [idx])
  else c ← Py.getitem word i;
       idx ← Py.dict_get map_dict c;
       Ok (false, index_list ++ [idx]).

(** The final character of a scanned string *)
Definition final_char (map_dict : gmap string nat) (word : string)
    (st : bool * list nat) : result (list nat) :=
  let '(skip_flag, index_list) := st in
  if skip_flag then Ok index_list
  else c ← Py.last word;
       idx ← Py.dict_get map_dict c;
       Ok (index_list ++ [idx]).

(** The body of [for word in str_char.split(self.space_mark)] *)
Definition capital_word (map_dict : gmap string nat)
    (index_list : list nat) (word : string) : result (list nat) :=
  (* Replace the first character with the capital letter *)
  c ← Py.getitem word 0;
  idx ← Py.dict_get map_dict (Py.upper c);
  let index_list := index_list ++ [idx] in
  (* Check double-letters *)
  st ← for_each (pair_scan map_dict word)
         (Py.range 1 (String.length word - 1)) (false, index_list);
  (* Final character *)
  final_char map_dict word st.

(** [Char2idx.__call__] *)
Definition Char2idx_call (self : Char2idx) (str_char : string)
    : result (list nat) :=
  if capital_divide self then
    words ← Py.split str_char (space_mark self);
    for_each (capital_word (map_dict self)) words []
  else if double_letter self then
    st ← for_each (pair_scan (map_dict self) str_char)
           (Py.range 0 (String.length str_char - 1)) (false, []);
    final_char (map_dict self) str_char st
  else
    mapM (Py.dict_get (map_dict self)) (Py.chars str_char).

(** [mkdir(path_to_dir)]: the directories after the call and the path
    returned ([path_to_dir] is a string in every call). *)
Definition mkdir (dirs : Py.directories) (fs : Py.filesystem)
    (path_to_dir : string) : result (Py.directories * string) :=
  if Py.isdir dirs path_to_dir then Ok (dirs, path_to_dir)
  else dirs ← Py.os_mkdir dirs fs path_to_dir; Ok (dirs, path_to_dir).

(** One turn of the loop of [mkdir_join] over the [count] names; the state
    is the directories and [path_to_dir]. *)
Definition join_step (fs : Py.filesystem) (count : nat)
    (st : Py.directories * string) (turn : nat * string)
    : result (Py.directories * string) :=
  let '(dirs, path_to_dir) := st in
  let '(i, name) := turn in
  if decide (i = count - 1 ∧ Py.contains "." name = true)
  then Ok (dirs, Py.path_join path_to_dir name)
  else mkdir dirs fs (Py.path_join path_to_dir name).

(** [mkdir_join(path_to_dir, *dir_name)] *)
Definition mkdir_join (dirs : Py.directories) (fs : Py.filesystem)
    (path_to_dir : string) (dir_name : list string)
    : result (Py.directories * string) :=
  st ← mkdir dirs fs path_to_dir;
  for_each (join_step fs (length dir_name)) (imap pair dir_name) st.

Definition DOUBLE_LETTERS : list string :=
  ["aa"; "bb"; "cc"; "dd"; "ee"; "ff"; "gg"; "hh"; "ii"; "jj";
   "kk"; "ll"; "mm"; "nn"; "oo"; "pp"; "qq"; "rr"; "ss"; "tt";
   "uu"; "vv"; "ww"; "xx"; "yy"; "zz"].
Definition SPACE : string := "_".
Definition APOSTROPHE : string := "'".

(** *** [read_char] *)

(** The character class of the pattern of line 185: double quote, colon,
    semicolon, exclamation mark, question mark, comma, period, hyphen. *)
Definition is_punctuation (c : ascii) : bool :=
  bool_decide (c ∈ ["034"; ":"; ";"; "!"; "?"; ","; "."; "-"]%char).

(** [while '  ' in transcript: transcript = re.sub(r'  ', ' ', transcript)] *)
Equations remove_double_spaces (transcript : string) : string
    by wf (String.length transcript) lt :=
  remove_double_spaces transcript with inspect (Py.contains "  " transcript) := {
    | exist _ true H => remove_double_spaces (Py.re_sub_two_spaces transcript)
    | exist _ false _ => transcript }.
Next Obligation. by apply re_sub_two_spaces_shrinks. Defined.

(** The transcript of the last line of a label file, up to the removal of
    double spaces (lines 185-191). *)
Definition clean_line (line : string) : result string :=
  (* Remove punctuation, convert to lowercase *)
  let line :=
    Py.re_sub_runs is_punctuation "" (Py.lower (Py.strip line)) false in
  fields ← Py.split line " ";
  let transcript := Py.join " " (drop 2 fields) in
  (* Remove double spaces *)
  Ok (remove_double_spaces transcript).

(** Remove first and last space (lines 194-197). *)
Definition trim_spaces (transcript : string) : result string :=
  first ← Py.getitem transcript 0;
  let transcript :=
    if decide (first = " ") then Py.slice_from transcript 1 else transcript in
  final ← Py.last transcript;
  let transcript :=
    if decide (final = " ")
    then Py.slice transcript 0 (String.length transcript - 1)
    else transcript in
  Ok transcript.

(** The body of the double-letter loop of [read_char]; the state is
    [(skip_flag, char_capital_set)]. *)
Definition unit_scan (word : string) (st : bool * gset string) (i : nat)
    : result (bool * gset string) :=
  let '(skip_flag, char_capital_set) := st in
  if skip_flag then Ok (false, char_capital_set)
  else if decide (Py.slice word i (i + 2) ∈ DOUBLE_LETTERS)
  then Ok (true, {[Py.slice word i (i + 2)]} ∪ char_capital_set)
  else c ← Py.getitem word i;
       Ok (false, {[c]} ∪ char_capital_set).

(** The final character of a scanned word *)
Definition final_unit (word : string) (st : bool * gset string)
    : result (gset string) :=
  let '(skip_flag, char_capital_set) := st in
  if skip_flag then Ok char_capital_set
  else c ← Py.last word; Ok ({[c]} ∪ char_capital_set).

(** The body of [for word in transcript.split(' ')] (lines 201-223) *)
Definition capital_units (char_capital_set : gset string) (word : string)
    : result (gset string) :=
  if decide (String.length word = 1) then
    Ok ({[Py.upper word]} ∪ char_capital_set)
  else
    (* Replace the first character with the capital letter *)
    c ← Py.getitem word 0;
    let word := Py.upper c +:+ Py.slice_from word 1 in
    c ← Py.getitem word 0;
    let char_capital_set := {[Py.upper c]} ∪ char_capital_set in
    (* Check double-letters *)
    st ← for_each (unit_scan word) (Py.range 1 (String.length word - 1))
           (false, char_capital_set);
    (* Final character *)
    final_unit word st.

(** The state of the loop over the label files *)
Record reading : Type := {
  trans_dict : list (string * string);
  char_set : gset string;
  char_capital_set : gset string
}.

(** [speaker + '_' + utt_index] of a label path *)
Definition utt_name_of (label_path : string) : result string :=
  dirs ← Py.split label_path "/";
  speaker ← Py.item_from_end dirs 2;
  parts ← Py.split (Py.basename label_path) ".";
  utt_index ← Py.item parts 0;
  Ok (speaker +:+ "_" +:+ utt_index).

(** The body of [for label_path in label_paths] (lines 177-231) *)
Definition read_label (fs : Py.filesystem) (st : reading)
    (label_path : string) : result reading :=
  data ← Py.read_file fs label_path;
  line ← Py.item_from_end (Py.readlines data) 1;
  utt_name ← utt_name_of label_path;
  transcript ← clean_line line;
  transcript ← trim_spaces transcript;
  (* Capital-divided *)
  words ← Py.split transcript " ";
  char_capital_set ← for_each capital_units words (char_capital_set st);
  (* Convert space to "_" *)
  let transcript := Py.re_sub_each Py.isspace SPACE transcript in
  let char_set :=
    foldl (λ set c, {[c]} ∪ set) (char_set st) (Py.chars transcript) in
  Ok {| trans_dict := Py.dict_set utt_name transcript (trans_dict st);
        char_set := char_set;
        char_capital_set := char_capital_set |}.

(** The contents of [character.txt] and [character_capital_divide.txt] *)
Definition char_vocab_file (char_set : gset string) : string :=
  let char_set := char_set ∖ {[SPACE]} ∖ {[APOSTROPHE]} in
  Py.write_lines (Py.sorted (elements char_set) ++ [SPACE; APOSTROPHE]).

Definition char_capital_vocab_file (char_capital_set : gset string) : string :=
  let char_capital_set := char_capital_set ∖ {[APOSTROPHE]} in
  Py.write_lines (Py.sorted (elements char_capital_set) ++ [APOSTROPHE]).

(** The body of [for utt_name, transcript in trans_dict.items()] *)
Definition tokenize (char2idx char2idx_capital : Char2idx) (is_test : bool)
    (entry : string * string) : result (string * (string * string)) :=
  let '(utt_name, transcript) := entry in
  if is_test then Ok (utt_name, (transcript, transcript))
  else
    char_indices ← Char2idx_call char2idx transcript;
    char_indices_capital ← Char2idx_call char2idx_capital transcript;
    let char_indices := Py.join " " (pretty <$> char_indices) in
    let char_indices_capital := Py.join " " (pretty <$> char_indices_capital) in
    Ok (utt_name, (char_indices, char_indices_capital)).

(** [read_char]: the directories and the files after the call, and the
    dictionary returned or the exception raised. *)
Definition read_char (dirs : Py.directories) (fs : Py.filesystem)
    (label_paths : list string) (vocab_file_save_path : string)
    (save_vocab_file is_test : bool)
    : Py.directories * Py.filesystem
      * result (list (string * (string * string))) :=
  match for_each (read_label fs) label_paths
          {| trans_dict := []; char_set := ∅; char_capital_set := ∅ |} with
  | Raise e => (dirs, fs, Raise e)
  | Ok st =>
      (* Make vocabulary files *)
      match mkdir_join dirs fs vocab_file_save_path ["character.txt"] with
      | Raise e => (dirs, fs, Raise e)
      | Ok (dirs, char_vocab_file_path) =>
          match mkdir_join dirs fs vocab_file_save_path
                  ["character_capital_divide.txt"] with
          | Raise e => (dirs, fs, Raise e)
          | Ok (dirs, char_capital_vocab_file_path) =>
              let fs :=
                if save_vocab_file
                then <[char_capital_vocab_file_path :=
                         char_capital_vocab_file (char_capital_set st)]>
                       (<[char_vocab_file_path :=
                            char_vocab_file (char_set st)]> fs)
                else fs in
              (* Tokenize *)
              (dirs, fs,
               char2idx ←
                 Char2idx_init fs char_vocab_file_path "_" false false [];
               char2idx_capital ←
                 Char2idx_init fs char_capital_vocab_file_path "_" true false
                   [];
               mapM (tokenize char2idx char2idx_capital is_test)
                 (trans_dict st))
          end
      end
  end.

End transcript_character.

(** ** [timit/transcript_phone.py] *)

Module transcript_phone.

(** *** class [Phone2idx] *)

Record Phone2idx : Type := {
  map_dict : gmap string nat
}.

(** One turn of the loop over the lines of the vocabulary file; the state is
    [(self.map_dict, vocab_count)]. *)
Definition vocab_line (remove_list : list string)
    (st : gmap string nat * nat) (line : string) : gmap string nat * nat :=
  let phone := Py.strip line in
  if decide (phone ∈ remove_list) then st
  else (<[phone := st.2]> st.1, st.2 + 1).

(** [Phone2idx.__init__] *)
Definition Phone2idx_init (fs : Py.filesystem) (vocab_file_path : string)
    (remove_list : list string) : result Phone2idx :=
  data ← Py.read_file fs vocab_file_path;
  let '(map_dict, vocab_count) :=
    foldl (vocab_line remove_list) (∅, 0) (Py.readlines data) in
  (* Add <SOS> & <EOS> *)
  let map_dict := <["<" := vocab_count]> map_dict in
  let map_dict := <[">" := vocab_count + 1]> map_dict in
  mret {| map_dict := map_dict |}.

(** [Phone2idx.__call__] *)
Definition Phone2idx_call (self : Phone2idx) (str_phone : string)
    : result (list nat) :=
  (* Convert from phone to the corresponding indices *)
  phone_list ← Py.split str_phone " ";
  mapM (Py.dict_get (map_dict self)) phone_list.

(** [mkdir(path_to_dir)] and [mkdir_join(path_to_dir, *dir_name)], as in
    [transcript_character.py] *)
Definition mkdir (dirs : Py.directories) (fs : Py.filesystem)
    (path_to_dir : string) : result (Py.directories * string) :=
  if Py.isdir dirs path_to_dir then Ok (dirs, path_to_dir)
  else dirs ← Py.os_mkdir dirs fs path_to_dir; Ok (dirs, path_to_dir).

Definition join_step (fs : Py.filesystem) (count : nat)
    (st : Py.directories * string) (turn : nat * string)
    : result (Py.directories * string) :=
  let '(dirs, path_to_dir) := st in
  let '(i, name) := turn in
  if decide (i = count - 1 ∧ Py.contains "." name = true)
  then Ok (dirs, Py.path_join path_to_dir name)
  else mkdir dirs fs (Py.path_join path_to_dir name).

Definition mkdir_join (dirs : Py.directories) (fs : Py.filesystem)
    (path_to_dir : string) (dir_name : list string)
    : result (Py.directories * string) :=
  st ← mkdir dirs fs path_to_dir;
  for_each (join_step fs (length dir_name)) (imap pair dir_name) st.

(** *** [map_phone2phone] *)

(** The body of the loop over the lines of the mapping file *)
Definition map_line (label_type : string) (map_dict : gmap string string)
    (line : string) : result (gmap string string) :=
  let line := Py.split_ws (Py.strip line) in
  phone48 ← Py.item line 1;
  if decide (phone48 ≠ "nan") then
    if decide (label_type = "phone48") then
      phone61 ← Py.item line 0;
      Ok (<[phone61 := phone48]> map_dict)
    else if decide (label_type = "phone39") then
      phone39 ← Py.item line 2;
      phone61 ← Py.item line 0;
      Ok (<[phone61 := phone39]> map_dict)
    else Ok map_dict
  else
    phone61 ← Py.item line 0;
    Ok (<[phone61 := ""]> map_dict).

(** [while '' in mapped_phone_list: mapped_phone_list.remove('')]; the test
    holds exactly when [remove] finds an occurrence to delete. *)
Equations remove_empty (mapped_phone_list : list string) : list string
    by wf (length mapped_phone_list) lt :=
  remove_empty mapped_phone_list
    with inspect (Py.remove_first "" mapped_phone_list) := {
    | exist _ (Some shorter) H => remove_empty shorter
    | exist _ None _ => mapped_phone_list }.
Next Obligation. by eapply remove_first_length. Defined.

Definition map_phone2phone (fs : Py.filesystem) (phone_list : list string)
    (label_type map_file_path : string) : result (list string) :=
  if decide (label_type = "phone61") then Ok phone_list
  else
    (* read a mapping file *)
    data ← Py.read_file fs map_file_path;
    map_dict ← for_each (map_line label_type) (Py.readlines data) ∅;
    (* mapping from 61 phones to 39 or 48 phones *)
    let mapped_phone_list :=
      (λ phone, default phone (map_dict !! phone)) <$> phone_list in
    (* ignore "q" *)
    Ok (remove_empty mapped_phone_list).

(** *** [read_phone] *)

(** The body of the loop that collects the three phone sets; the state is
    [(phone61_set, phone48_set, phone39_set)]. *)
Definition set_line (st : gset string * gset string * gset string)
    (line : string) : result (gset string * gset string * gset string) :=
  let '(phone61_set, phone48_set, phone39_set) := st in
  let line := Py.split_ws (Py.strip line) in
  phone48 ← Py.item line 1;
  if decide (phone48 ≠ "nan") then
    phone61 ← Py.item line 0;
    phone39 ← Py.item line 2;
    Ok ({[phone61]} ∪ phone61_set, {[phone48]} ∪ phone48_set,
        {[phone39]} ∪ phone39_set)
  else
    (* Ignore "q" if phone39 or phone48 *)
    phone61 ← Py.item line 0;
    Ok ({[phone61]} ∪ phone61_set, phone48_set, phone39_set).

Definition phone_vocab_file (phone_set : gset string) : string :=
  Py.write_lines (Py.sorted (elements phone_set)).

Definition utt_name_of (label_path : string) : result string :=
  dirs ← Py.split label_path "/";
  speaker ← Py.item_from_end dirs 2;
  parts ← Py.split (Py.basename label_path) ".";
  utt_index ← Py.item parts 0;
  Ok (speaker +:+ "_" +:+ utt_index).

(** The body of [for line in f] of a label file *)
Definition phone_line (phone61_list : list string) (line : string)
    : result (list string) :=
  fields ← Py.split (Py.strip line) " ";
  phone ← Py.item fields 2;
  Ok (phone61_list ++ [phone]).

(** The body of [for label_path in label_paths] *)
Definition read_label (fs : Py.filesystem) (phone2phone_map_file_path : string)
    (trans_dict : list (string * (string * string * string)))
    (label_path : string)
    : result (list (string * (string * string * string))) :=
  utt_name ← utt_name_of label_path;
  data ← Py.read_file fs label_path;
  phone61_list ← for_each phone_line (Py.readlines data) [];
  (* Map from 61 phones to the corresponding phones *)
  phone48_list ←
    map_phone2phone fs phone61_list "phone48" phone2phone_map_file_path;
  phone39_list ←
    map_phone2phone fs phone61_list "phone39" phone2phone_map_file_path;
  (* Convert to string *)
  let trans_phone61 := Py.join " " phone61_list in
  let trans_phone48 := Py.join " " phone48_list in
  let trans_phone39 := Py.join " " phone39_list in
  Ok (Py.dict_set utt_name (trans_phone61, trans_phone48, trans_phone39)
        trans_dict).

(** The body of the tokenising loop *)
Definition tokenize (phone2idx_61 phone2idx_48 phone2idx_39 : Phone2idx)
    (is_test : bool) (entry : string * (string * string * string))
    : result (string * (string * string * string)) :=
  let '(utt_name, (trans_phone61, trans_phone48, trans_phone39)) := entry in
  if is_test then Ok (utt_name, (trans_phone61, trans_phone48, trans_phone39))
  else
    phone61_indices ← Phone2idx_call phone2idx_61 trans_phone61;
    phone48_indices ← Phone2idx_call phone2idx_48 trans_phone48;
    phone39_indices ← Phone2idx_call phone2idx_39 trans_phone39;
    Ok (utt_name, (Py.join " " (pretty <$> phone61_indices),
                   Py.join " " (pretty <$> phone48_indices),
                   Py.join " " (pretty <$> phone39_indices))).

(** [read_phone]: the directories and the files after the call, and the
    dictionary returned or the exception raised. *)
Definition read_phone (dirs : Py.directories) (fs : Py.filesystem)
    (label_paths : list string) (vocab_file_save_path : string)
    (save_vocab_file is_test : bool)
    : Py.directories * Py.filesystem
      * result (list (string * (string * string * string))) :=
  (* Make the mapping file (from phone to index) *)
  let phone2phone_map_file_path :=
    Py.path_join vocab_file_save_path "../phone2phone.txt" in
  match
    data ← Py.read_file fs phone2phone_map_file_path;
    for_each set_line (Py.readlines data) (∅, ∅, ∅)
  with
  | Raise e => (dirs, fs, Raise e)
  | Ok (phone61_set, phone48_set, phone39_set) =>
      match mkdir_join dirs fs vocab_file_save_path ["phone61.txt"] with
      | Raise e => (dirs, fs, Raise e)
      | Ok (dirs, phone61_vocab_map_file_path) =>
      match mkdir_join dirs fs vocab_file_save_path ["phone48.txt"] with
      | Raise e => (dirs, fs, Raise e)
      | Ok (dirs, phone48_vocab_map_file_path) =>
      match mkdir_join dirs fs vocab_file_save_path ["phone39.txt"] with
      | Raise e => (dirs, fs, Raise e)
      | Ok (dirs, phone39_vocab_map_file_path) =>
          (* Save mapping file *)
          let fs :=
            if save_vocab_file
            then <[phone39_vocab_map_file_path :=
                     phone_vocab_file phone39_set]>
                   (<[phone48_vocab_map_file_path :=
                        phone_vocab_file phone48_set]>
                      (<[phone61_vocab_map_file_path :=
                           phone_vocab_file phone61_set]> fs))
            else fs in
          (dirs, fs,
           trans_dict ←
             for_each (read_label fs phone2phone_map_file_path) label_paths [];
           (* Tokenize *)
           phone2idx_61 ← Phone2idx_init fs phone61_vocab_map_file_path [];
           phone2idx_48 ← Phone2idx_init fs phone48_vocab_map_file_path [];
           phone2idx_39 ← Phone2idx_init fs phone39_vocab_map_file_path [];
           mapM (tokenize phone2idx_61 phone2idx_48 phone2idx_39 is_test)
             trans_dict)
      end end end
  end.

End transcript_phone.

(** ** [timit/config/simplify.py] *)

Module simplify.

(** The body of [for line in rf]; the state is the text written so far. *)
Definition simple_line (written line : string) : result string :=
  parts ← Py.split line "  ";
  first ← Py.item parts 0;
  let simple_line :=
    first +:+ "  " +:+ Py.slice first 0 (String.length first - 3) +:+ "htk
" in
  Ok (written +:+ simple_line).

(** The script: the file system when it ends, and the exception if it is
    stopped by one.  The output file is opened, and so emptied, before the
    first line is read. *)
Definition simplify (fs : Py.filesystem) : Py.filesystem * result () :=
  match Py.read_file fs "wav2htk_concat_all.scp" with
  | Raise e => (fs, Raise e)
  | Ok data =>
      match for_each simple_line (Py.readlines data) "" with
      | Ok written => (<["wav2htk_simple.scp" := written]> fs, Ok ())
      | Raise e => (<["wav2htk_simple.scp" := ""]> fs, Raise e)
      end
  end.

End simplify.

(** Closed decidable facts are settled by evaluating their decision
    procedure. *)
Ltac by_decide :=
  match goal with
  | |- ?P => apply (bool_decide_unpack P); vm_compute; exact I
  end.

(** ** Notions used to state the properties *)

(** The symbols a vocabulary file yields: its lines, stripped, without those
    on the exclusion list. *)
Definition retained_symbols (data : string) (remove_list : list string)
    : list string :=
  filter (λ symbol, symbol ∉ remove_list) (Py.strip <$> Py.readlines data).

(** The inverse of an index map: [{idx: symbol for symbol, idx in
    map_dict.items()}]. *)
Definition inverse_map (map_dict : gmap string nat) : gmap nat string :=
  list_to_map (prod_swap <$> map_to_list map_dict).

(** The rows of the collapse table, each cut into its fields. *)
Definition table_rows (data : string) : list (list string) :=
  (λ line, Py.split_ws (Py.strip line)) <$> Py.readlines data.

(** The row that decides the fate of [phone]: the last one whose first field
    is [phone]. *)
Definition table_row (rows : list (list string)) (phone : string)
    : option (list string) :=
  last (filter (λ row, row !! 0 = Some phone) rows).

(** The column of a row that holds the target of a mapping. *)
Definition target_column (label_type : string) : nat :=
  if decide (label_type = "phone48") then 1 else 2.

(** What the mapping loop stores for a row: the empty string when the
    48-phone field is [nan], the field of the target column otherwise. *)
Definition row_image (label_type : string) (row : list string) : string :=
  if decide (row !! 1 = Some "nan") then ""
  else default "" (row !! target_column label_type).

(** The image of a phone: decided by its row, itself when it has none. *)
Definition collapse (rows : list (list string)) (label_type phone : string)
    : string :=
  match table_row rows phone with
  | Some row => row_image label_type row
  | None => phone
  end.

(** The fields that the rows of the table contribute to the three phone
    sets: rows with [nan] in the 48-phone field contribute to the first only. *)
Definition phones61_of (rows : list (list string)) : list string :=
  omap (λ row, row !! 0) rows.
Definition phones48_of (rows : list (list string)) : list string :=
  omap (λ row, if decide (row !! 1 = Some "nan") then None else row !! 1) rows.
Definition phones39_of (rows : list (list string)) : list string :=
  omap (λ row, if decide (row !! 1 = Some "nan") then None else row !! 2) rows.


(** The vocabulary loop on the retained symbols alone. *)
Definition number_symbols (symbols : list string) : gmap string nat * nat :=
  foldl (λ st symbol, (<[symbol := st.2]> st.1, st.2 + 1)) (∅, 0) symbols.

(** The map with the two reserved entries added. *)
Definition with_markers (symbols : list string) : gmap string nat :=
  <[">" := length symbols + 1]>
    (<["<" := length symbols]> (number_symbols symbols).1).

(** The result of a step that can only fail with [IndexError]. *)
Definition only_IndexError {A : Type} (r : result A) : Prop :=
  match r with
  | Ok _ => True
  | Raise e => e = IndexError
  end.

(** A symbol that survives being written to a line and read back: not empty
    and free of white space. *)
Fixpoint all_chars (P : ascii → bool) (s : string) : bool :=
  match s with
  | "" => true
  | String c s' => P c && all_chars P s'
  end.

Definition is_token (s : string) : Prop :=
  s ≠ "" ∧ all_chars (λ c, negb (Py.isspace c)) s = true.

(** The mapping loop on the rows of a well-formed table. *)
Definition store_row (label_type : string) (map_dict : gmap string string)
    (row : list string) : gmap string string :=
  <[default "" (row !! 0) := row_image label_type row]> map_dict.

(** The file system after [read_phone] has read a well-formed table and
    saved the three vocabularies. *)
Definition saved_vocabularies (fs : Py.filesystem)
    (vocab_file_save_path data : string) : Py.filesystem :=
  <[Py.path_join vocab_file_save_path "phone39.txt" :=
      transcript_phone.phone_vocab_file (list_to_set (phones39_of (table_rows data)))]>
    (<[Py.path_join vocab_file_save_path "phone48.txt" :=
         transcript_phone.phone_vocab_file (list_to_set (phones48_of (table_rows data)))]>
       (<[Py.path_join vocab_file_save_path "phone61.txt" :=
            transcript_phone.phone_vocab_file (list_to_set (phones61_of (table_rows data)))]>
          fs)).


(** The characters collected so far are tokens and cover the transcripts
    stored so far. *)
Definition covered (st : transcript_character.reading) : Prop :=
  (∀ x, x ∈ transcript_character.char_set st → is_token x)
  ∧ (∀ entry c,
       entry ∈ transcript_character.trans_dict st → c ∈ Py.chars entry.2 → c ∈ transcript_character.char_set st).

(** [spaced after_space s]: read after a space or at the start of a transcript
    ([after_space] true) or after another character, [s] is a sequence of
    non-empty words separated by single spaces that ends in a word. *)
Fixpoint spaced (after_space : bool) (s : string) : bool :=
  match s with
  | "" => negb after_space
  | String c s' =>
      if Ascii.eqb c " " then negb after_space && spaced true s'
      else spaced false s'
  end.

(** The lines of a script file that pairs the path [stem.wav] with some
    other text, and the lines that pair it with [stem.htk]. *)
Definition scp_lines (entries : list (string * string)) : list string :=
  (λ entry, (entry.1 +:+ "wav") +:+ "  " +:+ entry.2) <$> entries.
Definition htk_lines (entries : list (string * string)) : list string :=
  (λ entry, (entry.1 +:+ "wav") +:+ "  " +:+ entry.1 +:+ "htk") <$> entries.








(** The units of the letters that follow the first letter of a word, read
    from the left: a pair of [DOUBLE_LETTERS] where one starts, a single
    character elsewhere. *)
Fixpoint tail_units (s : string) : list string :=
  match s with
  | "" => []
  | String a s' =>
      match s' with
      | "" => [String a ""]
      | String b rest =>
          if decide (String a (String b "")
                       ∈ transcript_character.DOUBLE_LETTERS)
          then String a (String b "") :: tail_units rest
          else String a "" :: tail_units s'
      end
  end.

(** The units of a word: its first letter in upper case, then the units of
    the other letters. *)
Definition word_units (word : string) : list string :=
  match word with
  | "" => []
  | String a s => Py.upper (String a "") :: tail_units s
  end.








(** A label file with the single line [line], stored at [path]. *)
Definition one_file (path line : string) : Py.filesystem :=
  {[ path := line ]}.

(** ** Making the vocabulary directory *)

Section vocabulary_directory.

(** A directory that [mkdir] has passed exists afterwards: a second call
    changes nothing. *)
Lemma mkdir_again (dirs dirs' : Py.directories) (fs : Py.filesystem)
    (path_to_dir path : string) :
  transcript_character.mkdir dirs fs path_to_dir = Ok (dirs', path) →
  path = path_to_dir ∧ Py.isdir dirs' path_to_dir = true.
Proof.
  unfold transcript_character.mkdir.
  destruct (Py.isdir dirs path_to_dir) eqn:Hdir; [by intros [= <- <-]|].
  unfold Py.os_mkdir. repeat case_decide; try done.
  cbn [mbind result_bind]. intros [= <- <-]. split; [done|].
  unfold Py.isdir. destruct path_to_dir; [done|].
  apply bool_decide_eq_true. right. apply elem_of_union. left.
  by apply elem_of_singleton.
Qed.

Lemma mkdir_join_file (dirs dirs' : Py.directories) (fs : Py.filesystem)
    (path_to_dir name : string) :
  transcript_character.mkdir dirs fs path_to_dir = Ok (dirs', path_to_dir) →
  Py.contains "." name = true →
  transcript_character.mkdir_join dirs fs path_to_dir [name] =
    Ok (dirs', Py.path_join path_to_dir name).
Proof.
  intros Hmade Hdot. unfold transcript_character.mkdir_join. rewrite Hmade.
  cbn [mbind result_bind imap for_each length].
  unfold transcript_character.join_step. by rewrite decide_True.
Qed.

Lemma mkdir_join_raises (dirs : Py.directories) (fs : Py.filesystem)
    (path_to_dir : string) (dir_name : list string) (e : exn) :
  transcript_character.mkdir dirs fs path_to_dir = Raise e →
  transcript_character.mkdir_join dirs fs path_to_dir dir_name = Raise e.
Proof.
  intros Hmade. unfold transcript_character.mkdir_join. by rewrite Hmade.
Qed.

Lemma mkdir_twice (dirs dirs' : Py.directories) (fs : Py.filesystem)
    (path_to_dir : string) :
  transcript_character.mkdir dirs fs path_to_dir = Ok (dirs', path_to_dir) →
  transcript_character.mkdir dirs' fs path_to_dir = Ok (dirs', path_to_dir).
Proof.
  intros [_ Hdir]%mkdir_again. unfold transcript_character.mkdir.
  by rewrite Hdir.
Qed.

Lemma mkdir_after (dirs dirs' : Py.directories) (fs fs' : Py.filesystem)
    (path_to_dir : string) :
  transcript_character.mkdir dirs fs path_to_dir = Ok (dirs', path_to_dir) →
  transcript_character.mkdir dirs' fs' path_to_dir = Ok (dirs', path_to_dir).
Proof.
  intros [_ Hdir]%mkdir_again. unfold transcript_character.mkdir.
  by rewrite Hdir.
Qed.

(** [mkdir] returns the path it was given, or raises [IOError] for it. *)
Lemma mkdir_result (dirs : Py.directories) (fs : Py.filesystem)
    (path_to_dir : string) :
  (∃ dirs', transcript_character.mkdir dirs fs path_to_dir
            = Ok (dirs', path_to_dir))
  ∨ transcript_character.mkdir dirs fs path_to_dir
    = Raise (IOError path_to_dir).
Proof.
  unfold transcript_character.mkdir.
  destruct (Py.isdir dirs path_to_dir); [left; by eexists|].
  unfold Py.os_mkdir. repeat case_decide; try (by right).
  left. by eexists.
Qed.

(** [read_char] once the label files are read, when the vocabulary
    directory exists or can be made, and when it cannot. *)
Lemma read_char_made (dirs dirs' : Py.directories) (fs : Py.filesystem)
    (label_paths : list string) (vocab_file_save_path : string)
    (save_vocab_file is_test : bool) (st : transcript_character.reading) :
  for_each (transcript_character.read_label fs) label_paths
    {| transcript_character.trans_dict := [];
       transcript_character.char_set := ∅;
       transcript_character.char_capital_set := ∅ |} = Ok st →
  transcript_character.mkdir dirs fs vocab_file_save_path
    = Ok (dirs', vocab_file_save_path) →
  transcript_character.read_char dirs fs label_paths vocab_file_save_path
    save_vocab_file is_test =
  let char_vocab_file_path :=
    Py.path_join vocab_file_save_path "character.txt" in
  let char_capital_vocab_file_path :=
    Py.path_join vocab_file_save_path "character_capital_divide.txt" in
  let fs' :=
    if save_vocab_file
    then <[char_capital_vocab_file_path :=
             transcript_character.char_capital_vocab_file
               (transcript_character.char_capital_set st)]>
           (<[char_vocab_file_path :=
                transcript_character.char_vocab_file
                  (transcript_character.char_set st)]> fs)
    else fs in
  (dirs', fs',
   char2idx ←
     transcript_character.Char2idx_init fs' char_vocab_file_path "_" false
       false [];
   char2idx_capital ←
     transcript_character.Char2idx_init fs' char_capital_vocab_file_path "_"
       true false [];
   mapM (transcript_character.tokenize char2idx char2idx_capital is_test)
     (transcript_character.trans_dict st)).
Proof.
  intros Hscan Hmade. unfold transcript_character.read_char. rewrite Hscan.
  rewrite (mkdir_join_file _ _ _ _ _ Hmade) by done.
  by rewrite (mkdir_join_file _ _ _ _ _ (mkdir_twice _ _ _ _ Hmade)) by done.
Qed.

Lemma read_char_not_made (dirs : Py.directories) (fs : Py.filesystem)
    (label_paths : list string) (vocab_file_save_path : string)
    (save_vocab_file is_test : bool) (st : transcript_character.reading)
    (e : exn) :
  for_each (transcript_character.read_label fs) label_paths
    {| transcript_character.trans_dict := [];
       transcript_character.char_set := ∅;
       transcript_character.char_capital_set := ∅ |} = Ok st →
  transcript_character.mkdir dirs fs vocab_file_save_path = Raise e →
  transcript_character.read_char dirs fs label_paths vocab_file_save_path
    save_vocab_file is_test = (dirs, fs, Raise e).
Proof.
  intros Hscan Hmade. unfold transcript_character.read_char. rewrite Hscan.
  by rewrite (mkdir_join_raises _ _ _ _ _ Hmade).
Qed.

(** [read_phone] once the table is read *)
Lemma read_phone_made (dirs dirs' : Py.directories) (fs : Py.filesystem)
    (label_paths : list string) (vocab_file_save_path data : string)
    (save_vocab_file is_test : bool)
    (phone61_set phone48_set phone39_set : gset string) :
  fs !! Py.path_join vocab_file_save_path "../phone2phone.txt" = Some data →
  for_each transcript_phone.set_line (Py.readlines data) (∅, ∅, ∅)
    = Ok (phone61_set, phone48_set, phone39_set) →
  transcript_phone.mkdir dirs fs vocab_file_save_path
    = Ok (dirs', vocab_file_save_path) →
  transcript_phone.read_phone dirs fs label_paths vocab_file_save_path
    save_vocab_file is_test =
  let phone61_vocab_map_file_path :=
    Py.path_join vocab_file_save_path "phone61.txt" in
  let phone48_vocab_map_file_path :=
    Py.path_join vocab_file_save_path "phone48.txt" in
  let phone39_vocab_map_file_path :=
    Py.path_join vocab_file_save_path "phone39.txt" in
  let fs' :=
    if save_vocab_file
    then <[phone39_vocab_map_file_path :=
             transcript_phone.phone_vocab_file phone39_set]>
           (<[phone48_vocab_map_file_path :=
                transcript_phone.phone_vocab_file phone48_set]>
              (<[phone61_vocab_map_file_path :=
                   transcript_phone.phone_vocab_file phone61_set]> fs))
    else fs in
  (dirs', fs',
   trans_dict ←
     for_each
       (transcript_phone.read_label fs'
          (Py.path_join vocab_file_save_path "../phone2phone.txt"))
       label_paths [];
   phone2idx_61 ←
     transcript_phone.Phone2idx_init fs' phone61_vocab_map_file_path [];
   phone2idx_48 ←
     transcript_phone.Phone2idx_init fs' phone48_vocab_map_file_path [];
   phone2idx_39 ←
     transcript_phone.Phone2idx_init fs' phone39_vocab_map_file_path [];
   mapM (transcript_phone.tokenize phone2idx_61 phone2idx_48 phone2idx_39
           is_test) trans_dict).
Proof.
  intros Hfile Hsets Hmade. unfold transcript_phone.read_phone, Py.read_file.
  rewrite Hfile. cbn [mbind result_bind]. rewrite Hsets.
  pose proof (mkdir_twice _ _ _ _ Hmade) as Hagain.
  change transcript_phone.mkdir_join with transcript_character.mkdir_join.
  rewrite (mkdir_join_file _ _ _ _ _ Hmade) by done.
  by rewrite !(mkdir_join_file _ _ _ _ _ Hagain) by done.
Qed.

Lemma read_phone_not_made (dirs : Py.directories) (fs : Py.filesystem)
    (label_paths : list string) (vocab_file_save_path data : string)
    (save_vocab_file is_test : bool)
    (sets : gset string * gset string * gset string) (e : exn) :
  fs !! Py.path_join vocab_file_save_path "../phone2phone.txt" = Some data →
  for_each transcript_phone.set_line (Py.readlines data) (∅, ∅, ∅) = Ok sets →
  transcript_phone.mkdir dirs fs vocab_file_save_path = Raise e →
  transcript_phone.read_phone dirs fs label_paths vocab_file_save_path
    save_vocab_file is_test = (dirs, fs, Raise e).
Proof.
  intros Hfile Hsets Hmade. unfold transcript_phone.read_phone, Py.read_file.
  rewrite Hfile. cbn [mbind result_bind]. rewrite Hsets.
  destruct sets as [[phone61_set phone48_set] phone39_set].
  change transcript_phone.mkdir_join with transcript_character.mkdir_join.
  by rewrite (mkdir_join_raises _ _ _ _ _ Hmade).
Qed.

End vocabulary_directory.

(** ** Single words in capital-divided mode *)

Section capital_divided_words.
Import transcript_character.

Lemma dict_get_Some {V : Type} (d : gmap string V) (k : string) (v : V) :
  d !! k = Some v → Py.dict_get d k = Ok v.
Proof. unfold Py.dict_get. by intros ->. Qed.

Lemma dict_get_None {V : Type} (d : gmap string V) (k : string) :
  d !! k = None → Py.dict_get d k = Raise (KeyError k).
Proof. unfold Py.dict_get. by intros ->. Qed.

Lemma getitem_0 (c : ascii) (s : string) :
  Py.getitem (String c s) 0 = Ok (String c "").
Proof. done. Qed.

Lemma last_single (c : ascii) : Py.last (String c "") = Ok (String c "").
Proof. done. Qed.

End capital_divided_words.

(** C2 (defect): in capital-divided mode a word of length one does not yield
    one unit.  [Char2idx.__call__] looks its upper-cased letter up, runs the
    empty body scan, and then, [skip_flag] still being false, looks the letter
    itself up as the final character: two indices, or a [KeyError] when the
    lower-case letter is not in the vocabulary.  For the word [a] with both
    [A] and [a] in the vocabulary the result is the two indices of [A] and
    [a]. *)
Theorem C2_single_letter_word_yields_two_units :
  (∀ (map_dict : gmap string nat) (c : ascii),
     transcript_character.capital_word map_dict [] (String c "") =
       (capital ← Py.dict_get map_dict (Py.upper (String c ""));
        letter ← Py.dict_get map_dict (String c "");
        Ok [capital; letter]))
  ∧ (∀ (capital letter : nat) (remove_list : list string),
       transcript_character.Char2idx_call
         {| transcript_character.space_mark := "_";
            transcript_character.capital_divide := true;
            transcript_character.double_letter := false;
            transcript_character.remove_list := remove_list;
            transcript_character.map_dict :=
              <["A" := capital]> {["a" := letter]} |} "a"
       = Ok [capital; letter]).
Proof.
  split.
  - intros map_dict c.
    unfold transcript_character.capital_word.
    rewrite getitem_0. cbn [mbind result_bind].
    destruct (Py.dict_get map_dict (Py.upper (String c ""))) as [capital|e];
      [|done].
    cbn [String.length Py.range]. cbn [Nat.sub seq for_each mbind result_bind].
    unfold transcript_character.final_char. rewrite last_single.
    cbn [mbind result_bind].
    by destruct (Py.dict_get map_dict (String c "")).
  - intros capital letter remove_list. done.
Qed.

(** C6: in capital-divided mode the word [all] is tokenised as the index of
    [A] followed by the index of the double-letter unit [ll], and nothing
    else, whenever the vocabulary holds both units. *)
Theorem C6_all_yields_capital_and_double_letter
    (self : transcript_character.Char2idx) (capital pair : nat) :
  transcript_character.capital_divide self = true →
  transcript_character.space_mark self = "_" →
  transcript_character.map_dict self !! "A" = Some capital →
  transcript_character.map_dict self !! "ll" = Some pair →
  transcript_character.Char2idx_call self "all" = Ok [capital; pair].
Proof.
  intros Hmode Hmark HA Hll.
  unfold transcript_character.Char2idx_call. rewrite Hmode, Hmark.
  change (Py.split "all" "_") with (Ok ["all"]).
  cbn [mbind result_bind for_each].
  unfold transcript_character.capital_word.
  change (Py.getitem "all" 0) with (Ok "a").
  cbn [mbind result_bind].
  change (Py.upper "a") with "A".
  unfold Py.dict_get at 1. rewrite HA.
  change (Py.range 1 (String.length "all" - 1)) with [1].
  cbn [mbind result_bind for_each app].
  unfold transcript_character.pair_scan.
  change (Py.slice "all" 1 (1 + 2)) with "ll".
  rewrite decide_True by (apply elem_of_dom; eauto).
  unfold Py.dict_get. rewrite Hll. done.
Qed.

Lemma C6_all_witness :
  transcript_character.Char2idx_call
    {| transcript_character.space_mark := "_";
       transcript_character.capital_divide := true;
       transcript_character.double_letter := false;
       transcript_character.remove_list := [];
       transcript_character.map_dict :=
         {[ "A" := 0; "l" := 1; "ll" := 2; "'" := 3; "<" := 4; ">" := 5 ]} |}
    "all" = Ok [0; 2].
Proof. apply C6_all_yields_capital_and_double_letter; reflexivity. Defined.

(** C1 (defect): a corpus whose only transcript is [i see] yields the
    capital-divided vocabulary [I], [S], [ee] and the apostrophe.  The plain
    indexer tokenises the stored transcript [i_see]; the capital-divided
    indexer looks up [I] and then the lower-case [i] as the final character
    of the one-letter word, which the vocabulary lacks: [read_char] raises
    [KeyError]. *)
Theorem C1_capital_divided_lookup_fails :
  let label_path := "timit/train/dr1/fcjf0/si1027.txt" in
  let fs := one_file label_path "0 12000 I see.
" in
  let after := transcript_character.read_char {["config"]} fs [label_path]
                 "config/vocab_files" true false in
  after.1.2 !! "config/vocab_files/character_capital_divide.txt"
    = Some (Py.write_lines ["I"; "S"; "ee"; "'"])
  ∧ (char2idx ← transcript_character.Char2idx_init after.1.2
                  "config/vocab_files/character.txt" "_" false false [];
     transcript_character.Char2idx_call char2idx "i_see")
    = Ok [1; 3; 2; 0; 0]
  ∧ (char2idx_capital ← transcript_character.Char2idx_init after.1.2
                          "config/vocab_files/character_capital_divide.txt"
                          "_" true false [];
     transcript_character.Char2idx_call char2idx_capital "i_see")
    = Raise (KeyError "i")
  ∧ after.2 = Raise (KeyError "i").
Proof. vm_compute. done. Qed.

(** ** The numbering of a vocabulary *)

Section numbering.

Lemma vocab_loop_retained (remove_list : list string) (lines : list string)
    (st : gmap string nat * nat) :
  foldl (transcript_character.vocab_line remove_list) st lines =
  foldl (λ st symbol, (<[symbol := st.2]> st.1, st.2 + 1)) st
    (filter (λ symbol, symbol ∉ remove_list) (Py.strip <$> lines)).
Proof.
  revert st. induction lines as [|line lines IH]; intros st; [done|].
  cbn [foldl fmap list_fmap]. rewrite IH.
  unfold transcript_character.vocab_line at 1.
  rewrite filter_cons. by repeat case_decide.
Qed.

Lemma number_symbols_snoc (symbols : list string) (symbol : string) :
  number_symbols (symbols ++ [symbol]) =
    (<[symbol := (number_symbols symbols).2]> (number_symbols symbols).1,
     (number_symbols symbols).2 + 1).
Proof. unfold number_symbols. by rewrite foldl_app. Qed.

Lemma number_symbols_count (symbols : list string) :
  (number_symbols symbols).2 = length symbols.
Proof.
  induction symbols as [|symbol symbols IH] using rev_ind; [done|].
  rewrite number_symbols_snoc, length_app. cbn. lia.
Qed.

(** A symbol is numbered by the position of its last occurrence. *)
Lemma number_symbols_lookup (symbols : list string) (symbol : string) (i : nat) :
  (number_symbols symbols).1 !! symbol = Some i ↔
  symbols !! i = Some symbol ∧ ∀ j, i < j → symbols !! j ≠ Some symbol.
Proof.
  revert i. induction symbols as [|last symbols IH] using rev_ind; intros i.
  { cbn. rewrite lookup_empty. split; [done|]. by intros [? _]. }
  rewrite number_symbols_snoc, number_symbols_count. cbn [fst].
  destruct (decide (last = symbol)) as [->|Hne].
  - rewrite lookup_insert_eq. split.
    + intros [= <-]. split.
      * by rewrite lookup_app_r, Nat.sub_diag by lia.
      * intros j Hj. rewrite lookup_ge_None_2; [done|].
        rewrite length_app. cbn. lia.
    + intros [Hi Hlater].
      destruct (decide (i = length symbols)) as [->|Hi']; [done|].
      exfalso. apply (Hlater (length symbols)).
      * apply lookup_lt_Some in Hi. rewrite length_app in Hi. cbn in Hi. lia.
      * by rewrite lookup_app_r, Nat.sub_diag by lia.
  - rewrite lookup_insert_ne by done. rewrite IH. split.
    + intros [Hi Hlater]. split.
      * by apply lookup_app_l_Some.
      * intros j Hj. destruct (decide (j < length symbols)).
        -- rewrite lookup_app_l by done. by apply Hlater.
        -- destruct (decide (j = length symbols)) as [->|].
           ++ rewrite lookup_app_r, Nat.sub_diag by lia. cbn. congruence.
           ++ rewrite lookup_ge_None_2; [done|]. rewrite length_app. cbn. lia.
    + intros [Hi Hlater].
      assert (i < length symbols) as Hlt.
      { apply lookup_lt_Some in Hi as Hlen. rewrite length_app in Hlen.
        cbn in Hlen. destruct (decide (i = length symbols)) as [->|]; [|lia].
        rewrite lookup_app_r, Nat.sub_diag in Hi by lia. cbn in Hi.
        congruence. }
      split.
      * by rewrite lookup_app_l in Hi.
      * intros j Hj Hsome. apply (Hlater j Hj). by apply lookup_app_l_Some.
Qed.

Lemma number_symbols_bound (symbols : list string) (symbol : string) (i : nat) :
  (number_symbols symbols).1 !! symbol = Some i → i < length symbols.
Proof.
  intros [Hi _]%number_symbols_lookup. by apply lookup_lt_Some in Hi.
Qed.

Lemma with_markers_inj (symbols : list string) (s1 s2 : string) (i : nat) :
  with_markers symbols !! s1 = Some i →
  with_markers symbols !! s2 = Some i →
  s1 = s2.
Proof.
  unfold with_markers. intros H1 H2.
  apply lookup_insert_Some in H1 as [[<- <-]|[Hn1 H1]];
    apply lookup_insert_Some in H2 as [[<- H2]|[Hn2 H2]]; try done.
  - apply lookup_insert_Some in H2 as [[_ ?]|[_ H2]]; [lia|].
    apply number_symbols_bound in H2. lia.
  - apply lookup_insert_Some in H1 as [[_ ?]|[_ H1]]; [lia|].
    apply number_symbols_bound in H1. lia.
  - apply lookup_insert_Some in H1 as [[<- <-]|[Hn1' H1]];
      apply lookup_insert_Some in H2 as [[<- H2]|[Hn2' H2]]; try done.
    + apply number_symbols_bound in H2. lia.
    + apply number_symbols_bound in H1. lia.
    + apply number_symbols_lookup in H1 as [H1 _].
      apply number_symbols_lookup in H2 as [H2 _]. congruence.
Qed.

Lemma Char2idx_init_map (fs : Py.filesystem) (path data space_mark : string)
    (capital_divide double_letter : bool) (remove_list : list string) :
  fs !! path = Some data →
  transcript_character.Char2idx_init fs path space_mark capital_divide
    double_letter remove_list =
  Ok {| transcript_character.space_mark := space_mark;
        transcript_character.capital_divide := capital_divide;
        transcript_character.double_letter := double_letter;
        transcript_character.remove_list := remove_list;
        transcript_character.map_dict :=
          with_markers (retained_symbols data remove_list) |}.
Proof.
  intros Hfile. unfold transcript_character.Char2idx_init, Py.read_file.
  rewrite Hfile. cbn [mbind result_bind].
  rewrite vocab_loop_retained.
  fold (retained_symbols data remove_list).
  fold (number_symbols (retained_symbols data remove_list)).
  unfold with_markers.
  pose proof (number_symbols_count (retained_symbols data remove_list)) as Hn.
  destruct (number_symbols (retained_symbols data remove_list)) as [m n].
  cbn in Hn. subst n. done.
Qed.

Lemma Phone2idx_init_map (fs : Py.filesystem) (path data : string)
    (remove_list : list string) :
  fs !! path = Some data →
  transcript_phone.Phone2idx_init fs path remove_list =
  Ok {| transcript_phone.map_dict :=
          with_markers (retained_symbols data remove_list) |}.
Proof.
  intros Hfile. unfold transcript_phone.Phone2idx_init, Py.read_file.
  rewrite Hfile. cbn [mbind result_bind].
  change (transcript_phone.vocab_line remove_list)
    with (transcript_character.vocab_line remove_list).
  rewrite vocab_loop_retained.
  fold (retained_symbols data remove_list).
  fold (number_symbols (retained_symbols data remove_list)).
  unfold with_markers.
  pose proof (number_symbols_count (retained_symbols data remove_list)) as Hn.
  destruct (number_symbols (retained_symbols data remove_list)) as [m n].
  cbn in Hn. subst n. done.
Qed.

End numbering.

(** C4, as stated, fails: a vocabulary file whose single line is the symbol
    [<] yields one retained symbol (N = 1), and [<] is mapped to 1, so the
    retained symbol does not occupy index 0 (no symbol does). *)
Lemma C4_counterexample :
  let fs : Py.filesystem := {[ "vocab.txt" := Py.write_lines ["<"] ]} in
  retained_symbols (Py.write_lines ["<"]) [] = ["<"]
  ∧ ∃ self,
      transcript_character.Char2idx_init fs "vocab.txt" "_" false false []
        = Ok self
      ∧ transcript_character.map_dict self !! "<" = Some 1
      ∧ ¬ ∃ symbol, transcript_character.map_dict self !! symbol = Some 0.
Proof.
  cbn zeta. split; [done|]. eexists.
  split; [by apply Char2idx_init_map; apply lookup_singleton_eq|].
  cbn [transcript_character.map_dict].
  change (retained_symbols (Py.write_lines ["<"]) []) with ["<"].
  unfold with_markers, number_symbols. cbn [foldl length fst snd].
  split; [done|].
  intros [symbol Hsymbol].
  apply lookup_insert_Some in Hsymbol as [[_ ?]|[_ Hsymbol]]; [done|].
  apply lookup_insert_Some in Hsymbol as [[_ ?]|[Hmarker Hsymbol]]; [done|].
  apply lookup_insert_Some in Hsymbol as [[? _]|[_ Hsymbol]]; [done|].
  by rewrite lookup_empty in Hsymbol.
Qed.

(** C4 (amended): both constructors succeed on an existing vocabulary file;
    with N the number of retained symbols, [<] maps to N and [>] to N+1; a
    retained symbol other than [<] and [>] maps to the position, among the
    retained symbols, of its last occurrence.  Hence retained symbols that are
    pairwise distinct and contain neither marker occupy 0..N-1 in file
    order. *)
Theorem C4_reserved_slots_and_numbering (fs : Py.filesystem)
    (path data space_mark : string) (capital_divide double_letter : bool)
    (remove_list : list string) :
  fs !! path = Some data →
  let retained := retained_symbols data remove_list in
  let N := length retained in
  ∃ char2idx phone2idx,
    transcript_character.Char2idx_init fs path space_mark capital_divide
      double_letter remove_list = Ok char2idx
    ∧ transcript_phone.Phone2idx_init fs path remove_list = Ok phone2idx
    ∧ transcript_phone.map_dict phone2idx
        = transcript_character.map_dict char2idx
    ∧ transcript_character.map_dict char2idx !! "<" = Some N
    ∧ transcript_character.map_dict char2idx !! ">" = Some (N + 1)
    ∧ (∀ i symbol,
         retained !! i = Some symbol → symbol ≠ "<" → symbol ≠ ">" →
         (∀ j, i < j → retained !! j ≠ Some symbol) →
         transcript_character.map_dict char2idx !! symbol = Some i)
    ∧ (NoDup retained → "<" ∉ retained → ">" ∉ retained →
       ∀ i symbol,
         retained !! i = Some symbol →
         transcript_character.map_dict char2idx !! symbol = Some i).
Proof.
  intros Hfile retained N.
  assert (∀ i symbol,
    retained !! i = Some symbol → symbol ≠ "<" → symbol ≠ ">" →
    (∀ j, i < j → retained !! j ≠ Some symbol) →
    with_markers retained !! symbol = Some i) as Hnumber.
  { intros i symbol Hi Hlt Hgt Hlast. unfold with_markers.
    rewrite !lookup_insert_ne by done. by apply number_symbols_lookup. }
  eexists _, _. split; [by apply Char2idx_init_map|].
  split; [by apply Phone2idx_init_map|].
  cbn [transcript_character.map_dict transcript_phone.map_dict].
  split; [done|]. split; [|split; [|split]].
  - unfold with_markers. rewrite lookup_insert_ne by done.
    by rewrite lookup_insert_eq.
  - unfold with_markers. by rewrite lookup_insert_eq.
  - exact Hnumber.
  - intros Hnodup Hlt Hgt i symbol Hi.
    assert (symbol ∈ retained) as Hin by (by eapply list_elem_of_lookup_2).
    apply Hnumber; [done|congruence|congruence|].
    intros j Hj Hjs.
    pose proof (NoDup_lookup _ _ _ _ Hnodup Hi Hjs). lia.
Qed.

Lemma C4_reserved_slots_witness :
  let fs : Py.filesystem := {[ "phone39.txt" := Py.write_lines ["aa"; "ae"; "ah"] ]} in
  ∃ char2idx phone2idx,
    transcript_character.Char2idx_init fs "phone39.txt" "_" false false ["ae"]
      = Ok char2idx
    ∧ transcript_phone.Phone2idx_init fs "phone39.txt" ["ae"] = Ok phone2idx
    ∧ transcript_phone.map_dict phone2idx
        = transcript_character.map_dict char2idx
    ∧ transcript_character.map_dict char2idx !! "<" = Some 2
    ∧ transcript_character.map_dict char2idx !! ">" = Some 3
    ∧ transcript_character.map_dict char2idx !! "aa" = Some 0
    ∧ transcript_character.map_dict char2idx !! "ah" = Some 1.
Proof.
  destruct (C4_reserved_slots_and_numbering
              {[ "phone39.txt" := Py.write_lines ["aa"; "ae"; "ah"] ]}
              "phone39.txt" (Py.write_lines ["aa"; "ae"; "ah"]) "_"
              false false ["ae"])
    as (char2idx & phone2idx & Hc & Hp & Heq & Hlt & Hgt & _ & Hnum);
    [vm_compute; reflexivity|].
  exists char2idx, phone2idx. repeat split; try assumption.
  - apply Hnum; [by_decide | by_decide | by_decide | reflexivity].
  - apply Hnum; [by_decide | by_decide | by_decide | reflexivity].
Defined.

(** ** Decoding plain index sequences *)

Section decoding.

Lemma inverse_map_lookup (map_dict : gmap string nat) (symbol : string)
    (idx : nat) :
  (∀ s1 s2 i, map_dict !! s1 = Some i → map_dict !! s2 = Some i → s1 = s2) →
  map_dict !! symbol = Some idx →
  inverse_map map_dict !! idx = Some symbol.
Proof.
  intros Hinj Hsymbol. unfold inverse_map.
  apply elem_of_list_to_map_1.
  - rewrite <-list_fmap_compose.
    apply NoDup_fmap_2_strong; [|apply NoDup_map_to_list].
    intros [s1 i1] [s2 i2] H1%elem_of_map_to_list H2%elem_of_map_to_list.
    cbn. intros ->. f_equal. by eapply Hinj.
  - apply list_elem_of_fmap. exists (symbol, idx).
    split; [done|]. by apply elem_of_map_to_list.
Qed.

Lemma join_chars (s : string) : Py.join "" (Py.chars s) = s.
Proof.
  induction s as [|c s IH]; [done|].
  cbn [Py.chars]. destruct s as [|c' s]; [done|].
  change (Py.join "" (String c "" :: Py.chars (String c' s)))
    with (String c "" +:+ "" +:+ Py.join "" (Py.chars (String c' s))).
  by rewrite IH.
Qed.

Lemma plain_lookup_decodes (map_dict : gmap string nat) (symbols : list string) :
  (∀ s1 s2 i, map_dict !! s1 = Some i → map_dict !! s2 = Some i → s1 = s2) →
  Forall (λ c, is_Some (map_dict !! c)) symbols →
  ∃ index_list,
    mapM (Py.dict_get map_dict) symbols = Ok index_list
    ∧ (λ idx, inverse_map map_dict !! idx) <$> index_list = Some <$> symbols.
Proof.
  intros Hinj. induction 1 as [|c symbols [idx Hc] _ (index_list & Hrun & Hdec)].
  { by exists []. }
  exists (idx :: index_list).
  change (mapM (Py.dict_get map_dict) (c :: symbols))
    with (i ← Py.dict_get map_dict c;
          rest ← mapM (Py.dict_get map_dict) symbols; Ok (i :: rest)).
  rewrite (dict_get_Some _ _ _ Hc).
  cbn [mbind result_bind]. rewrite Hrun. split; [done|].
  cbn [fmap list_fmap]. f_equal; [|exact Hdec].
  by apply inverse_map_lookup.
Qed.

End decoding.

(** C7: in plain mode, for an indexer loaded from any vocabulary file and a
    transcript all of whose characters are in its map, tokenisation succeeds
    and looking every index up in the inverse map gives back the characters
    of the transcript, one by one and in order; their concatenation is the
    transcript. *)
Theorem C7_plain_indices_decode_to_transcript (fs : Py.filesystem)
    (vocab_file_path space_mark : string) (remove_list : list string)
    (self : transcript_character.Char2idx) (str_char : string) :
  transcript_character.Char2idx_init fs vocab_file_path space_mark false false
    remove_list = Ok self →
  Forall (λ c, is_Some (transcript_character.map_dict self !! c))
    (Py.chars str_char) →
  ∃ index_list,
    transcript_character.Char2idx_call self str_char = Ok index_list
    ∧ (λ idx, inverse_map (transcript_character.map_dict self) !! idx)
        <$> index_list = Some <$> Py.chars str_char
    ∧ Py.join "" (Py.chars str_char) = str_char.
Proof.
  intros Hinit Hchars.
  assert (∃ data, fs !! vocab_file_path = Some data) as [data Hfile].
  { unfold transcript_character.Char2idx_init, Py.read_file in Hinit.
    destruct (fs !! vocab_file_path); [eauto|done]. }
  rewrite (Char2idx_init_map _ _ _ _ _ _ _ Hfile) in Hinit.
  injection Hinit as <-.
  cbn [transcript_character.map_dict] in *.
  destruct (plain_lookup_decodes _ _
              (with_markers_inj (retained_symbols data remove_list)) Hchars)
    as (index_list & Hrun & Hdec).
  exists index_list. split; [exact Hrun|]. split; [exact Hdec|].
  apply join_chars.
Qed.

Lemma C7_plain_round_trip_witness :
  let self :=
    {| transcript_character.space_mark := "_";
       transcript_character.capital_divide := false;
       transcript_character.double_letter := false;
       transcript_character.remove_list := [];
       transcript_character.map_dict :=
         with_markers ["a"; "d"; "h"; "_"; "'"] |} in
  ∃ index_list,
    transcript_character.Char2idx_call self "had_a" = Ok index_list
    ∧ (λ idx, inverse_map (transcript_character.map_dict self) !! idx)
        <$> index_list = Some <$> ["h"; "a"; "d"; "_"; "a"].
Proof.
  intros self.
  destruct (C7_plain_indices_decode_to_transcript
              {[ "character.txt" := Py.write_lines ["a"; "d"; "h"; "_"; "'"] ]}
              "character.txt" "_" [] self "had_a")
    as (index_list & Hrun & Hdec & _);
    [vm_compute; reflexivity | by_decide |].
  exists index_list. split; [exact Hrun | exact Hdec].
Defined.

(** ** Failures of the character reader before tokenisation *)

Section reading_failures.
Import transcript_character.

Lemma only_IndexError_bind {A B : Type} (r : result A) (f : A → result B) :
  only_IndexError r → (∀ a, only_IndexError (f a)) → only_IndexError (r ≫= f).
Proof. destruct r as [a|e]; cbn; [auto|done]. Qed.

Lemma only_IndexError_for_each {S A : Type} (body : S → A → result S)
    (xs : list A) (st : S) :
  (∀ st x, only_IndexError (body st x)) →
  only_IndexError (for_each body xs st).
Proof.
  intros Hbody. revert st. induction xs as [|x xs IH]; intros st; [done|].
  cbn [for_each]. by apply only_IndexError_bind.
Qed.

Lemma only_IndexError_getitem (s : string) (i : nat) :
  only_IndexError (Py.getitem s i).
Proof. unfold Py.getitem. by destruct (String.get i s). Qed.

Lemma only_IndexError_last (s : string) : only_IndexError (Py.last s).
Proof. destruct s; [done|]. apply only_IndexError_getitem. Qed.

Lemma only_IndexError_item {A : Type} (l : list A) (i : nat) :
  only_IndexError (Py.item l i).
Proof. unfold Py.item. by destruct (l !! i). Qed.

Lemma only_IndexError_item_from_end {A : Type} (l : list A) (k : nat) :
  only_IndexError (Py.item_from_end l k).
Proof.
  unfold Py.item_from_end. case_decide; [apply only_IndexError_item|done].
Qed.

Lemma only_IndexError_utt_name_of (label_path : string) :
  only_IndexError (utt_name_of label_path).
Proof.
  unfold utt_name_of, Py.split.
  apply only_IndexError_bind; [done|]. intros dirs.
  apply only_IndexError_bind; [apply only_IndexError_item_from_end|].
  intros speaker. apply only_IndexError_bind; [done|]. intros parts.
  apply only_IndexError_bind; [apply only_IndexError_item|done].
Qed.

Lemma only_IndexError_trim_spaces (transcript : string) :
  only_IndexError (trim_spaces transcript).
Proof.
  unfold trim_spaces.
  apply only_IndexError_bind; [apply only_IndexError_getitem|]. intros first.
  apply only_IndexError_bind; [apply only_IndexError_last|done].
Qed.

Lemma only_IndexError_capital_units (set : gset string) (word : string) :
  only_IndexError (capital_units set word).
Proof.
  unfold capital_units. case_decide; [done|].
  apply only_IndexError_bind; [apply only_IndexError_getitem|]. intros c.
  apply only_IndexError_bind; [apply only_IndexError_getitem|]. intros c'.
  apply only_IndexError_bind.
  - apply only_IndexError_for_each. intros [skip_flag units] i.
    unfold unit_scan. destruct skip_flag; [done|]. case_decide; [done|].
    apply only_IndexError_bind; [apply only_IndexError_getitem|done].
  - intros [skip_flag units]. unfold final_unit. destruct skip_flag; [done|].
    apply only_IndexError_bind; [apply only_IndexError_last|done].
Qed.

Lemma only_IndexError_read_label (fs : Py.filesystem) (st : reading)
    (label_path : string) :
  is_Some (fs !! label_path) →
  only_IndexError (read_label fs st label_path).
Proof.
  intros [data Hfile]. unfold read_label, Py.read_file. rewrite Hfile.
  cbn [mbind result_bind].
  apply only_IndexError_bind; [apply only_IndexError_item_from_end|].
  intros line.
  apply only_IndexError_bind; [apply only_IndexError_utt_name_of|].
  intros utt_name. apply only_IndexError_bind; [done|]. intros transcript.
  apply only_IndexError_bind; [apply only_IndexError_trim_spaces|].
  intros trimmed. apply only_IndexError_bind; [done|]. intros words.
  apply only_IndexError_bind; [|done].
  apply only_IndexError_for_each. intros; apply only_IndexError_capital_units.
Qed.

(** A label file whose cleaned last line is empty stops the loop. *)
Lemma read_label_empty_transcript (fs : Py.filesystem) (st : reading)
    (label_path data line : string) :
  fs !! label_path = Some data →
  Py.item_from_end (Py.readlines data) 1 = Ok line →
  clean_line line = Ok "" →
  read_label fs st label_path = Raise IndexError.
Proof.
  intros Hfile Hline Hclean. unfold read_label, Py.read_file.
  rewrite Hfile. cbn [mbind result_bind]. rewrite Hline.
  cbn [mbind result_bind].
  pose proof (only_IndexError_utt_name_of label_path) as Hname.
  destruct (utt_name_of label_path) as [utt_name|e]; cbn in Hname;
    [|by subst e].
  cbn [mbind result_bind]. by rewrite Hclean.
Qed.

Lemma for_each_read_label_empty_transcript (fs : Py.filesystem)
    (label_paths : list string) (st : reading) (label_path data line : string) :
  label_path ∈ label_paths →
  Forall (λ path, is_Some (fs !! path)) label_paths →
  fs !! label_path = Some data →
  Py.item_from_end (Py.readlines data) 1 = Ok line →
  clean_line line = Ok "" →
  for_each (read_label fs) label_paths st = Raise IndexError.
Proof.
  intros Hin Hfiles Hfile Hline Hclean. revert st.
  induction Hfiles as [|path label_paths Hpath Hfiles IH]; intros st.
  { by apply elem_of_nil in Hin. }
  cbn [for_each].
  pose proof (only_IndexError_read_label fs st path Hpath) as Honly.
  destruct (decide (path = label_path)) as [->|Hne].
  - by rewrite (read_label_empty_transcript _ _ _ _ _ Hfile Hline Hclean).
  - destruct (read_label fs st path) as [st'|e]; cbn in Honly; [|by subst e].
    cbn [mbind result_bind]. apply IH.
    apply elem_of_cons in Hin as [->|Hin]; done.
Qed.

End reading_failures.

(** C9: when the last line of some label file of the corpus is empty after
    punctuation stripping and the dropping of the first two fields, the trim
    of the first and last space takes character 0 of the empty string, and
    [read_char] raises [IndexError] whatever its flags, writing nothing,
    making no directory and returning no dictionary. *)
Theorem C9_empty_transcript_raises_IndexError (dirs : Py.directories)
    (fs : Py.filesystem)
    (label_paths : list string) (label_path data line : string)
    (vocab_file_save_path : string) (save_vocab_file is_test : bool) :
  label_path ∈ label_paths →
  Forall (λ path, is_Some (fs !! path)) label_paths →
  fs !! label_path = Some data →
  Py.item_from_end (Py.readlines data) 1 = Ok line →
  transcript_character.clean_line line = Ok "" →
  transcript_character.trim_spaces "" = Raise IndexError
  ∧ transcript_character.read_char dirs fs label_paths vocab_file_save_path
      save_vocab_file is_test = (dirs, fs, Raise IndexError).
Proof.
  intros Hin Hfiles Hfile Hline Hclean. split; [done|].
  unfold transcript_character.read_char.
  by rewrite (for_each_read_label_empty_transcript _ _ _ _ _ _
                Hin Hfiles Hfile Hline Hclean).
Qed.

Lemma C9_empty_transcript_witness :
  let fs : Py.filesystem :=
    {[ "train/dr1/fcjf0/sa1.txt" := "0 46797 She had your dark suit.
";     "train/dr1/fcjf0/sa2.txt" := "0 100 ?!
" ]} in
  transcript_character.trim_spaces "" = Raise IndexError
  ∧ transcript_character.read_char {["config"]} fs
      ["train/dr1/fcjf0/sa1.txt"; "train/dr1/fcjf0/sa2.txt"]
      "config/vocab_files" true false = ({["config"]}, fs, Raise IndexError).
Proof.
  intros fs.
  apply (C9_empty_transcript_raises_IndexError {["config"]} fs _
           "train/dr1/fcjf0/sa2.txt" "0 100 ?!
" "0 100 ?!
");
    [by_decide | by_decide | vm_compute; reflexivity | vm_compute; reflexivity
    | vm_compute; reflexivity].
Defined.

(** ** Strings, lines and vocabulary files *)

Section text_files.

Lemma append_cons (c : ascii) (s1 s2 : string) :
  String c s1 +:+ s2 = String c (s1 +:+ s2).
Proof. done. Qed.

Lemma append_nil_r (s : string) : s +:+ "" = s.
Proof. induction s as [|c s IH]; [done|]. by rewrite append_cons, IH. Qed.

Lemma append_assoc (s1 s2 s3 : string) :
  (s1 +:+ s2) +:+ s3 = s1 +:+ (s2 +:+ s3).
Proof.
  induction s1 as [|c s1 IH]; [done|]. by rewrite !append_cons, IH.
Qed.

Lemma rev_app_append (s t : string) :
  String.rev_app s t = String.rev s +:+ t.
Proof.
  unfold String.rev. revert t. induction s as [|c s IH]; intros t; [done|].
  cbn [String.rev_app]. rewrite (IH (String c t)), (IH (String c "")).
  by rewrite append_assoc.
Qed.

Lemma rev_cons (c : ascii) (s : string) :
  String.rev (String c s) = String.rev s +:+ String c "".
Proof. unfold String.rev at 1. cbn [String.rev_app]. apply rev_app_append. Qed.

Lemma all_chars_append (P : ascii → bool) (s t : string) :
  all_chars P (s +:+ t) = all_chars P s && all_chars P t.
Proof.
  induction s as [|c s IH]; [done|].
  rewrite append_cons. cbn [all_chars]. by rewrite IH, andb_assoc.
Qed.

Lemma all_chars_rev (P : ascii → bool) (s : string) :
  all_chars P (String.rev s) = all_chars P s.
Proof.
  induction s as [|c s IH]; [done|].
  rewrite rev_cons, all_chars_append, IH. cbn [all_chars].
  by rewrite andb_true_r, andb_comm.
Qed.

Lemma rev_nonempty (c : ascii) (s : string) : String.rev (String c s) ≠ "".
Proof. rewrite rev_cons. by destruct (String.rev s). Qed.

(** The pieces cut by [s.split()] are tokens. *)
Lemma split_ws_go_tokens (s : string) (cur : option string) :
  (∀ w, cur = Some w → is_token (String.rev w)) →
  Forall is_token (Py.split_ws_go s cur).
Proof.
  revert cur. induction s as [|c s IH]; intros cur Hcur.
  { cbn. destruct cur as [w|]; [|constructor].
    constructor; [by apply Hcur|constructor]. }
  cbn [Py.split_ws_go]. destruct (Py.isspace c) eqn:Hc.
  - destruct cur as [w|].
    + constructor; [by apply Hcur|]. by apply IH.
    + by apply IH.
  - apply IH. intros w [= <-]. split; [apply rev_nonempty|].
    rewrite all_chars_rev. cbn [all_chars]. rewrite Hc. cbn.
    destruct cur as [w|]; [|done].
    destruct (Hcur w eq_refl) as [_ Hw]. by rewrite all_chars_rev in Hw.
Qed.

Lemma split_ws_tokens (s : string) : Forall is_token (Py.split_ws s).
Proof. by apply split_ws_go_tokens. Qed.

(** Reading back the lines that were written. *)
Lemma readlines_go_line (x rest cur : string) :
  all_chars (λ c, negb (Py.isspace c)) x = true →
  Py.readlines_go (x +:+ String "010" rest) cur =
    (String.rev cur +:+ x +:+ String "010" "") :: Py.readlines_go rest "".
Proof.
  revert cur. induction x as [|c x IH]; intros cur Hx.
  { change ("" +:+ String "010" rest) with (String "010" rest).
    cbn [Py.readlines_go]. rewrite Ascii.eqb_refl.
    by rewrite rev_cons. }
  cbn [all_chars] in Hx. apply andb_true_iff in Hx as [Hc Hx].
  rewrite append_cons. cbn [Py.readlines_go].
  destruct (Ascii.eqb c "010") eqn:Hnl.
  { apply Ascii.eqb_eq in Hnl as ->. done. }
  rewrite IH by done. by rewrite rev_cons, append_assoc.
Qed.

Lemma readlines_write_lines (symbols : list string) :
  Forall is_token symbols →
  Py.readlines (Py.write_lines symbols) =
    (λ symbol, symbol +:+ String "010" "") <$> symbols.
Proof.
  unfold Py.readlines. induction 1 as [|x symbols [_ Hx] _ IH]; [done|].
  cbn [Py.write_lines fmap list_fmap].
  change ("
" +:+ Py.write_lines symbols) with (String "010" (Py.write_lines symbols)).
  rewrite readlines_go_line by done. by rewrite IH.
Qed.

Lemma lstrip_token (c : ascii) (s : string) :
  Py.isspace c = false → Py.lstrip (String c s) = String c s.
Proof. intros Hc. cbn. by rewrite Hc. Qed.

Lemma rstrip_token_line (x : string) :
  all_chars (λ c, negb (Py.isspace c)) x = true →
  Py.rstrip (x +:+ String "010" "") = x.
Proof.
  induction x as [|c x IH]; intros Hx; [done|].
  cbn [all_chars] in Hx. apply andb_true_iff in Hx as [Hc Hx].
  rewrite append_cons. cbn [Py.rstrip]. rewrite IH by done.
  destruct x; [|done]. by destruct (Py.isspace c).
Qed.

Lemma strip_token_line (x : string) :
  is_token x → Py.strip (x +:+ String "010" "") = x.
Proof.
  intros [Hne Hx]. unfold Py.strip. destruct x as [|c x]; [done|].
  rewrite append_cons, lstrip_token.
  - by apply (rstrip_token_line (String c x)).
  - cbn [all_chars] in Hx. apply andb_true_iff in Hx as [Hc _].
    by destruct (Py.isspace c).
Qed.

(** A vocabulary file made of tokens yields exactly these tokens. *)
Lemma retained_symbols_write_lines (symbols : list string) :
  Forall is_token symbols →
  retained_symbols (Py.write_lines symbols) [] = symbols.
Proof.
  intros Htokens. unfold retained_symbols.
  rewrite readlines_write_lines by done.
  induction Htokens as [|x symbols Hx _ IH]; [done|].
  cbn [fmap list_fmap]. rewrite filter_cons, decide_True by apply not_elem_of_nil.
  by rewrite strip_token_line, IH.
Qed.

End text_files.

(** ** The collapse of 61 phones *)

Section collapsing.
Import transcript_phone.

Lemma remove_first_None (x : string) (l : list string) :
  Py.remove_first x l = None → x ∉ l.
Proof.
  induction l as [|y l IH]; cbn [Py.remove_first]; [intros _; apply not_elem_of_nil|].
  case_decide as Hy; [done|].
  destruct (Py.remove_first x l); [done|]. intros _.
  apply not_elem_of_cons. split; [congruence|by apply IH].
Qed.

Lemma remove_first_Some (x : string) (l shorter : list string) :
  Py.remove_first x l = Some shorter →
  filter (λ y, y ≠ x) shorter = filter (λ y, y ≠ x) l.
Proof.
  revert shorter. induction l as [|y l IH]; intros shorter;
    cbn [Py.remove_first]; [done|].
  case_decide as Hy.
  - intros [= <-]. rewrite filter_cons, decide_False; [done|]. by intros [].
  - destruct (Py.remove_first x l) as [l'|]; [|done]. intros [= <-].
    rewrite !filter_cons, !decide_True by done. f_equal. by apply IH.
Qed.

Lemma remove_empty_filter (l : list string) :
  remove_empty l = filter (λ phone, phone ≠ "") l.
Proof.
  funelim (remove_empty l).
  - match goal with
    | IH : remove_empty _ = filter _ _ |- _ => rewrite IH
    end.
    by apply remove_first_Some.
  - match goal with
    | e : Py.remove_first _ _ = None |- _ =>
        pose proof (remove_first_None _ _ e) as Habsent
    end.
    clear -Habsent.
    induction mapped_phone_list as [|y l IH]; [done|].
    apply not_elem_of_cons in Habsent as [Hy Hl].
    rewrite filter_cons, decide_True by done. f_equal. by apply IH.
Qed.

Lemma map_line_row (label_type line : string) (map_dict : gmap string string) :
  label_type = "phone48" ∨ label_type = "phone39" →
  3 ≤ length (Py.split_ws (Py.strip line)) →
  map_line label_type map_dict line =
    Ok (store_row label_type map_dict (Py.split_ws (Py.strip line))).
Proof.
  intros Htype Hlen. unfold map_line, store_row, row_image, target_column.
  destruct (Py.split_ws (Py.strip line)) as [|r0 [|r1 [|r2 row]]];
    cbn [length] in Hlen; try lia.
  change (Py.item (r0 :: r1 :: r2 :: row) 1) with (Ok r1).
  cbn [mbind result_bind]. change ((r0 :: r1 :: r2 :: row) !! 1) with (Some r1).
  destruct (decide (r1 = "nan")) as [->|Hnan].
  - rewrite decide_False by (by intros []). by rewrite decide_True.
  - rewrite decide_True by done.
    rewrite (decide_False (P := Some r1 = Some "nan")) by congruence.
    destruct Htype as [->| ->]; [by rewrite decide_True|].
    rewrite decide_False by done. by rewrite decide_True.
Qed.

Lemma map_lines_rows (label_type : string) (lines : list string)
    (map_dict : gmap string string) :
  label_type = "phone48" ∨ label_type = "phone39" →
  Forall (λ row, 3 ≤ length row)
    ((λ line, Py.split_ws (Py.strip line)) <$> lines) →
  for_each (map_line label_type) lines map_dict =
    Ok (foldl (store_row label_type) map_dict
          ((λ line, Py.split_ws (Py.strip line)) <$> lines)).
Proof.
  intros Htype. revert map_dict.
  induction lines as [|line lines IH]; intros map_dict Hrows; [done|].
  apply Forall_cons in Hrows as [Hrow Hrows].
  cbn [for_each fmap list_fmap foldl]. rewrite map_line_row by done.
  cbn [mbind result_bind]. by apply IH.
Qed.

Lemma table_row_snoc (rows : list (list string)) (row : list string)
    (phone : string) :
  table_row (rows ++ [row]) phone =
    if decide (row !! 0 = Some phone) then Some row else table_row rows phone.
Proof.
  unfold table_row. rewrite filter_app, filter_cons, filter_nil.
  case_decide.
  - by rewrite last_snoc.
  - by rewrite app_nil_r.
Qed.

Lemma store_rows_lookup (label_type : string) (rows : list (list string))
    (map_dict : gmap string string) (phone : string) :
  Forall (λ row, 3 ≤ length row) rows →
  foldl (store_row label_type) map_dict rows !! phone =
    match table_row rows phone with
    | Some row => Some (row_image label_type row)
    | None => map_dict !! phone
    end.
Proof.
  induction rows as [|row rows IH] using rev_ind; intros Hrows; [done|].
  apply Forall_app in Hrows as [Hrows Hrow%Forall_cons_1]. destruct Hrow as [Hrow _].
  rewrite foldl_app, table_row_snoc. cbn [foldl]. unfold store_row at 1.
  destruct row as [|r0 row]; cbn [length] in Hrow; [lia|].
  change ((r0 :: row) !! 0) with (Some r0). cbn [default].
  destruct (decide (r0 = phone)) as [->|Hne].
  - by rewrite lookup_insert_eq, decide_True.
  - rewrite lookup_insert_ne by done.
    rewrite decide_False by congruence. by apply IH.
Qed.

(** [map_phone2phone] on a well-formed table: every phone is replaced by its
    image and the empty images are dropped. *)
Lemma map_phone2phone_collapse (fs : Py.filesystem) (phone_list : list string)
    (label_type map_file_path data : string) :
  label_type = "phone48" ∨ label_type = "phone39" →
  fs !! map_file_path = Some data →
  Forall (λ row, 3 ≤ length row) (table_rows data) →
  map_phone2phone fs phone_list label_type map_file_path =
    Ok (filter (λ phone, phone ≠ "")
          (collapse (table_rows data) label_type <$> phone_list)).
Proof.
  intros Htype Hfile Hrows. unfold map_phone2phone.
  rewrite decide_False by (by destruct Htype as [->| ->]).
  unfold Py.read_file. rewrite Hfile. cbn [mbind result_bind].
  rewrite map_lines_rows by done. cbn [mbind result_bind].
  rewrite remove_empty_filter. do 2 f_equal.
  apply list_fmap_ext. intros _ phone _.
  fold (table_rows data). rewrite store_rows_lookup by done.
  unfold collapse. rewrite lookup_empty.
  by destruct (table_row (table_rows data) phone).
Qed.

(** The fields of a row are tokens, so an image is empty only for [nan]. *)
Lemma table_rows_tokens (data : string) :
  Forall (Forall is_token) (table_rows data).
Proof.
  unfold table_rows. apply Forall_fmap, Forall_forall.
  intros line _. apply split_ws_tokens.
Qed.

Lemma table_row_elem (rows : list (list string)) (phone : string)
    (row : list string) :
  table_row rows phone = Some row → row ∈ rows ∧ row !! 0 = Some phone.
Proof.
  unfold table_row. intros Hlast.
  assert (row ∈ filter (λ row, row !! 0 = Some phone) rows) as Hin.
  { apply last_Some in Hlast as [l' ->]. apply elem_of_app. right.
    apply list_elem_of_singleton. done. }
  by apply list_elem_of_filter in Hin as [? ?].
Qed.

Lemma row_image_empty (data label_type : string) (row : list string) :
  label_type = "phone48" ∨ label_type = "phone39" →
  row ∈ table_rows data → 3 ≤ length row →
  row_image label_type row = "" ↔ row !! 1 = Some "nan".
Proof.
  intros Htype Hrow Hlen. unfold row_image. case_decide as Hnan; [done|].
  split; [|done]. intros Himage. exfalso.
  pose proof (table_rows_tokens data) as Htokens.
  rewrite Forall_forall in Htokens. specialize (Htokens _ Hrow).
  assert (target_column label_type < length row) as Hcol.
  { unfold target_column. case_decide; lia. }
  apply lookup_lt_is_Some_2 in Hcol as [field Hfield].
  rewrite Hfield in Himage. cbn in Himage. subst field.
  rewrite Forall_forall in Htokens.
  destruct (Htokens "") as [Hne _]; [by eapply list_elem_of_lookup_2|done].
Qed.

End collapsing.

(** C3, as stated, fails for the 39-phone target: the row [ax ax nan] carries
    [nan] in the 39-phone column, yet mapping [ax] to phone39 does not delete
    it but yields the symbol [nan]; the row [q nan sil] does not carry [nan]
    in the 39-phone column, yet [q] is deleted. *)
Lemma C3_counterexample :
  let data := "ax ax nan
q nan sil
" in
  let fs : Py.filesystem := {[ "phone2phone.txt" := data ]} in
  table_row (table_rows data) "ax" = Some ["ax"; "ax"; "nan"]
  ∧ transcript_phone.map_phone2phone fs ["ax"] "phone39" "phone2phone.txt"
    = Ok ["nan"]
  ∧ table_row (table_rows data) "q" = Some ["q"; "nan"; "sil"]
  ∧ transcript_phone.map_phone2phone fs ["q"] "phone39" "phone2phone.txt"
    = Ok [].
Proof. vm_compute. done. Qed.

Lemma filter_nonempty_omap (f : string → string) (l : list string) :
  filter (λ phone, phone ≠ "") (f <$> l) =
    omap (λ phone, if decide (f phone = "") then None else Some (f phone)) l.
Proof.
  induction l as [|x l IH]; [done|].
  cbn [fmap list_fmap omap list_omap]. rewrite filter_cons.
  destruct (decide (f x = "")) as [Hx|Hx].
  - by rewrite decide_False by (by intros []).
  - rewrite decide_True by done. by rewrite IH.
Qed.

(** C3 (amended): for the targets phone48 and phone39 and a table whose rows
    have at least three fields, [map_phone2phone] returns the images of the
    phones, in order, without the deleted ones; a non-empty phone absent from
    the table is its own image; a phone of the table is deleted exactly when
    its row (the last one for it) carries [nan] in the 48-phone column,
    whichever the target, and is otherwise mapped to the field of the target
    column. *)
Theorem C3_deletion_follows_48_column (fs : Py.filesystem)
    (label_type map_file_path data : string) :
  label_type = "phone48" ∨ label_type = "phone39" →
  fs !! map_file_path = Some data →
  Forall (λ row, 3 ≤ length row) (table_rows data) →
  ∃ image : string → option string,
    (∀ phone_list,
       transcript_phone.map_phone2phone fs phone_list label_type map_file_path
       = Ok (omap image phone_list))
    ∧ (∀ phone,
         phone ≠ "" → table_row (table_rows data) phone = None →
         image phone = Some phone)
    ∧ (∀ phone row,
         table_row (table_rows data) phone = Some row →
         (image phone = None ↔ row !! 1 = Some "nan"))
    ∧ (∀ phone row,
         table_row (table_rows data) phone = Some row →
         row !! 1 ≠ Some "nan" →
         image phone = row !! target_column label_type).
Proof.
  intros Htype Hfile Hrows.
  exists (λ phone,
    if decide (collapse (table_rows data) label_type phone = "") then None
    else Some (collapse (table_rows data) label_type phone)).
  split; [|split; [|split]].
  - intros phone_list.
    rewrite (map_phone2phone_collapse _ _ _ _ _ Htype Hfile Hrows).
    by rewrite filter_nonempty_omap.
  - intros phone Hphone Hrow. unfold collapse. rewrite Hrow.
    by rewrite decide_False.
  - intros phone row Hrow. unfold collapse. rewrite Hrow.
    apply table_row_elem in Hrow as [Hin _].
    assert (3 ≤ length row) as Hlen.
    { rewrite Forall_forall in Hrows. by apply Hrows. }
    rewrite <-(row_image_empty data label_type row Htype Hin Hlen).
    case_decide; naive_solver.
  - intros phone row Hrow Hnan. unfold collapse. rewrite Hrow.
    apply table_row_elem in Hrow as [Hin _].
    assert (3 ≤ length row) as Hlen.
    { rewrite Forall_forall in Hrows. by apply Hrows. }
    rewrite decide_False
      by (by rewrite (row_image_empty data label_type row Htype Hin Hlen)).
    unfold row_image. rewrite decide_False by done.
    assert (target_column label_type < length row) as Hcol.
    { unfold target_column. case_decide; lia. }
    apply lookup_lt_is_Some_2 in Hcol as [field ->]. done.
Qed.

Lemma C3_deletion_witness :
  let data := "aa aa aa
ao ao aa
q nan nan
" in
  ∃ image : string → option string,
    (∀ phone_list,
       transcript_phone.map_phone2phone {[ "phone2phone.txt" := data ]}
         phone_list "phone39" "phone2phone.txt" = Ok (omap image phone_list))
    ∧ image "zh" = Some "zh"
    ∧ image "q" = None
    ∧ image "ao" = Some "aa".
Proof.
  intros data.
  destruct (C3_deletion_follows_48_column {[ "phone2phone.txt" := data ]}
              "phone39" "phone2phone.txt" data)
    as (image & Hmap & Habsent & Hdeleted & Hmapped);
    [by right | vm_compute; reflexivity | by_decide |].
  exists image. split; [exact Hmap|]. split; [|split].
  - apply Habsent; [done | vm_compute; reflexivity].
  - apply (Hdeleted "q" ["q"; "nan"; "nan"]); vm_compute; reflexivity.
  - rewrite (Hmapped "ao" ["ao"; "ao"; "aa"]);
      [reflexivity | vm_compute; reflexivity | done].
Defined.

(** ** The phone vocabularies *)

Section phone_vocabularies.
Import transcript_phone.

Lemma set_line_row (line : string) (phone61_set phone48_set phone39_set : gset string) :
  let row := Py.split_ws (Py.strip line) in
  3 ≤ length row →
  set_line (phone61_set, phone48_set, phone39_set) line =
    Ok (list_to_set (phones61_of [row]) ∪ phone61_set,
        list_to_set (phones48_of [row]) ∪ phone48_set,
        list_to_set (phones39_of [row]) ∪ phone39_set).
Proof.
  intros row Hlen. unfold set_line, phones61_of, phones48_of, phones39_of.
  fold row. destruct row as [|r0 [|r1 [|r2 row]]]; cbn [length] in Hlen; try lia.
  change (Py.item (r0 :: r1 :: r2 :: row) 1) with (Ok r1).
  cbn [mbind result_bind omap list_omap].
  change ((r0 :: r1 :: r2 :: row) !! 1) with (Some r1).
  change ((r0 :: r1 :: r2 :: row) !! 0) with (Some r0).
  change ((r0 :: r1 :: r2 :: row) !! 2) with (Some r2).
  change (Py.item (r0 :: r1 :: r2 :: row) 0) with (Ok r0).
  change (Py.item (r0 :: r1 :: r2 :: row) 2) with (Ok r2).
  cbn [list_to_set mbind result_bind]. rewrite union_empty_r_L.
  repeat case_decide; try congruence; cbn [list_to_set];
    by rewrite ?union_empty_r_L, ?union_empty_l_L.
Qed.

Lemma list_to_set_omap_cons {A : Type} (f : A → option string) (x : A)
    (l : list A) (set : gset string) :
  list_to_set (omap f l) ∪ (list_to_set (omap f [x]) ∪ set) =
    list_to_set (omap f (x :: l)) ∪ set.
Proof.
  cbn [omap list_omap]. destruct (f x) as [y|]; cbn [list_to_set].
  - rewrite union_empty_r_L, (assoc_L (∪)). f_equal. apply (comm_L (∪)).
  - by rewrite !union_empty_l_L.
Qed.

Lemma set_lines_rows (lines : list string)
    (phone61_set phone48_set phone39_set : gset string) :
  let rows := (λ line, Py.split_ws (Py.strip line)) <$> lines in
  Forall (λ row, 3 ≤ length row) rows →
  for_each set_line lines (phone61_set, phone48_set, phone39_set) =
    Ok (list_to_set (phones61_of rows) ∪ phone61_set,
        list_to_set (phones48_of rows) ∪ phone48_set,
        list_to_set (phones39_of rows) ∪ phone39_set).
Proof.
  revert phone61_set phone48_set phone39_set.
  induction lines as [|line lines IH];
    intros phone61_set phone48_set phone39_set rows Hrows.
  { cbn. by rewrite !union_empty_l_L. }
  subst rows. rewrite fmap_cons in Hrows |- *.
  apply Forall_cons in Hrows as [Hrow Hrows].
  cbn [for_each]. rewrite set_line_row by done. cbn [mbind result_bind].
  rewrite IH by done. unfold phones61_of, phones48_of, phones39_of.
  by rewrite !list_to_set_omap_cons.
Qed.

Lemma path_join_prefix (dir : string) :
  ∃ prefix, ∀ name, Py.path_join dir name = prefix +:+ name.
Proof.
  unfold Py.path_join. destruct dir as [|c dir]; [by exists ""|].
  destruct (Py.ends_with_slash (String c dir)).
  - by exists (String c dir).
  - exists (String c dir +:+ "/"). intros name. by rewrite append_assoc.
Qed.

Lemma path_join_inj (dir name1 name2 : string) :
  Py.path_join dir name1 = Py.path_join dir name2 → name1 = name2.
Proof.
  destruct (path_join_prefix dir) as [prefix Hprefix].
  rewrite !Hprefix. apply String.app_inj.
Qed.

(** The symbols of a written vocabulary file. *)
Lemma sorted_elem_of (symbols : list string) (x : string) :
  x ∈ Py.sorted symbols ↔ x ∈ symbols.
Proof. unfold Py.sorted. by rewrite merge_sort_Permutation. Qed.

Lemma phone_vocab_file_symbols (phone_set : gset string) :
  (∀ x, x ∈ phone_set → is_token x) →
  retained_symbols (phone_vocab_file phone_set) [] =
    Py.sorted (elements phone_set).
Proof.
  intros Htokens. unfold phone_vocab_file.
  apply retained_symbols_write_lines, Forall_forall.
  intros x Hx%sorted_elem_of%elem_of_elements. by apply Htokens.
Qed.

Lemma phones_of_tokens (data : string) (f : list string → option string) (x : string) :
  (∀ row y, f row = Some y → y ∈ row) →
  x ∈ (list_to_set (omap f (table_rows data)) : gset string) → is_token x.
Proof.
  intros Hf Hx%elem_of_list_to_set%list_elem_of_omap.
  destruct Hx as (row & Hrow & Hfield).
  pose proof (table_rows_tokens data) as Htokens.
  rewrite Forall_forall in Htokens. specialize (Htokens _ Hrow).
  rewrite Forall_forall in Htokens. by eapply Htokens, Hf.
Qed.


Lemma phones48_of_tokens (data x : string) :
  x ∈ (list_to_set (phones48_of (table_rows data)) : gset string) → is_token x.
Proof.
  apply phones_of_tokens. intros row y Hy. case_decide; [done|].
  by eapply list_elem_of_lookup_2.
Qed.

Lemma phones39_of_tokens (data x : string) :
  x ∈ (list_to_set (phones39_of (table_rows data)) : gset string) → is_token x.
Proof.
  apply phones_of_tokens. intros row y Hy. case_decide; [done|].
  by eapply list_elem_of_lookup_2.
Qed.

Lemma read_phone_saved (dirs dirs' : Py.directories) (fs : Py.filesystem)
    (label_paths : list string) (vocab_file_save_path data : string)
    (is_test : bool) :
  fs !! Py.path_join vocab_file_save_path "../phone2phone.txt" = Some data →
  Forall (λ row, 3 ≤ length row) (table_rows data) →
  mkdir dirs fs vocab_file_save_path = Ok (dirs', vocab_file_save_path) →
  (read_phone dirs fs label_paths vocab_file_save_path true is_test).1 =
    (dirs', saved_vocabularies fs vocab_file_save_path data).
Proof.
  intros Hfile Hrows Hmade.
  rewrite (read_phone_made _ _ _ _ _ _ _ _ _ _ _ Hfile
             (set_lines_rows _ _ _ _ Hrows) Hmade).
  cbn [fst]. fold (table_rows data). by rewrite !union_empty_r_L.
Qed.

Lemma saved_vocabularies_lookup (fs : Py.filesystem)
    (vocab_file_save_path data : string) :
  let fs' := saved_vocabularies fs vocab_file_save_path data in
  fs' !! Py.path_join vocab_file_save_path "phone61.txt" =
    Some (phone_vocab_file (list_to_set (phones61_of (table_rows data))))
  ∧ fs' !! Py.path_join vocab_file_save_path "phone48.txt" =
    Some (phone_vocab_file (list_to_set (phones48_of (table_rows data))))
  ∧ fs' !! Py.path_join vocab_file_save_path "phone39.txt" =
    Some (phone_vocab_file (list_to_set (phones39_of (table_rows data))))
  ∧ fs' !! Py.path_join vocab_file_save_path "../phone2phone.txt" =
    fs !! Py.path_join vocab_file_save_path "../phone2phone.txt".
Proof.
  cbn zeta. unfold saved_vocabularies.
  assert (∀ n1 n2, n1 ≠ n2 →
    Py.path_join vocab_file_save_path n1 ≠ Py.path_join vocab_file_save_path n2)
    as Hne by (intros n1 n2 Hn Heq%path_join_inj; by apply Hn).
  repeat split.
  - rewrite !lookup_insert_ne by (by apply Hne). by rewrite lookup_insert_eq.
  - rewrite lookup_insert_ne by (by apply Hne). by rewrite lookup_insert_eq.
  - by rewrite lookup_insert_eq.
  - by rewrite !lookup_insert_ne by (by apply Hne).
Qed.

End phone_vocabularies.

Lemma length_filter_images (f : string → string) (l : list string) :
  (∀ phone, phone ∈ l → (f phone = "" ↔ phone = "q")) →
  length (filter (λ phone, phone ≠ "") (f <$> l))
    + length (filter (λ phone, phone = "q") l) = length l.
Proof.
  induction l as [|x l IH]; intros Hf; [done|].
  cbn [fmap list_fmap]. rewrite !filter_cons.
  specialize (IH (λ phone Hin, Hf phone (list_elem_of_further _ _ _ Hin))).
  specialize (Hf x (list_elem_of_here _ _)).
  destruct (decide (x = "q")) as [Hx|Hx].
  - rewrite decide_False by (intros Hne; by apply Hne, Hf).
    cbn [length]. lia.
  - rewrite decide_True by (intros Hempty; by apply Hx, Hf).
    cbn [length]. lia.
Qed.

(** C5: for a table with rows of three fields in which the row of [q] is
    [q nan nan], [nan] marks no other phone and [q] is nobody's target, a
    sequence of non-empty phones with exactly one [q] is mapped, for phone48
    and for phone39, to a sequence with exactly one element less; [q] is in
    neither the 48-phone nor the 39-phone set that [read_phone] builds from
    the table, and neither [phone48.txt] nor [phone39.txt] as saved by
    [read_phone], once the vocabulary directory exists or is made, has a
    line [q]. *)
Theorem C5_q_is_dropped (fs : Py.filesystem)
    (vocab_file_save_path data : string) (phone61_list : list string) :
  let map_file_path := Py.path_join vocab_file_save_path "../phone2phone.txt" in
  fs !! map_file_path = Some data →
  Forall (λ row, 3 ≤ length row) (table_rows data) →
  table_row (table_rows data) "q" = Some ["q"; "nan"; "nan"] →
  (∀ row, row ∈ table_rows data → row !! 1 = Some "nan" → row !! 0 = Some "q") →
  (∀ row, row ∈ table_rows data → row !! 1 ≠ Some "q" ∧ row !! 2 ≠ Some "q") →
  "" ∉ phone61_list →
  length (filter (λ phone, phone = "q") phone61_list) = 1 →
  ∃ phone48_list phone39_list,
    transcript_phone.map_phone2phone fs phone61_list "phone48" map_file_path
      = Ok phone48_list
    ∧ length phone48_list + 1 = length phone61_list
    ∧ transcript_phone.map_phone2phone fs phone61_list "phone39" map_file_path
      = Ok phone39_list
    ∧ length phone39_list + 1 = length phone61_list
    ∧ (∃ phone61_set phone48_set phone39_set,
         for_each transcript_phone.set_line (Py.readlines data) (∅, ∅, ∅)
           = Ok (phone61_set, phone48_set, phone39_set)
         ∧ ("q" ∉ phone48_set)
         ∧ ("q" ∉ phone39_set))
    ∧ ∀ dirs dirs' label_paths is_test,
        transcript_phone.mkdir dirs fs vocab_file_save_path
          = Ok (dirs', vocab_file_save_path) →
        ∃ phone48_file phone39_file,
          (transcript_phone.read_phone dirs fs label_paths vocab_file_save_path
             true is_test).1.2
            !! Py.path_join vocab_file_save_path "phone48.txt"
            = Some phone48_file
          ∧ (transcript_phone.read_phone dirs fs label_paths
               vocab_file_save_path true is_test).1.2
              !! Py.path_join vocab_file_save_path "phone39.txt"
              = Some phone39_file
          ∧ ("q" ∉ retained_symbols phone48_file [])
          ∧ ("q" ∉ retained_symbols phone39_file []).
Proof.
  intros map_file_path Hfile Hrows Hq Hnan Htarget Hnonempty Hcount.
  assert (∀ label_type phone,
    label_type = "phone48" ∨ label_type = "phone39" →
    phone ∈ phone61_list →
    (collapse (table_rows data) label_type phone = "" ↔ phone = "q"))
    as Himage.
  { intros label_type phone Htype Hin. unfold collapse. split.
    - destruct (table_row (table_rows data) phone) as [row|] eqn:Hrow.
      + apply table_row_elem in Hrow as [Hrow Hfirst].
        assert (3 ≤ length row) as Hlen.
        { rewrite Forall_forall in Hrows. by apply Hrows. }
        rewrite (row_image_empty data label_type row Htype Hrow Hlen).
        intros Hmark. specialize (Hnan row Hrow Hmark). congruence.
      + intros ->. done.
    - intros ->. rewrite Hq. unfold row_image. by rewrite decide_True. }
  exists (filter (λ phone, phone ≠ "")
            (collapse (table_rows data) "phone48" <$> phone61_list)),
         (filter (λ phone, phone ≠ "")
            (collapse (table_rows data) "phone39" <$> phone61_list)).
  split; [apply map_phone2phone_collapse; [by left|done|done]|].
  split.
  { rewrite <-Hcount. apply length_filter_images.
    intros phone Hin. apply Himage; [by left|done]. }
  split; [apply map_phone2phone_collapse; [by right|done|done]|].
  split.
  { rewrite <-Hcount. apply length_filter_images.
    intros phone Hin. apply Himage; [by right|done]. }
  assert (("q" ∉ phones48_of (table_rows data))
          ∧ ("q" ∉ phones39_of (table_rows data))) as [Hq48 Hq39].
  { unfold phones48_of, phones39_of. rewrite !list_elem_of_omap. split.
    - intros (row & Hrow & Hfield). case_decide; [done|].
      by destruct (Htarget row Hrow).
    - intros (row & Hrow & Hfield). case_decide; [done|].
      by destruct (Htarget row Hrow). }
  split.
  { eexists _, _, _. split; [by apply set_lines_rows|].
    fold (table_rows data).
    by rewrite !union_empty_r_L, !elem_of_list_to_set. }
  intros dirs dirs' label_paths is_test Hmade.
  rewrite (read_phone_saved _ _ _ _ _ _ _ Hfile Hrows Hmade). cbn [snd].
  destruct (saved_vocabularies_lookup fs vocab_file_save_path data)
    as (_ & H48 & H39 & _).
  eexists _, _. split; [exact H48|]. split; [exact H39|].
  rewrite !phone_vocab_file_symbols
    by (intros x; first [apply phones48_of_tokens | apply phones39_of_tokens]).
  by rewrite !sorted_elem_of, !elem_of_elements, !elem_of_list_to_set.
Qed.

Lemma C5_q_is_dropped_witness :
  let data := "aa aa aa
ao ao aa
q nan nan
zh zh sh
" in
  let fs : Py.filesystem := {[ "vocab/../phone2phone.txt" := data ]} in
  ∃ phone48_list phone39_list,
    transcript_phone.map_phone2phone fs ["zh"; "q"; "ao"] "phone48"
      "vocab/../phone2phone.txt" = Ok phone48_list
    ∧ length phone48_list + 1 = 3
    ∧ transcript_phone.map_phone2phone fs ["zh"; "q"; "ao"] "phone39"
        "vocab/../phone2phone.txt" = Ok phone39_list
    ∧ length phone39_list + 1 = 3.
Proof.
  intros data fs.
  destruct (C5_q_is_dropped fs "vocab" data ["zh"; "q"; "ao"])
    as (phone48_list & phone39_list & H48 & Hlen48 & H39 & Hlen39 & _);
    [vm_compute; reflexivity | by_decide | vm_compute; reflexivity
    | | | by_decide | vm_compute; reflexivity |].
  - refine (proj1 (Forall_forall _ _) _). by_decide.
  - refine (proj1 (Forall_forall _ _) _). by_decide.
  - by exists phone48_list, phone39_list.
Defined.

(** ** Tokenising phone strings *)

Section phone_tokenising.
Import transcript_phone.








Lemma sorted_tokens (phone_set : gset string) :
  (∀ x, x ∈ phone_set → is_token x) →
  Forall is_token (Py.sorted (elements phone_set)).
Proof.
  intros Htokens. apply Forall_forall.
  intros x Hx%sorted_elem_of%elem_of_elements. by apply Htokens.
Qed.




End phone_tokenising.

(** C10, as stated, fails: the empty string is a vocabulary symbol as soon as
    the vocabulary file has a blank line.  The indexer loaded from such a
    file returns one index on the empty string, and a call of [read_phone]
    that does not save the vocabularies (as for the later splits) returns a
    dictionary for an utterance whose phones are all deleted. *)
Lemma C10_counterexample :
  let fs : Py.filesystem :=
    {[ "vocab/../phone2phone.txt" := "aa aa aa
q nan nan
";     "vocab/phone61.txt" := "aa
q
";     "vocab/phone48.txt" := "aa

";     "vocab/phone39.txt" := "aa

";     "dev/dr1/faks0/sa2.phn" := "0 100 q
" ]} in
  (∃ self,
     transcript_phone.Phone2idx_init fs "vocab/phone48.txt" [] = Ok self
     ∧ transcript_phone.Phone2idx_call self "" = Ok [1])
  ∧ (transcript_phone.read_phone {["vocab"]} fs ["dev/dr1/faks0/sa2.phn"]
       "vocab" false false).2
    = Ok [("faks0_sa2", ("1", "1", "1"))].
Proof. cbn zeta. split; [eexists; split|]; vm_compute; reflexivity. Qed.



(** ** The symbol sets of the character reader do not depend on the order of
       the label files *)

Section symbol_sets.
Import transcript_character.

Lemma unit_scan_union (word : string) (skip_flag : bool)
    (units more : gset string) (i : nat) :
  unit_scan word (skip_flag, units ∪ more) i =
    (st ← unit_scan word (skip_flag, units) i; Ok (st.1, st.2 ∪ more)).
Proof.
  unfold unit_scan. destruct skip_flag; [done|]. case_decide.
  - cbn [mbind result_bind fst snd]. by rewrite (assoc_L (∪)).
  - destruct (Py.getitem word i); [|done].
    cbn [mbind result_bind fst snd]. by rewrite (assoc_L (∪)).
Qed.

Lemma for_each_unit_scan_union (word : string) (indices : list nat)
    (skip_flag : bool) (units more : gset string) :
  for_each (unit_scan word) indices (skip_flag, units ∪ more) =
    (st ← for_each (unit_scan word) indices (skip_flag, units);
     Ok (st.1, st.2 ∪ more)).
Proof.
  revert skip_flag units.
  induction indices as [|i indices IH]; intros skip_flag units; [done|].
  cbn [for_each]. rewrite unit_scan_union.
  destruct (unit_scan word (skip_flag, units) i) as [[skip_flag' units']|e];
    [|done].
  cbn [mbind result_bind fst snd]. apply IH.
Qed.

Lemma final_unit_union (word : string) (skip_flag : bool)
    (units more : gset string) :
  final_unit word (skip_flag, units ∪ more) =
    (set ← final_unit word (skip_flag, units); Ok (set ∪ more)).
Proof.
  unfold final_unit. destruct skip_flag; [done|].
  destruct (Py.last word); [|done].
  cbn [mbind result_bind]. by rewrite (assoc_L (∪)).
Qed.

Lemma capital_units_union (units more : gset string) (word : string) :
  capital_units (units ∪ more) word =
    (set ← capital_units units word; Ok (set ∪ more)).
Proof.
  unfold capital_units. case_decide.
  { cbn [mbind result_bind]. by rewrite (assoc_L (∪)). }
  destruct (Py.getitem word 0) as [c|e]; [|done]. cbn [mbind result_bind].
  destruct (Py.getitem (Py.upper c +:+ Py.slice_from word 1) 0) as [c'|e];
    [|done].
  cbn [mbind result_bind]. rewrite (assoc_L (∪)), for_each_unit_scan_union.
  destruct (for_each _ _ (false, {[Py.upper c']} ∪ units))
    as [[skip_flag units']|e]; [|done].
  cbn [mbind result_bind fst snd]. apply final_unit_union.
Qed.

Lemma for_each_capital_units_union (words : list string)
    (units more : gset string) :
  for_each capital_units words (units ∪ more) =
    (set ← for_each capital_units words units; Ok (set ∪ more)).
Proof.
  revert units. induction words as [|word words IH]; intros units; [done|].
  cbn [for_each]. rewrite capital_units_union.
  destruct (capital_units units word) as [units'|e]; [|done].
  cbn [mbind result_bind]. apply IH.
Qed.

Lemma add_chars_union (chars : list string) (set more : gset string) :
  foldl (λ set c, {[c]} ∪ set) (set ∪ more) chars =
    foldl (λ set c, {[c]} ∪ set) set chars ∪ more.
Proof.
  revert set. induction chars as [|c chars IH]; intros set; [done|].
  cbn [foldl]. by rewrite (assoc_L (∪)), IH.
Qed.

Lemma for_each_capital_units_empty (words : list string) (more : gset string) :
  for_each capital_units words more =
    (set ← for_each capital_units words ∅; Ok (set ∪ more)).
Proof.
  rewrite <-for_each_capital_units_union. by rewrite union_empty_l_L.
Qed.

Lemma add_chars_empty (chars : list string) (more : gset string) :
  foldl (λ set c, {[c]} ∪ set) more chars =
    foldl (λ set c, {[c]} ∪ set) ∅ chars ∪ more.
Proof. rewrite <-add_chars_union. by rewrite union_empty_l_L. Qed.

(** What a label file adds to the sets does not depend on the state. *)
Lemma read_label_sets (fs : Py.filesystem) (st : reading) (label_path : string) :
  match read_label fs {| trans_dict := []; char_set := ∅;
                         char_capital_set := ∅ |} label_path,
        read_label fs st label_path with
  | Ok added, Ok st' =>
      char_set st' = char_set added ∪ char_set st
      ∧ char_capital_set st' = char_capital_set added ∪ char_capital_set st
  | Raise _, Raise _ => True
  | _, _ => False
  end.
Proof.
  unfold read_label.
  destruct (Py.read_file fs label_path) as [data|e]; [|done].
  cbn [mbind result_bind].
  destruct (Py.item_from_end (Py.readlines data) 1) as [line|e]; [|done].
  cbn [mbind result_bind].
  destruct (utt_name_of label_path) as [utt_name|e]; [|done].
  cbn [mbind result_bind].
  destruct (clean_line line) as [cleaned|e]; [|done].
  cbn [mbind result_bind].
  destruct (trim_spaces cleaned) as [transcript|e]; [|done].
  cbn [mbind result_bind].
  destruct (Py.split transcript " ") as [words|e]; [|done].
  cbn [mbind result_bind char_capital_set char_set].
  rewrite (for_each_capital_units_empty words (char_capital_set st)).
  destruct (for_each capital_units words ∅) as [units|e]; [|done].
  cbn [mbind result_bind char_capital_set char_set]. split; [|done].
  apply add_chars_empty.
Qed.






End symbol_sets.

(** ** Sorted vocabularies *)

Section sorted_vocabularies.



End sorted_vocabularies.



(** ** Plain tokenisation of the transcripts of the corpus *)

Section plain_tokenising.
Import transcript_character.

Lemma dict_set_elem {V : Type} (k : string) (v : V) (d : list (string * V))
    (entry : string * V) :
  entry ∈ Py.dict_set k v d → entry = (k, v) ∨ entry ∈ d.
Proof.
  induction d as [|[k' v'] d IH]; cbn [Py.dict_set].
  { intros ->%list_elem_of_singleton. by left. }
  case_decide.
  - intros [->|Hin]%elem_of_cons; [by left|]. right. by apply elem_of_cons; right.
  - intros [->|Hin]%elem_of_cons.
    + right. by apply elem_of_cons; left.
    + destruct (IH Hin) as [->|Hd]; [by left|].
      right. by apply elem_of_cons; right.
Qed.

Lemma re_sub_each_no_space (s : string) :
  all_chars (λ c, negb (Py.isspace c)) (Py.re_sub_each Py.isspace SPACE s)
  = true.
Proof.
  induction s as [|c s IH]; [done|]. cbn [Py.re_sub_each].
  destruct (Py.isspace c) eqn:Hc.
  - change (SPACE +:+ ?r) with (String "_" r). cbn [all_chars]. by rewrite IH.
  - cbn [all_chars]. by rewrite Hc, IH.
Qed.

Lemma chars_tokens (s c : string) :
  all_chars (λ c, negb (Py.isspace c)) s = true →
  c ∈ Py.chars s → is_token c.
Proof.
  induction s as [|a s IH]; cbn [Py.chars all_chars].
  { by intros _ ?%elem_of_nil. }
  intros [Ha Hs]%andb_true_iff [->|Hin]%elem_of_cons; [|by apply IH].
  split; [done|]. cbn [all_chars]. by rewrite Ha.
Qed.

Lemma add_chars_elem (chars : list string) (set : gset string) (x : string) :
  x ∈ foldl (λ set c, {[c]} ∪ set) set chars ↔ x ∈ chars ∨ x ∈ set.
Proof.
  revert set. induction chars as [|c chars IH]; intros set; cbn [foldl].
  { split; [by right|]. by intros [?%elem_of_nil|?]. }
  rewrite IH, elem_of_union, elem_of_singleton, elem_of_cons. tauto.
Qed.

(** What a successful turn of the loop stores. *)
Lemma read_label_Ok (fs : Py.filesystem) (st st' : reading)
    (label_path : string) :
  read_label fs st label_path = Ok st' →
  ∃ utt_name transcript,
    all_chars (λ c, negb (Py.isspace c)) transcript = true
    ∧ trans_dict st' = Py.dict_set utt_name transcript (trans_dict st)
    ∧ char_set st' =
        foldl (λ set c, {[c]} ∪ set) (char_set st) (Py.chars transcript).
Proof.
  unfold read_label.
  destruct (Py.read_file fs label_path) as [data|e]; [|done].
  cbn [mbind result_bind].
  destruct (Py.item_from_end (Py.readlines data) 1) as [line|e]; [|done].
  cbn [mbind result_bind].
  destruct (utt_name_of label_path) as [utt_name|e]; [|done].
  cbn [mbind result_bind].
  destruct (clean_line line) as [cleaned|e]; [|done].
  cbn [mbind result_bind].
  destruct (trim_spaces cleaned) as [transcript|e]; [|done].
  cbn [mbind result_bind].
  destruct (Py.split transcript " ") as [words|e]; [|done].
  cbn [mbind result_bind].
  destruct (for_each capital_units words (char_capital_set st)) as [units|e];
    [|done].
  cbn [mbind result_bind]. intros [= <-].
  exists utt_name, (Py.re_sub_each Py.isspace SPACE transcript).
  split; [apply re_sub_each_no_space|done].
Qed.

Lemma read_label_covered (fs : Py.filesystem) (st st' : reading)
    (label_path : string) :
  covered st → read_label fs st label_path = Ok st' → covered st'.
Proof.
  intros [Htokens Hcover] (utt_name & transcript & Hspace & Hdict & Hset)
    %read_label_Ok.
  split.
  - intros x. rewrite Hset, add_chars_elem.
    intros [Hx|Hx]; [by eapply chars_tokens|by apply Htokens].
  - intros entry c. rewrite Hdict, Hset, add_chars_elem.
    intros [->|Hentry]%dict_set_elem Hc; [by left|].
    right. by eapply Hcover.
Qed.

Lemma for_each_read_label_covered (fs : Py.filesystem)
    (label_paths : list string) (st st' : reading) :
  covered st → for_each (read_label fs) label_paths st = Ok st' → covered st'.
Proof.
  revert st. induction label_paths as [|label_path label_paths IH];
    intros st Hst; cbn [for_each]; [by intros [= <-]|].
  destruct (read_label fs st label_path) as [st1|e] eqn:Hstep; [|done].
  cbn [mbind result_bind]. apply IH. by eapply read_label_covered.
Qed.

Lemma with_markers_key (symbols : list string) (x : string) :
  x ∈ symbols → is_Some (with_markers symbols !! x).
Proof.
  intros Hx. unfold with_markers.
  destruct (decide (x = ">")) as [->|Hgt]; [by rewrite lookup_insert_eq|].
  rewrite lookup_insert_ne by done.
  destruct (decide (x = "<")) as [->|Hlt]; [by rewrite lookup_insert_eq|].
  rewrite lookup_insert_ne by done.
  induction symbols as [|y symbols IH] using rev_ind;
    [by apply elem_of_nil in Hx|].
  rewrite number_symbols_snoc. cbn [fst].
  destruct (decide (y = x)) as [->|Hy]; [by rewrite lookup_insert_eq|].
  rewrite lookup_insert_ne by done. apply IH.
  apply elem_of_app in Hx as [Hx|Hx%list_elem_of_singleton]; [done|].
  by subst.
Qed.

(** X5: plain mode: once the vocabulary directory exists or is made, every
    transcript of the corpus is tokenised without a lookup failure by the
    indexer loaded from the character vocabulary that the same call has
    saved. *)
Lemma plain_tokenisation_succeeds (dirs dirs' : Py.directories)
    (fs : Py.filesystem)
    (label_paths : list string) (vocab_file_save_path : string)
    (is_test : bool) (st : reading) (utt_name transcript : string) :
  for_each (read_label fs) label_paths
    {| trans_dict := []; char_set := ∅; char_capital_set := ∅ |} = Ok st →
  mkdir dirs fs vocab_file_save_path = Ok (dirs', vocab_file_save_path) →
  (utt_name, transcript) ∈ trans_dict st →
  ∃ char2idx index_list,
    Char2idx_init
      (read_char dirs fs label_paths vocab_file_save_path true is_test).1.2
      (Py.path_join vocab_file_save_path "character.txt") "_" false false []
      = Ok char2idx
    ∧ Char2idx_call char2idx transcript = Ok index_list.
Proof.
  intros Hscan Hmade Hentry.
  assert (covered st) as [Htokens Hcover].
  { eapply for_each_read_label_covered; [|exact Hscan].
    split; [by intros x ?%elem_of_empty|by intros ? ? ?%elem_of_nil]. }
  rewrite (read_char_made _ _ _ _ _ _ _ _ Hscan Hmade). cbn [fst snd].
  set (symbols := Py.sorted (elements (char_set st ∖ {[SPACE]} ∖ {[APOSTROPHE]}))
                    ++ [SPACE; APOSTROPHE]).
  assert (Forall is_token symbols) as Hsymbols.
  { apply Forall_app. split; [|by repeat constructor].
    apply sorted_tokens. intros x Hx. apply Htokens.
    apply elem_of_difference in Hx as [Hx _].
    by apply elem_of_difference in Hx as [Hx _]. }
  assert (∀ c, c ∈ Py.chars transcript → c ∈ symbols) as Hchars.
  { intros c Hc. specialize (Hcover (utt_name, transcript) c Hentry Hc).
    subst symbols. apply elem_of_app.
    destruct (decide (c = SPACE)) as [->|Hspace];
      [right; by apply elem_of_cons; left|].
    destruct (decide (c = APOSTROPHE)) as [->|Hapostrophe];
      [right; apply elem_of_cons; right; by apply elem_of_cons; left|].
    left. apply sorted_elem_of, elem_of_elements.
    apply elem_of_difference. split; [|by apply not_elem_of_singleton].
    apply elem_of_difference. split; [done|by apply not_elem_of_singleton]. }
  destruct (plain_lookup_decodes (with_markers symbols) (Py.chars transcript)
              (with_markers_inj symbols)) as (index_list & Hrun & _).
  { apply Forall_forall. intros c Hc. by apply with_markers_key, Hchars. }
  exists {| space_mark := "_"; capital_divide := false;
            double_letter := false; remove_list := [];
            map_dict := with_markers symbols |}, index_list.
  split; [|exact Hrun].
  rewrite (Char2idx_init_map _ _ (char_vocab_file (char_set st))).
  - unfold char_vocab_file. fold symbols.
    by rewrite retained_symbols_write_lines.
  - rewrite lookup_insert_ne by (intros Heq%path_join_inj; discriminate Heq).
    by rewrite lookup_insert_eq.
Qed.

End plain_tokenising.

(** ** Further properties of the index maps *)

Lemma with_markers_bound (symbols : list string) (s : string) (i : nat) :
  with_markers symbols !! s = Some i → i ≤ length symbols + 1.
Proof.
  unfold with_markers.
  intros [[_ <-]|[_ Hs]]%lookup_insert_Some; [lia|].
  apply lookup_insert_Some in Hs as [[_ <-]|[_ Hs]]; [lia|].
  apply number_symbols_bound in Hs. lia.
Qed.

Lemma with_markers_keys (symbols : list string) (s : string) :
  is_Some (with_markers symbols !! s) ↔ s ∈ symbols ∨ s = "<" ∨ s = ">".
Proof.
  split.
  - intros [i Hs]. unfold with_markers in Hs.
    apply lookup_insert_Some in Hs as [[<- _]|[_ Hs]]; [by right; right|].
    apply lookup_insert_Some in Hs as [[<- _]|[_ Hs]]; [by right; left|].
    left. apply number_symbols_lookup in Hs as [Hs _].
    by eapply list_elem_of_lookup_2.
  - intros [Hs|[->| ->]]; [by apply with_markers_key|..].
    + unfold with_markers. rewrite lookup_insert_ne by done.
      by rewrite lookup_insert_eq.
    + unfold with_markers. by rewrite lookup_insert_eq.
Qed.

(** X1: the map that [Char2idx.__init__] and [Phone2idx.__init__] build from
    an existing vocabulary file never gives two symbols the same index, uses
    no index above N+1 (N the number of retained symbols), has exactly the
    retained symbols and the two markers as keys, and so has no entry for a
    symbol of the exclusion list other than the markers. *)
Theorem X1_index_map_injective_bounded (fs : Py.filesystem)
    (path data space_mark : string) (capital_divide double_letter : bool)
    (remove_list : list string) :
  fs !! path = Some data →
  ∃ char2idx phone2idx,
    transcript_character.Char2idx_init fs path space_mark capital_divide
      double_letter remove_list = Ok char2idx
    ∧ transcript_phone.Phone2idx_init fs path remove_list = Ok phone2idx
    ∧ transcript_phone.map_dict phone2idx
        = transcript_character.map_dict char2idx
    ∧ (∀ s1 s2 i,
         transcript_character.map_dict char2idx !! s1 = Some i →
         transcript_character.map_dict char2idx !! s2 = Some i → s1 = s2)
    ∧ (∀ s i,
         transcript_character.map_dict char2idx !! s = Some i →
         i ≤ length (retained_symbols data remove_list) + 1)
    ∧ (∀ s,
         is_Some (transcript_character.map_dict char2idx !! s) ↔
         s ∈ retained_symbols data remove_list ∨ s = "<" ∨ s = ">")
    ∧ (∀ s,
         s ∈ remove_list → s ≠ "<" → s ≠ ">" →
         transcript_character.map_dict char2idx !! s = None).
Proof.
  intros Hfile. eexists _, _.
  split; [by apply Char2idx_init_map|]. split; [by apply Phone2idx_init_map|].
  cbn [transcript_character.map_dict transcript_phone.map_dict].
  split; [done|]. split; [apply with_markers_inj|].
  split; [apply with_markers_bound|]. split; [apply with_markers_keys|].
  intros s Hs Hlt Hgt. apply eq_None_not_Some.
  rewrite with_markers_keys. intros [Hin|[?|?]]; [|done..].
  unfold retained_symbols in Hin. by apply list_elem_of_filter in Hin as [? _].
Qed.

Lemma X1_index_map_witness :
  ∃ char2idx,
    transcript_character.Char2idx_init
      {[ "phone39.txt" := Py.write_lines ["aa"; "sil"; "aa"; "b"] ]}
      "phone39.txt" "_" false false ["sil"] = Ok char2idx
    ∧ transcript_character.map_dict char2idx !! "sil" = None
    ∧ transcript_character.map_dict char2idx !! "aa" = Some 1.
Proof.
  destruct (X1_index_map_injective_bounded
              {[ "phone39.txt" := Py.write_lines ["aa"; "sil"; "aa"; "b"] ]}
              "phone39.txt" (Py.write_lines ["aa"; "sil"; "aa"; "b"]) "_"
              false false ["sil"])
    as (char2idx & phone2idx & Hinit & _ & _ & _ & _ & _ & Hremoved);
    [vm_compute; reflexivity|].
  exists char2idx. split; [exact Hinit|]. split.
  - apply Hremoved; [by_decide|done|done].
  - vm_compute in Hinit. injection Hinit as <-. vm_compute. reflexivity.
Defined.

(** ** The indexers loaded from the saved character vocabulary *)

Section saved_character_vocabulary.
Import transcript_character.

(** The symbols of [character.txt], in file order. *)
Definition character_symbols (st : reading) : list string :=
  Py.sorted (elements (char_set st ∖ {[SPACE]} ∖ {[APOSTROPHE]}))
    ++ [SPACE; APOSTROPHE].

Lemma scan_covered (fs : Py.filesystem) (label_paths : list string)
    (st : reading) :
  for_each (read_label fs) label_paths
    {| trans_dict := []; char_set := ∅; char_capital_set := ∅ |} = Ok st →
  covered st.
Proof.
  intros Hscan. eapply for_each_read_label_covered; [|exact Hscan].
  split; [by intros x ?%elem_of_empty|by intros ? ? ?%elem_of_nil].
Qed.

Lemma character_symbols_tokens (st : reading) :
  covered st → Forall is_token (character_symbols st).
Proof.
  intros [Htokens _]. apply Forall_app. split; [|by repeat constructor].
  apply sorted_tokens. intros x Hx. apply Htokens.
  apply elem_of_difference in Hx as [Hx _].
  by apply elem_of_difference in Hx as [Hx _].
Qed.

Lemma character_symbols_elem (st : reading) (c : string) :
  c ∈ character_symbols st ↔ c ∈ char_set st ∨ c = SPACE ∨ c = APOSTROPHE.
Proof.
  unfold character_symbols.
  rewrite elem_of_app, sorted_elem_of, elem_of_elements, !elem_of_difference,
    !elem_of_cons, !not_elem_of_singleton, elem_of_nil.
  destruct (decide (c = SPACE)), (decide (c = APOSTROPHE)); tauto.
Qed.

(** The plain indexer that [read_char] loads after saving the vocabulary. *)
Lemma saved_plain_indexer (dirs dirs' : Py.directories) (fs : Py.filesystem)
    (label_paths : list string)
    (vocab_file_save_path : string) (is_test : bool) (st : reading) :
  for_each (read_label fs) label_paths
    {| trans_dict := []; char_set := ∅; char_capital_set := ∅ |} = Ok st →
  mkdir dirs fs vocab_file_save_path = Ok (dirs', vocab_file_save_path) →
  Char2idx_init
    (read_char dirs fs label_paths vocab_file_save_path true is_test).1.2
    (Py.path_join vocab_file_save_path "character.txt") "_" false false []
  = Ok {| space_mark := "_"; capital_divide := false; double_letter := false;
          remove_list := [];
          map_dict := with_markers (character_symbols st) |}.
Proof.
  intros Hscan Hmade.
  rewrite (read_char_made _ _ _ _ _ _ _ _ Hscan Hmade). cbn [fst snd].
  rewrite (Char2idx_init_map _ _ (char_vocab_file (char_set st))).
  - unfold char_vocab_file. fold (character_symbols st).
    by rewrite retained_symbols_write_lines
      by (by eapply character_symbols_tokens, scan_covered).
  - rewrite lookup_insert_ne by (intros Heq%path_join_inj; discriminate Heq).
    by rewrite lookup_insert_eq.
Qed.



End saved_character_vocabulary.



Lemma X5_plain_tokenisation_witness :
  let fs := one_file "train/dr1/fcjf0/sa1.txt" "0 46797 She had your dark suit.
" in
  ∃ char2idx index_list,
    transcript_character.Char2idx_init
      (transcript_character.read_char ∅ fs ["train/dr1/fcjf0/sa1.txt"] "vocab"
         true false).1.2
      (Py.path_join "vocab" "character.txt")
      "_" false false [] = Ok char2idx
    ∧ transcript_character.Char2idx_call char2idx "she_had_your_dark_suit"
      = Ok index_list.
Proof.
  intros fs.
  eapply (plain_tokenisation_succeeds ∅ {["vocab"]} fs
            ["train/dr1/fcjf0/sa1.txt"] "vocab"
            false _ "fcjf0_sa1" "she_had_your_dark_suit");
    [vm_compute; reflexivity | vm_compute; reflexivity | by_decide].
Defined.

(** ** Test mode and later splits *)

Section later_splits.
Import transcript_character.

Lemma mapM_tokenize_test (char2idx char2idx_capital : Char2idx)
    (entries : list (string * string)) :
  mapM (tokenize char2idx char2idx_capital true) entries =
    Ok ((λ entry, (entry.1, (entry.2, entry.2))) <$> entries).
Proof.
  induction entries as [|[utt_name transcript] entries IH]; [done|].
  change (mapM (tokenize char2idx char2idx_capital true)
            ((utt_name, transcript) :: entries))
    with (y ← tokenize char2idx char2idx_capital true (utt_name, transcript);
          rest ← mapM (tokenize char2idx char2idx_capital true) entries;
          Ok (y :: rest)).
  by rewrite IH.
Qed.

Lemma Char2idx_init_exists (fs : Py.filesystem) (path space_mark : string)
    (capital_divide double_letter : bool) (remove_list : list string) :
  is_Some (fs !! path) →
  ∃ self, Char2idx_init fs path space_mark capital_divide double_letter
            remove_list = Ok self.
Proof. intros [data Hfile]. eexists. by apply Char2idx_init_map. Qed.

Lemma Char2idx_init_missing (fs : Py.filesystem) (path space_mark : string)
    (capital_divide double_letter : bool) (remove_list : list string) :
  fs !! path = None →
  Char2idx_init fs path space_mark capital_divide double_letter remove_list
  = Raise (IOError path).
Proof. intros Hfile. unfold Char2idx_init, Py.read_file. by rewrite Hfile. Qed.

Lemma mapM_dict_get_missing (map_dict : gmap string nat)
    (symbols : list string) (c : string) :
  c ∈ symbols → map_dict !! c = None →
  ∃ key, mapM (Py.dict_get map_dict) symbols = Raise (KeyError key).
Proof.
  intros Hin Hmissing.
  induction symbols as [|x symbols IH]; [by apply elem_of_nil in Hin|].
  change (mapM (Py.dict_get map_dict) (x :: symbols))
    with (idx ← Py.dict_get map_dict x;
          rest ← mapM (Py.dict_get map_dict) symbols; Ok (idx :: rest)).
  destruct (map_dict !! x) as [idx|] eqn:Hx.
  - rewrite (dict_get_Some _ _ _ Hx). cbn [mbind result_bind].
    apply elem_of_cons in Hin as [->|Hin]; [congruence|].
    destruct (IH Hin) as [key ->]. by exists key.
  - rewrite (dict_get_None _ _ Hx). by exists x.
Qed.

Lemma mapM_raises {A B : Type} (f : A → result B) (l : list A) (x : A)
    (e : exn) :
  x ∈ l → f x = Raise e → ∃ e', mapM f l = Raise e'.
Proof.
  intros Hin Hx. induction l as [|y l IH]; [by apply elem_of_nil in Hin|].
  change (mapM f (y :: l)) with (b ← f y; rest ← mapM f l; Ok (b :: rest)).
  apply elem_of_cons in Hin as [<-|Hin].
  - rewrite Hx. by exists e.
  - destruct (f y) as [b|e1]; [|by exists e1].
    cbn [mbind result_bind]. destruct (IH Hin) as [e' ->]. by exists e'.
Qed.

End later_splits.

(** X3: in test mode [read_char] tokenises nothing: once the label files are
    read and the vocabulary directory exists or is made, it returns every
    cleaned transcript twice, in the order of the dictionary.  It still opens
    both vocabulary files first, so it raises [IOError] when one of them does
    not exist, as it does when the directory cannot be made. *)
Theorem X3_test_mode_returns_transcripts (dirs : Py.directories)
    (fs : Py.filesystem)
    (label_paths : list string) (vocab_file_save_path : string)
    (save_vocab_file : bool) (st : transcript_character.reading) :
  for_each (transcript_character.read_label fs) label_paths
    {| transcript_character.trans_dict := [];
       transcript_character.char_set := ∅;
       transcript_character.char_capital_set := ∅ |} = Ok st →
  let after :=
    transcript_character.read_char dirs fs label_paths vocab_file_save_path
      save_vocab_file true in
  let char_path :=
    Py.path_join vocab_file_save_path "character.txt" in
  let capital_path :=
    Py.path_join vocab_file_save_path
      "character_capital_divide.txt" in
  after.2 =
    match transcript_character.mkdir dirs fs vocab_file_save_path with
    | Raise e => Raise e
    | Ok _ =>
        match after.1.2 !! char_path, after.1.2 !! capital_path with
        | Some _, Some _ =>
            Ok ((λ entry, (entry.1, (entry.2, entry.2)))
                  <$> transcript_character.trans_dict st)
        | None, _ => Raise (IOError char_path)
        | Some _, None => Raise (IOError capital_path)
        end
    end.
Proof.
  intros Hscan after char_path capital_path. subst after.
  destruct (transcript_character.mkdir dirs fs vocab_file_save_path)
    as [[dirs' path]|e] eqn:Hmade.
  2:{ by rewrite (read_char_not_made _ _ _ _ _ _ _ _ Hscan Hmade). }
  destruct (mkdir_again _ _ _ _ _ Hmade) as [-> _].
  rewrite (read_char_made _ _ _ _ _ _ _ _ Hscan Hmade). cbn [fst snd].
  fold char_path capital_path.
  set (fs' := if save_vocab_file then _ else fs).
  destruct (fs' !! char_path) as [data|] eqn:Hchar.
  - destruct (Char2idx_init_exists fs' char_path "_" false false [])
      as [char2idx ->]; [by rewrite Hchar|].
    cbn [mbind result_bind].
    destruct (fs' !! capital_path) as [data'|] eqn:Hcapital.
    + destruct (Char2idx_init_exists fs' capital_path "_" true false [])
        as [char2idx_capital ->]; [by rewrite Hcapital|].
      cbn [mbind result_bind]. apply mapM_tokenize_test.
    + by rewrite (Char2idx_init_missing _ _ _ _ _ _ Hcapital).
  - by rewrite (Char2idx_init_missing _ _ _ _ _ _ Hchar).
Qed.

Lemma X3_test_mode_witness :
  let fs := one_file "test/dr1/faks0/sa1.txt" "0 46797 She had your dark suit.
" in
  (transcript_character.read_char ∅ fs ["test/dr1/faks0/sa1.txt"] "vocab"
     false true).2
  = Raise (IOError "vocab/character.txt")
  ∧ (transcript_character.read_char ∅ fs ["test/dr1/faks0/sa1.txt"] "vocab"
       true true).2
    = Ok [("faks0_sa1", ("she_had_your_dark_suit", "she_had_your_dark_suit"))]
  ∧ (transcript_character.read_char ∅ fs ["test/dr1/faks0/sa1.txt"]
       "nodir/vocab" true true).2
    = Raise (IOError "nodir/vocab").
Proof.
  intros fs. split; [|split].
  - rewrite (X3_test_mode_returns_transcripts ∅ fs ["test/dr1/faks0/sa1.txt"]
               "vocab" false _ ltac:(vm_compute; reflexivity)).
    vm_compute. reflexivity.
  - rewrite (X3_test_mode_returns_transcripts ∅ fs ["test/dr1/faks0/sa1.txt"]
               "vocab" true _ ltac:(vm_compute; reflexivity)).
    vm_compute. reflexivity.
  - rewrite (X3_test_mode_returns_transcripts ∅ fs ["test/dr1/faks0/sa1.txt"]
               "nodir/vocab" true _ ltac:(vm_compute; reflexivity)).
    vm_compute. reflexivity.
Defined.

(** X4: a later split is tokenised with the vocabulary saved before.  When
    [read_char] has saved the vocabulary of a training corpus and is then
    called without saving and outside test mode on label files one of whose
    transcripts has a character that the training corpus lacks (and that is
    not the space mark, the apostrophe or a marker), the call raises and
    leaves directories and files as they were. *)
Theorem X4_unseen_character_raises (dirs dirs' : Py.directories)
    (fs : Py.filesystem)
    (train_paths label_paths : list string) (vocab_file_save_path : string)
    (is_test : bool) (train st : transcript_character.reading)
    (utt_name transcript c : string) :
  let trained :=
    (transcript_character.read_char dirs fs train_paths vocab_file_save_path
       true is_test).1 in
  for_each (transcript_character.read_label fs) train_paths
    {| transcript_character.trans_dict := [];
       transcript_character.char_set := ∅;
       transcript_character.char_capital_set := ∅ |} = Ok train →
  transcript_character.mkdir dirs fs vocab_file_save_path
    = Ok (dirs', vocab_file_save_path) →
  for_each (transcript_character.read_label trained.2) label_paths
    {| transcript_character.trans_dict := [];
       transcript_character.char_set := ∅;
       transcript_character.char_capital_set := ∅ |} = Ok st →
  (utt_name, transcript) ∈ transcript_character.trans_dict st →
  c ∈ Py.chars transcript →
  c ∉ transcript_character.char_set train →
  c ∉ ["_"; "'"; "<"; ">"] →
  ∃ e,
    transcript_character.read_char trained.1 trained.2 label_paths
      vocab_file_save_path false false = (trained, Raise e).
Proof.
  intros trained Htrain Hmade Hscan Hentry Hc Hunseen Hfixed.
  pose proof (saved_plain_indexer dirs dirs' fs train_paths
                vocab_file_save_path is_test train Htrain Hmade) as Hplain.
  fold trained in Hplain.
  assert (trained.1 = dirs') as Hdirs.
  { subst trained. by rewrite (read_char_made _ _ _ _ _ _ _ _ Htrain Hmade). }
  rewrite (read_char_made trained.1 dirs' _ _ _ _ _ _ Hscan)
    by (rewrite Hdirs; by eapply mkdir_after).
  cbn zeta. rewrite Hplain. cbn [mbind result_bind].
  rewrite <-Hdirs, <-surjective_pairing.
  destruct (transcript_character.Char2idx_init trained.2 _ "_" true false [])
    as [char2idx_capital|e]; [|by exists e].
  cbn [mbind result_bind].
  assert (with_markers (character_symbols train) !! c = None) as Hmissing.
  { apply eq_None_not_Some. rewrite with_markers_keys, character_symbols_elem.
    unfold transcript_character.SPACE, transcript_character.APOSTROPHE.
    rewrite !not_elem_of_cons in Hfixed. tauto. }
  destruct (mapM_dict_get_missing _ _ _ Hc Hmissing) as [key Hkey].
  edestruct (mapM_raises
    (transcript_character.tokenize
       {| transcript_character.space_mark := "_";
          transcript_character.capital_divide := false;
          transcript_character.double_letter := false;
          transcript_character.remove_list := [];
          transcript_character.map_dict :=
            with_markers (character_symbols train) |}
       char2idx_capital false)
    (transcript_character.trans_dict st) (utt_name, transcript))
    as [e' ->]; [exact Hentry| |by exists e'].
  unfold transcript_character.tokenize, transcript_character.Char2idx_call.
  cbn [transcript_character.capital_divide transcript_character.double_letter
       transcript_character.map_dict].
  by rewrite Hkey.
Qed.

Lemma X4_unseen_character_witness :
  let fs : Py.filesystem :=
    {[ "train/dr1/fcjf0/sa1.txt" := "0 46797 She had your dark suit.
";     "dev/dr1/faks0/sa2.txt" := "0 30000 Don't ask me.
" ]} in
  let trained :=
    (transcript_character.read_char ∅ fs ["train/dr1/fcjf0/sa1.txt"] "vocab"
       true false).1 in
  ∃ e,
    transcript_character.read_char trained.1 trained.2
      ["dev/dr1/faks0/sa2.txt"] "vocab" false false
    = (trained, Raise e).
Proof.
  intros fs trained.
  eapply (X4_unseen_character_raises ∅ {["vocab"]} fs
            ["train/dr1/fcjf0/sa1.txt"]
            ["dev/dr1/faks0/sa2.txt"] "vocab" false _ _
            "faks0_sa2" "don't_ask_me" "n");
    [vm_compute; reflexivity | vm_compute; reflexivity
    | vm_compute; reflexivity | by_decide
    | by_decide | by_decide | by_decide].
Defined.

(** ** The shape of a cleaned transcript *)

Section cleaned_transcripts.
Import transcript_character.

Lemma remove_double_spaces_clean (transcript : string) :
  Py.contains "  " (remove_double_spaces transcript) = false.
Proof. funelim (remove_double_spaces transcript); congruence. Qed.

Lemma contains_two_spaces_cons (c c' : ascii) (r : string) :
  Py.contains "  " (String c (String c' r)) =
    (Ascii.eqb c " " && Ascii.eqb c' " ") || Py.contains "  " (String c' r).
Proof.
  cbn [Py.contains Py.startswith].
  by rewrite andb_true_r, (Ascii.eqb_sym " " c), (Ascii.eqb_sym " " c').
Qed.

Lemma getitem_0_char (s a : string) :
  Py.getitem s 0 = Ok a → ∃ c r, s = String c r ∧ a = String c "".
Proof. destruct s as [|c r]; [done|]. intros [= <-]. by exists c, r. Qed.

Lemma last_cons (c c' : ascii) (r : string) :
  Py.last (String c (String c' r)) = Py.last (String c' r).
Proof.
  unfold Py.last, Py.getitem. cbn [String.length].
  by rewrite !Nat.sub_succ, !Nat.sub_0_r.
Qed.

Lemma slice_from_1 (c : ascii) (r : string) :
  Py.slice_from (String c r) 1 = r.
Proof.
  unfold Py.slice_from. cbn [String.length].
  rewrite Nat.sub_succ, Nat.sub_0_r. cbn [String.substring].
  induction r as [|c' r IH]; [done|].
  cbn [String.length String.substring]. by rewrite IH.
Qed.

Lemma slice_init_cons (c c' : ascii) (r : string) :
  Py.slice (String c (String c' r)) 0
    (String.length (String c (String c' r)) - 1) =
  String c (Py.slice (String c' r) 0 (String.length (String c' r) - 1)).
Proof.
  unfold Py.slice. cbn [String.length].
  by rewrite !Nat.sub_succ, !Nat.sub_0_r.
Qed.

Lemma single_char_eq (c : ascii) :
  String c "" = " " ↔ Ascii.eqb c " " = true.
Proof.
  rewrite Ascii.eqb_eq. split; [by intros [= ->]|by intros ->].
Qed.

(** Without double spaces, a string that does not end in a space is spaced
    once its start is in order. *)
Lemma spaced_intro (s : string) (after_space : bool) (b : string) :
  Py.contains "  " s = false →
  Py.last s = Ok b → b ≠ " " →
  (after_space = true → ∃ c r, s = String c r ∧ Ascii.eqb c " " = false) →
  spaced after_space s = true.
Proof.
  revert after_space. induction s as [|c s IH]; intros after_space; [done|].
  intros Hclean Hlast Hb Hstart. cbn [spaced].
  destruct s as [|c' r].
  - injection Hlast as <-.
    destruct (Ascii.eqb c " ") eqn:Hc; [|done].
    by apply single_char_eq in Hc.
  - rewrite contains_two_spaces_cons in Hclean.
    apply orb_false_iff in Hclean as [Hpair Hclean].
    rewrite last_cons in Hlast.
    destruct (Ascii.eqb c " ") eqn:Hc.
    + destruct after_space.
      { destruct (Hstart eq_refl) as (c0 & r0 & [= <- <-] & Hc0). congruence. }
      cbn [negb andb]. apply IH; [done..|].
      intros _. by exists c', r.
    + apply IH; [done..|]. by intros [=].
Qed.

(** The same for a string that ends in a space, without that space. *)
Lemma spaced_init (s : string) (after_space : bool) :
  Py.contains "  " s = false →
  Py.last s = Ok " " →
  (after_space = true → ∃ c r, s = String c r ∧ Ascii.eqb c " " = false) →
  spaced after_space (Py.slice s 0 (String.length s - 1)) = true.
Proof.
  revert after_space. induction s as [|c s IH]; intros after_space; [done|].
  intros Hclean Hlast Hstart. destruct s as [|c' r].
  - injection Hlast as ->. destruct after_space; [|done].
    by destruct (Hstart eq_refl) as (c0 & r0 & [= <- <-] & Hc0).
  - rewrite slice_init_cons. rewrite last_cons in Hlast.
    rewrite contains_two_spaces_cons in Hclean.
    apply orb_false_iff in Hclean as [Hpair Hclean].
    cbn [spaced]. destruct (Ascii.eqb c " ") eqn:Hc.
    + destruct after_space.
      { destruct (Hstart eq_refl) as (c0 & r0 & [= <- <-] & Hc0). congruence. }
      cbn [negb andb]. apply IH; [done..|].
      intros _. by exists c', r.
    + apply IH; [done..|]. by intros [=].
Qed.

(** The transcript left by the trim of the first and last space. *)
Lemma trim_spaces_spaced (transcript trimmed : string) :
  Py.contains "  " transcript = false →
  trim_spaces transcript = Ok trimmed →
  spaced true trimmed = true.
Proof.
  intros Hclean. unfold trim_spaces.
  destruct (Py.getitem transcript 0) as [a|e] eqn:Hfirst; [|done].
  cbn [mbind result_bind].
  apply getitem_0_char in Hfirst as (c & r & -> & ->).
  set (s := if decide (String c "" = " ") then _ else _).
  assert (Py.contains "  " s = false
          ∧ ∀ c0 r0, s = String c0 r0 → Ascii.eqb c0 " " = false)
    as [Hs Hstart].
  { subst s. case_decide as Hc.
    - rewrite slice_from_1. apply single_char_eq in Hc.
      destruct r as [|c' r]; [done|].
      rewrite contains_two_spaces_cons, Hc in Hclean.
      apply orb_false_iff in Hclean as [Hpair Hclean].
      split; [done|]. by intros c0 r0 [= <- <-].
    - split; [done|]. intros c0 r0 [= <- <-].
      destruct (Ascii.eqb c " ") eqn:Heq; [|done].
      by apply single_char_eq in Heq. }
  clearbody s.
  destruct (Py.last s) as [b|e] eqn:Hlast; [|done].
  cbn [mbind result_bind]. intros [= <-].
  assert (∃ c0 r0, s = String c0 r0 ∧ Ascii.eqb c0 " " = false) as Hnonempty.
  { destruct s as [|c0 r0]; [done|]. exists c0, r0. eauto. }
  case_decide as Hb.
  - subst b. by apply spaced_init.
  - by eapply spaced_intro.
Qed.

(** The words of a spaced string are not empty. *)
Lemma split_spaced (s cur : string) :
  spaced (bool_decide (cur = "")) s = true →
  Forall (λ word, word ≠ "") (Py.split_go " " s 0 cur).
Proof.
  revert cur. induction s as [|c s IH]; intros cur Hspaced.
  { cbn in *. case_bool_decide as Hcur; [done|].
    constructor; [|constructor]. destruct cur; [done|apply rev_nonempty]. }
  cbn [spaced] in Hspaced. cbn [Py.split_go Py.startswith].
  rewrite andb_true_r, (Ascii.eqb_sym " " c).
  destruct (Ascii.eqb c " ").
  - apply andb_true_iff in Hspaced as [Hcur Hspaced].
    case_bool_decide as Hcur'; [done|].
    constructor; [destruct cur; [done|apply rev_nonempty]|].
    by apply IH.
  - by apply IH.
Qed.

Lemma get_Some (s : string) (i : nat) :
  i < String.length s → ∃ c, String.get i s = Some c.
Proof.
  revert i. induction s as [|a s IH]; intros i; cbn [String.length]; [lia|].
  destruct i as [|i]; [by exists a|].
  intros Hi. cbn [String.get]. apply IH. lia.
Qed.

Lemma getitem_Ok (s : string) (i : nat) :
  i < String.length s → ∃ c, Py.getitem s i = Ok (String c "").
Proof.
  intros [c Hc]%get_Some. exists c. unfold Py.getitem. by rewrite Hc.
Qed.

Lemma last_Ok (s : string) : s ≠ "" → ∃ c, Py.last s = Ok (String c "").
Proof.
  destruct s as [|a s]; [done|]. intros _. unfold Py.last.
  apply getitem_Ok. cbn [String.length]. lia.
Qed.

Lemma unit_scan_Ok (word : string) (st : bool * gset string) (i : nat) :
  i < String.length word → ∃ st', unit_scan word st i = Ok st'.
Proof.
  intros Hi. destruct st as [skip_flag units]. unfold unit_scan.
  destruct skip_flag; [by eexists|]. case_decide; [by eexists|].
  destruct (getitem_Ok word i Hi) as [c ->]. by eexists.
Qed.

Lemma for_each_unit_scan_Ok (word : string) (indices : list nat)
    (st : bool * gset string) :
  Forall (λ i, i < String.length word) indices →
  ∃ st', for_each (unit_scan word) indices st = Ok st'.
Proof.
  intros Hindices. revert st.
  induction Hindices as [|i indices Hi _ IH]; intros st; [by eexists|].
  cbn [for_each]. destruct (unit_scan_Ok word st i Hi) as [st' ->].
  apply IH.
Qed.

(** The unit scan of [read_char] cannot fail on a word that is not empty. *)
Lemma capital_units_Ok (units : gset string) (word : string) :
  word ≠ "" → ∃ units', capital_units units word = Ok units'.
Proof.
  intros Hword. unfold capital_units. case_decide; [by eexists|].
  destruct word as [|a word]; [done|]. rewrite getitem_0.
  cbn [mbind result_bind].
  change (Py.upper (String a "")) with (String (Py.upper_char a) "").
  rewrite append_cons, getitem_0. cbn [mbind result_bind].
  edestruct (for_each_unit_scan_Ok
               (String (Py.upper_char a) ("" +:+ Py.slice_from (String a word) 1)))
    as [[skip_flag units'] ->].
  { apply Forall_forall. intros i Hi. unfold Py.range in Hi.
    apply elem_of_seq in Hi. lia. }
  cbn [mbind result_bind]. unfold final_unit.
  destruct skip_flag; [by eexists|].
  edestruct (last_Ok (String (Py.upper_char a)
                        ("" +:+ Py.slice_from (String a word) 1)))
    as [c ->]; [done|].
  by eexists.
Qed.

Lemma for_each_capital_units_Ok (words : list string) (units : gset string) :
  Forall (λ word, word ≠ "") words →
  ∃ units', for_each capital_units words units = Ok units'.
Proof.
  intros Hwords. revert units.
  induction Hwords as [|word words Hword _ IH]; intros units; [by eexists|].
  cbn [for_each]. destruct (capital_units_Ok units word Hword) as [units' ->].
  apply IH.
Qed.

End cleaned_transcripts.

(** X6: the transcript that [read_char] takes from a line has no double
    space; when the trim of its first and last space succeeds, what is left
    is a sequence of non-empty words separated by single spaces, so that the
    unit scan, which takes the first character of every word, cannot fail on
    it. *)
Theorem X6_cleaned_transcript_has_words (line cleaned trimmed : string)
    (units : gset string) :
  transcript_character.clean_line line = Ok cleaned →
  transcript_character.trim_spaces cleaned = Ok trimmed →
  Py.contains "  " cleaned = false
  ∧ trimmed ≠ ""
  ∧ ∃ words units',
      Py.split trimmed " " = Ok words
      ∧ Forall (λ word, word ≠ "") words
      ∧ for_each transcript_character.capital_units words units = Ok units'.
Proof.
  intros Hclean Htrim.
  assert (Py.contains "  " cleaned = false) as Hspaces.
  { unfold transcript_character.clean_line, Py.split in Hclean.
    cbn [mbind result_bind] in Hclean. injection Hclean as <-.
    apply remove_double_spaces_clean. }
  pose proof (trim_spaces_spaced _ _ Hspaces Htrim) as Hspaced.
  split; [done|]. split; [by destruct trimmed|].
  pose proof (split_spaced trimmed "" Hspaced) as Hwords.
  destruct (for_each_capital_units_Ok _ units Hwords) as [units' Hunits].
  by exists (Py.split_go " " trimmed 0 ""), units'.
Qed.

Lemma X6_cleaned_transcript_witness :
  Py.contains "  " "she had your dark suit" = false
  ∧ "she had your dark suit" ≠ ""
  ∧ ∃ words units',
      Py.split "she had your dark suit" " " = Ok words
      ∧ Forall (λ word, word ≠ "") words
      ∧ for_each transcript_character.capital_units words (∅ : gset string)
        = Ok units'.
Proof.
  apply (X6_cleaned_transcript_has_words
           "0 46797 She  had your dark suit. 
" "she had your dark suit" "she had your dark suit" ∅);
    vm_compute; reflexivity.
Defined.

(** X7: a label file stops the loop of [read_char] only if it is missing or
    empty, if its path has no directory part, or if the trim of its cleaned
    last line fails.  Otherwise the turn succeeds: it stores the transcript,
    with the space mark for every white-space character, under the utterance
    name and only adds to the two symbol sets. *)
Theorem X7_read_label_succeeds (fs : Py.filesystem)
    (st : transcript_character.reading)
    (label_path data line utt_name cleaned trimmed : string) :
  fs !! label_path = Some data →
  Py.item_from_end (Py.readlines data) 1 = Ok line →
  transcript_character.utt_name_of label_path = Ok utt_name →
  transcript_character.clean_line line = Ok cleaned →
  transcript_character.trim_spaces cleaned = Ok trimmed →
  ∃ st',
    transcript_character.read_label fs st label_path = Ok st'
    ∧ transcript_character.trans_dict st' =
        Py.dict_set utt_name (Py.re_sub_each Py.isspace "_" trimmed)
          (transcript_character.trans_dict st)
    ∧ transcript_character.char_set st ⊆ transcript_character.char_set st'
    ∧ transcript_character.char_capital_set st
        ⊆ transcript_character.char_capital_set st'.
Proof.
  intros Hfile Hline Hname Hclean Htrim.
  assert (Py.contains "  " cleaned = false) as Hspaces.
  { unfold transcript_character.clean_line, Py.split in Hclean.
    cbn [mbind result_bind] in Hclean. injection Hclean as <-.
    apply remove_double_spaces_clean. }
  pose proof (split_spaced trimmed ""
                (trim_spaces_spaced _ _ Hspaces Htrim)) as Hwords.
  destruct (for_each_capital_units_Ok _
              (transcript_character.char_capital_set st) Hwords)
    as [units' Hunits].
  assert (∃ st', transcript_character.read_label fs st label_path = Ok st'
                 ∧ transcript_character.trans_dict st' =
                     Py.dict_set utt_name
                       (Py.re_sub_each Py.isspace "_" trimmed)
                       (transcript_character.trans_dict st))
    as (st' & Hstep & Hdict).
  { unfold transcript_character.read_label, Py.read_file.
    rewrite Hfile. cbn [mbind result_bind]. rewrite Hline.
    cbn [mbind result_bind]. rewrite Hname. cbn [mbind result_bind].
    rewrite Hclean. cbn [mbind result_bind]. rewrite Htrim.
    unfold Py.split. cbn [mbind result_bind]. rewrite Hunits.
    cbn [mbind result_bind]. by eexists. }
  exists st'. split; [done|]. split; [done|].
  pose proof (read_label_sets fs st label_path) as Hsets.
  rewrite Hstep in Hsets.
  destruct (transcript_character.read_label fs
              {| transcript_character.trans_dict := [];
                 transcript_character.char_set := ∅;
                 transcript_character.char_capital_set := ∅ |} label_path)
    as [added|]; [|done].
  destruct Hsets as [-> ->]. split; apply union_subseteq_r.
Qed.

Lemma X7_read_label_witness :
  let fs := one_file "train/dr1/fcjf0/sa1.txt" "0 46797 She had your dark suit.
" in
  ∃ st',
    transcript_character.read_label fs
      {| transcript_character.trans_dict := [];
         transcript_character.char_set := ∅;
         transcript_character.char_capital_set := ∅ |}
      "train/dr1/fcjf0/sa1.txt" = Ok st'
    ∧ transcript_character.trans_dict st' =
        [("fcjf0_sa1", "she_had_your_dark_suit")].
Proof.
  intros fs.
  edestruct (X7_read_label_succeeds fs
               {| transcript_character.trans_dict := [];
                  transcript_character.char_set := ∅;
                  transcript_character.char_capital_set := ∅ |}
               "train/dr1/fcjf0/sa1.txt")
    as (st' & Hstep & Hdict & _);
    [vm_compute; reflexivity ..|].
  exists st'. split; [exact Hstep|]. rewrite Hdict. vm_compute. reflexivity.
Defined.

(** ** Phone strings *)

Section phone_strings.
Import transcript_phone.

Lemma rev_app_rev_app (s t u : string) :
  String.rev_app (String.rev_app s t) u = String.rev_app t (s +:+ u).
Proof.
  revert t. induction s as [|a s IH]; intros t; [done|].
  cbn [String.rev_app]. rewrite IH. by rewrite append_cons.
Qed.

Lemma rev_rev_app (s : string) : String.rev (String.rev_app s "") = s.
Proof.
  unfold String.rev. rewrite rev_app_rev_app. cbn [String.rev_app].
  apply append_nil_r.
Qed.

Lemma split_go_word (x rest cur : string) :
  Py.contains " " x = false →
  Py.split_go " " (x +:+ rest) 0 cur =
    Py.split_go " " rest 0 (String.rev_app x cur).
Proof.
  revert cur. induction x as [|a x IH]; intros cur Hx; [done|].
  cbn [Py.contains Py.startswith] in Hx.
  apply orb_false_iff in Hx as [Ha Hx].
  rewrite append_cons. cbn [Py.split_go Py.startswith String.rev_app].
  rewrite Ha. by apply IH.
Qed.

(** Splitting the join of phones that contain no space gives them back. *)
Lemma split_join (phones : list string) :
  phones ≠ [] →
  Forall (λ phone, Py.contains " " phone = false) phones →
  Py.split (Py.join " " phones) " " = Ok phones.
Proof.
  intros Hne Hphones. unfold Py.split. f_equal.
  induction Hphones as [|x phones Hx Hphones IH]; [done|].
  destruct phones as [|y phones].
  - cbn [Py.join]. rewrite <-(append_nil_r x) at 1.
    rewrite split_go_word by done. cbn [Py.split_go].
    by rewrite rev_rev_app.
  - change (Py.join " " (x :: y :: phones))
      with (x +:+ " " +:+ Py.join " " (y :: phones)).
    rewrite split_go_word by done.
    change (" " +:+ Py.join " " (y :: phones))
      with (String " " (Py.join " " (y :: phones))).
    cbn [Py.split_go Py.startswith]. rewrite Ascii.eqb_refl. cbn [andb].
    rewrite rev_rev_app. f_equal. by apply IH.
Qed.

End phone_strings.

(** X8: for a sequence of at least one phone, none of which contains a
    space, [Phone2idx.__call__] on the space-joined string that [read_phone]
    builds looks up exactly these phones, in order: one index for every
    phone, or the [KeyError] of the first phone that is not in the map. *)
Theorem X8_joined_phones_are_looked_up (self : transcript_phone.Phone2idx)
    (phones : list string) :
  phones ≠ [] →
  Forall (λ phone, Py.contains " " phone = false) phones →
  transcript_phone.Phone2idx_call self (Py.join " " phones) =
    mapM (Py.dict_get (transcript_phone.map_dict self)) phones.
Proof.
  intros Hne Hphones. unfold transcript_phone.Phone2idx_call.
  by rewrite split_join.
Qed.

Lemma X8_joined_phones_witness :
  transcript_phone.Phone2idx_call
    {| transcript_phone.map_dict := with_markers ["aa"; "el"; "sh"] |}
    (Py.join " " ["sh"; "aa"; "el"])
  = Ok [2; 0; 1].
Proof.
  rewrite X8_joined_phones_are_looked_up; [reflexivity | done | by_decide].
Defined.

(** X9: [map_phone2phone] returns the sequence itself for the target phone61
    without reading the mapping file; for every other target, whenever it
    returns, the result holds no empty symbol and is not longer than the
    sequence it was given. *)
Theorem X9_mapped_phones_are_not_empty (fs : Py.filesystem)
    (phone_list mapped_phone_list : list string)
    (label_type map_file_path : string) :
  transcript_phone.map_phone2phone fs phone_list label_type map_file_path
    = Ok mapped_phone_list →
  (label_type = "phone61" → mapped_phone_list = phone_list)
  ∧ (label_type ≠ "phone61" →
     ("" ∉ mapped_phone_list)
     ∧ length mapped_phone_list ≤ length phone_list).
Proof.
  unfold transcript_phone.map_phone2phone. case_decide as Htype.
  { intros [= <-]. by split. }
  destruct (Py.read_file fs map_file_path) as [data|e]; [|done].
  cbn [mbind result_bind].
  destruct (for_each _ _ _) as [map_dict|e]; [|done].
  cbn [mbind result_bind]. rewrite remove_empty_filter. intros [= <-].
  split; [done|]. intros _. split.
  - by intros [Hne _]%list_elem_of_filter.
  - etrans; [apply length_filter|]. by rewrite length_fmap.
Qed.

Lemma X9_mapped_phones_witness :
  let fs := one_file "phone2phone.txt" "aa aa aa
q nan nan
" in
  ("" ∉ ["aa"; "zh"])
  ∧ length ["aa"; "zh"] ≤ length ["q"; "aa"; "q"; "zh"].
Proof.
  intros fs.
  refine (proj2 (X9_mapped_phones_are_not_empty fs ["q"; "aa"; "q"; "zh"]
                   ["aa"; "zh"] "phone48" "phone2phone.txt" _) _);
    [vm_compute; reflexivity | done].
Defined.

(** ** A malformed collapse table *)

Section malformed_table.
Import transcript_phone.

Lemma for_each_raises_IndexError {S A : Type} (body : S → A → result S)
    (xs : list A) (x : A) (st : S) :
  (∀ st y, only_IndexError (body st y)) →
  x ∈ xs → (∀ st, body st x = Raise IndexError) →
  for_each body xs st = Raise IndexError.
Proof.
  intros Honly Hin Hx. revert st.
  induction xs as [|y xs IH]; intros st; [by apply elem_of_nil in Hin|].
  cbn [for_each]. apply elem_of_cons in Hin as [<-|Hin].
  - by rewrite Hx.
  - pose proof (Honly st y) as Hy.
    destruct (body st y) as [st'|e]; cbn in Hy; [|by subst e].
    cbn [mbind result_bind]. by apply IH.
Qed.

Lemma only_IndexError_set_line (st : gset string * gset string * gset string)
    (line : string) :
  only_IndexError (set_line st line).
Proof.
  destruct st as [[phone61_set phone48_set] phone39_set]. unfold set_line.
  apply only_IndexError_bind; [apply only_IndexError_item|]. intros phone48.
  case_decide.
  - apply only_IndexError_bind; [apply only_IndexError_item|]. intros phone61.
    apply only_IndexError_bind; [apply only_IndexError_item|done].
  - apply only_IndexError_bind; [apply only_IndexError_item|done].
Qed.

Lemma only_IndexError_map_line (label_type : string)
    (map_dict : gmap string string) (line : string) :
  only_IndexError (map_line label_type map_dict line).
Proof.
  unfold map_line.
  apply only_IndexError_bind; [apply only_IndexError_item|]. intros phone48.
  repeat case_decide;
    repeat (apply only_IndexError_bind; [apply only_IndexError_item|];
            intros ?); done.
Qed.

Lemma item_short {A : Type} (l : list A) (i : nat) :
  length l ≤ i → Py.item l i = Raise IndexError.
Proof. intros Hlen. unfold Py.item. by rewrite lookup_ge_None_2. Qed.

End malformed_table.

(** X10: a line of the collapse table with fewer than two fields, such as a
    blank line, makes [read_phone] raise [IndexError] before it makes the
    vocabulary directory or writes any vocabulary file, and makes
    [map_phone2phone] raise [IndexError] for every target but phone61. *)
Theorem X10_short_table_row_raises_IndexError (fs : Py.filesystem)
    (vocab_file_save_path data line : string) :
  fs !! Py.path_join vocab_file_save_path "../phone2phone.txt" = Some data →
  line ∈ Py.readlines data →
  length (Py.split_ws (Py.strip line)) < 2 →
  (∀ dirs label_paths save_vocab_file is_test,
     transcript_phone.read_phone dirs fs label_paths vocab_file_save_path
       save_vocab_file is_test = (dirs, fs, Raise IndexError))
  ∧ (∀ phone_list label_type,
       label_type ≠ "phone61" →
       transcript_phone.map_phone2phone fs phone_list label_type
         (Py.path_join vocab_file_save_path "../phone2phone.txt")
       = Raise IndexError).
Proof.
  intros Hfile Hline Hshort. split.
  - intros dirs label_paths save_vocab_file is_test.
    unfold transcript_phone.read_phone, Py.read_file. rewrite Hfile.
    cbn [mbind result_bind].
    rewrite (for_each_raises_IndexError _ _ line); [done| |done|].
    + apply only_IndexError_set_line.
    + intros [[phone61_set phone48_set] phone39_set].
      unfold transcript_phone.set_line.
      by rewrite (item_short _ 1) by (clear -Hshort; lia).
  - intros phone_list label_type Htype.
    unfold transcript_phone.map_phone2phone, Py.read_file.
    rewrite decide_False by done. rewrite Hfile. cbn [mbind result_bind].
    rewrite (for_each_raises_IndexError _ _ line); [done| |done|].
    + apply only_IndexError_map_line.
    + intros map_dict. unfold transcript_phone.map_line.
      by rewrite (item_short _ 1) by (clear -Hshort; lia).
Qed.

Lemma X10_short_table_row_witness :
  let fs := one_file "vocab/../phone2phone.txt" "aa aa aa

q nan nan
" in
  transcript_phone.read_phone ∅ fs [] "vocab" true false
  = (∅, fs, Raise IndexError).
Proof.
  intros fs.
  refine (proj1 (X10_short_table_row_raises_IndexError fs "vocab"
    "aa aa aa

q nan nan
" "
" _ _ _) ∅ [] true false);
    [vm_compute; reflexivity | by_decide | vm_compute; lia].
Defined.

(** ** Indexers without two-character units *)

Section single_character_units.
Import transcript_character.

Lemma slice_pair (word : string) (i : nat) :
  Py.slice word i (i + 2) = String.substring i 2 word.
Proof. unfold Py.slice. f_equal. lia. Qed.

Lemma pair_scan_shift (map_dict : gmap string nat) (a : ascii) (word : string)
    (st : bool * list nat) (i : nat) :
  pair_scan map_dict (String a word) st (S i) = pair_scan map_dict word st i.
Proof.
  destruct st as [skip_flag index_list]. unfold pair_scan.
  rewrite !slice_pair. by change (S i + 2) with (S (i + 2)).
Qed.

Lemma for_each_pair_scan_shift (map_dict : gmap string nat) (a : ascii)
    (word : string) (start count : nat) (st : bool * list nat) :
  for_each (pair_scan map_dict (String a word)) (seq (S start) count) st =
    for_each (pair_scan map_dict word) (seq start count) st.
Proof.
  revert start st. induction count as [|count IH]; intros start st; [done|].
  cbn [seq for_each]. rewrite pair_scan_shift.
  destruct (pair_scan map_dict word st start) as [st'|e]; [|done].
  cbn [mbind result_bind]. apply IH.
Qed.

Lemma mapM_cons_eq {A B : Type} (f : A → result B) (x : A) (l : list A) :
  mapM f (x :: l) = (y ← f x; rest ← mapM f l; Ok (y :: rest)).
Proof. done. Qed.

Lemma pair_scan_single (map_dict : gmap string nat) (a b : ascii)
    (rest : string) (index_list : list nat) :
  (∀ key, is_Some (map_dict !! key) → String.length key ≠ 2) →
  pair_scan map_dict (String a (String b rest)) (false, index_list) 0 =
    (idx ← Py.dict_get map_dict (String a ""); Ok (false, index_list ++ [idx])).
Proof.
  intros Hkeys. unfold pair_scan.
  assert (Py.slice (String a (String b rest)) 0 (0 + 2)
          = String a (String b "")) as ->
    by (by destruct rest).
  rewrite decide_False; [by rewrite getitem_0|].
  intros Hin%elem_of_dom. by apply Hkeys in Hin.
Qed.

(** Without keys of two characters the loop looks up one character a turn. *)
Lemma for_each_pair_scan_plain (map_dict : gmap string nat) (word : string)
    (count : nat) (index_list : list nat) :
  (∀ key, is_Some (map_dict !! key) → String.length key ≠ 2) →
  count < String.length word →
  for_each (pair_scan map_dict word) (seq 0 count) (false, index_list) =
    (indices ← mapM (Py.dict_get map_dict)
                 (Py.chars (String.substring 0 count word));
     Ok (false, index_list ++ indices)).
Proof.
  intros Hkeys. revert count index_list.
  induction word as [|a word IH]; intros count index_list Hcount;
    cbn [String.length] in Hcount; [lia|].
  destruct count as [|count].
  { cbn. by rewrite app_nil_r. }
  destruct word as [|b word]; cbn [String.length] in Hcount; [lia|].
  cbn [seq for_each]. rewrite pair_scan_single by done.
  change (String.substring 0 (S count) (String a (String b word)))
    with (String a (String.substring 0 count (String b word))).
  cbn [Py.chars]. rewrite mapM_cons_eq.
  destruct (Py.dict_get map_dict (String a "")) as [idx|e]; [|done].
  cbn [mbind result_bind]. rewrite for_each_pair_scan_shift.
  rewrite IH by (cbn [String.length]; lia).
  destruct (mapM _ _) as [indices|e]; [|done].
  cbn [mbind result_bind]. by rewrite <-(assoc_L (++)).
Qed.

Lemma mapM_snoc {A B : Type} (f : A → result B) (l : list A) (x : A) :
  mapM f (l ++ [x]) = (ys ← mapM f l; y ← f x; Ok (ys ++ [y])).
Proof.
  induction l as [|a l IH].
  { cbn [app]. rewrite mapM_cons_eq. by destruct (f x). }
  rewrite <-app_comm_cons, !mapM_cons_eq.
  destruct (f a) as [b|e]; [|done]. cbn [mbind result_bind]. rewrite IH.
  destruct (mapM f l) as [ys|e]; [|done]. cbn [mbind result_bind].
  by destruct (f x).
Qed.

Lemma chars_init_last (s : string) :
  s ≠ "" →
  ∃ c, Py.last s = Ok c
       ∧ Py.chars s =
           Py.chars (String.substring 0 (String.length s - 1) s) ++ [c].
Proof.
  induction s as [|a s IH]; [done|]. intros _.
  destruct s as [|b s]; [by exists (String a "")|].
  destruct IH as (c & Hlast & Hchars); [done|].
  exists c. rewrite last_cons. split; [done|].
  cbn [String.length] in *. rewrite !Nat.sub_succ, !Nat.sub_0_r in *.
  change (String.substring 0 (S (String.length s)) (String a (String b s)))
    with (String a (String.substring 0 (String.length s) (String b s))).
  cbn [Py.chars] in *. by rewrite Hchars.
Qed.

(** The scan of a whole string followed by its final character. *)
Lemma scan_and_final_plain (map_dict : gmap string nat) (word : string)
    (index_list : list nat) :
  (∀ key, is_Some (map_dict !! key) → String.length key ≠ 2) →
  word ≠ "" →
  (st ← for_each (pair_scan map_dict word)
          (seq 0 (String.length word - 1)) (false, index_list);
   final_char map_dict word st) =
  (indices ← mapM (Py.dict_get map_dict) (Py.chars word);
   Ok (index_list ++ indices)).
Proof.
  intros Hkeys Hword.
  rewrite for_each_pair_scan_plain; [|done|destruct word; [done|cbn; lia]].
  destruct (chars_init_last word Hword) as (c & Hlast & ->).
  rewrite mapM_snoc.
  destruct (mapM _ _) as [indices|e]; [|done].
  cbn [mbind result_bind]. unfold final_char. rewrite Hlast.
  cbn [mbind result_bind].
  destruct (Py.dict_get map_dict c) as [idx|e]; [|done].
  cbn [mbind result_bind]. by rewrite (assoc_L (++)).
Qed.

Lemma final_char_cons (map_dict : gmap string nat) (a b : ascii)
    (rest : string) (st : bool * list nat) :
  final_char map_dict (String a (String b rest)) st =
    final_char map_dict (String b rest) st.
Proof. destruct st. unfold final_char. by rewrite last_cons. Qed.

End single_character_units.

(** X11: when no key of the map has two characters, the double-letter mode
    of [Char2idx.__call__] gives on every non-empty string exactly what the
    plain mode gives, the same indices or the same [KeyError]; on the empty
    string it raises [IndexError] where the plain mode returns the empty
    sequence. *)
Theorem X11_double_letter_mode_without_pairs
    (self : transcript_character.Char2idx) (str_char : string) :
  transcript_character.capital_divide self = false →
  transcript_character.double_letter self = true →
  (∀ key, is_Some (transcript_character.map_dict self !! key) →
          String.length key ≠ 2) →
  (str_char ≠ "" →
   transcript_character.Char2idx_call self str_char =
     mapM (Py.dict_get (transcript_character.map_dict self))
       (Py.chars str_char))
  ∧ transcript_character.Char2idx_call self "" = Raise IndexError.
Proof.
  intros Hcapital Hdouble Hkeys.
  unfold transcript_character.Char2idx_call. rewrite Hcapital, Hdouble.
  split; [|done]. intros Hne. unfold Py.range. rewrite Nat.sub_0_r.
  rewrite (scan_and_final_plain _ _ [] Hkeys Hne).
  by destruct (mapM _ _).
Qed.

Lemma X11_double_letter_witness :
  transcript_character.Char2idx_call
    {| transcript_character.space_mark := "_";
       transcript_character.capital_divide := false;
       transcript_character.double_letter := true;
       transcript_character.remove_list := [];
       transcript_character.map_dict := with_markers ["a"; "l"] |} "all"
  = Ok [0; 1; 1].
Proof.
  destruct (X11_double_letter_mode_without_pairs
              {| transcript_character.space_mark := "_";
                 transcript_character.capital_divide := false;
                 transcript_character.double_letter := true;
                 transcript_character.remove_list := [];
                 transcript_character.map_dict := with_markers ["a"; "l"] |}
              "all")
    as [Hcall _]; [reflexivity | reflexivity | |].
  - intros key Hkey%with_markers_keys.
    rewrite !elem_of_cons, elem_of_nil in Hkey.
    by destruct Hkey as [[->|[->|[]]]|[->| ->]].
  - rewrite Hcall by done. vm_compute. reflexivity.
Defined.

(** X12: when no key of the map has two characters, capital-divided mode
    tokenises a word of at least two characters as the upper-cased first
    character followed by the remaining characters, one unit each. *)
Theorem X12_capital_word_without_pairs (map_dict : gmap string nat)
    (index_list : list nat) (a b : ascii) (rest : string) :
  (∀ key, is_Some (map_dict !! key) → String.length key ≠ 2) →
  transcript_character.capital_word map_dict index_list
    (String a (String b rest)) =
  (capital ← Py.dict_get map_dict (Py.upper (String a ""));
   indices ← mapM (Py.dict_get map_dict) (Py.chars (String b rest));
   Ok (index_list ++ capital :: indices)).
Proof.
  intros Hkeys. unfold transcript_character.capital_word.
  rewrite getitem_0. cbn [mbind result_bind].
  destruct (Py.dict_get map_dict (Py.upper (String a ""))) as [capital|e];
    [|done].
  cbn [mbind result_bind].
  assert (Py.range 1 (String.length (String a (String b rest)) - 1)
          = seq 1 (String.length rest)) as ->
    by (unfold Py.range; cbn [String.length]; f_equal; lia).
  rewrite for_each_pair_scan_shift.
  pose proof (scan_and_final_plain map_dict (String b rest)
                (index_list ++ [capital]) Hkeys) as Hscan.
  cbn [String.length] in Hscan. rewrite Nat.sub_succ, Nat.sub_0_r in Hscan.
  destruct (for_each (transcript_character.pair_scan map_dict (String b rest))
              (seq 0 (String.length rest)) (false, index_list ++ [capital]))
    as [st|e] eqn:Hloop; cbn [mbind result_bind] in *.
  - rewrite final_char_cons, Hscan by done.
    destruct (mapM _ _); [|done].
    cbn [mbind result_bind]. by rewrite <-(assoc_L (++)).
  - specialize (Hscan ltac:(done)). by destruct (mapM _ _).
Qed.

Lemma X12_capital_word_witness :
  transcript_character.capital_word (with_markers ["A"; "a"; "l"]) [] "all"
  = Ok [0; 2; 2].
Proof.
  rewrite X12_capital_word_without_pairs; [vm_compute; reflexivity|].
  intros key Hkey%with_markers_keys.
  rewrite !elem_of_cons, elem_of_nil in Hkey.
  by destruct Hkey as [[->|[->|[->|[]]]]|[->| ->]].
Defined.

(** ** The script that pairs wav paths with htk paths *)

Section script_lines.
Import simplify.

Lemma readlines_go_text (x rest cur : string) :
  all_chars (λ c, negb (Ascii.eqb c "010")) x = true →
  Py.readlines_go (x +:+ String "010" rest) cur =
    (String.rev cur +:+ x +:+ String "010" "") :: Py.readlines_go rest "".
Proof.
  revert cur. induction x as [|c x IH]; intros cur Hx.
  { change ("" +:+ String "010" rest) with (String "010" rest).
    cbn [Py.readlines_go]. rewrite Ascii.eqb_refl. by rewrite rev_cons. }
  cbn [all_chars] in Hx. apply andb_true_iff in Hx as [Hc Hx].
  rewrite append_cons. cbn [Py.readlines_go].
  destruct (Ascii.eqb c "010"); [done|].
  rewrite IH by done. by rewrite rev_cons, append_assoc.
Qed.

Lemma readlines_write_text (lines : list string) :
  Forall (λ line, all_chars (λ c, negb (Ascii.eqb c "010")) line = true) lines →
  Py.readlines (Py.write_lines lines) =
    (λ line, line +:+ String "010" "") <$> lines.
Proof.
  unfold Py.readlines. induction 1 as [|x lines Hx _ IH]; [done|].
  cbn [Py.write_lines fmap list_fmap].
  change ("
" +:+ Py.write_lines lines) with (String "010" (Py.write_lines lines)).
  rewrite readlines_go_text by done. by rewrite IH.
Qed.

Lemma split_go_two_spaces (first rest cur : string) :
  all_chars (λ c, negb (Ascii.eqb c " ")) first = true →
  Py.split_go "  " (first +:+ String " " (String " " rest)) 0 cur =
    String.rev (String.rev_app first cur)
      :: Py.split_go "  " (String " " rest) 1 "".
Proof.
  revert cur. induction first as [|a first IH]; intros cur Hfirst; [done|].
  cbn [all_chars] in Hfirst. apply andb_true_iff in Hfirst as [Ha Hfirst].
  rewrite append_cons. cbn [Py.split_go Py.startswith String.rev_app].
  rewrite (Ascii.eqb_sym " " a).
  destruct (Ascii.eqb a " "); [done|]. cbn [andb]. by apply IH.
Qed.

Lemma substring_prefix (s t : string) :
  String.substring 0 (String.length s) (s +:+ t) = s.
Proof.
  induction s as [|a s IH]; [by destruct t|].
  rewrite append_cons. cbn [String.length String.substring]. by rewrite IH.
Qed.

Lemma length_append (s t : string) :
  String.length (s +:+ t) = String.length s + String.length t.
Proof.
  induction s as [|a s IH]; [done|].
  rewrite append_cons. cbn [String.length]. by rewrite IH.
Qed.

(** One line [stem.wav  rest] becomes [stem.wav  stem.htk]. *)
Lemma simple_line_entry (written stem rest : string) :
  all_chars (λ c, negb (Ascii.eqb c " ")) stem = true →
  simple_line written ((stem +:+ "wav") +:+ "  " +:+ rest) =
    Ok (written +:+ ((stem +:+ "wav") +:+ "  " +:+ stem +:+ "htk")
          +:+ String "010" "").
Proof.
  intros Hstem. unfold simple_line, Py.split.
  change ("  " +:+ rest) with (String " " (String " " rest)).
  rewrite split_go_two_spaces
    by (by rewrite all_chars_append, Hstem).
  cbn [mbind result_bind]. change (Py.item (?x :: ?l) 0) with (Ok x).
  cbn [mbind result_bind]. rewrite rev_rev_app. unfold Py.slice.
  rewrite length_append. cbn [String.length].
  replace (String.length stem + 3 - 3 - 0) with (String.length stem) by lia.
  rewrite substring_prefix. f_equal. f_equal.
  rewrite !append_assoc. do 3 f_equal.
Qed.

Lemma for_each_simple_line (entries : list (string * string))
    (written : string) :
  Forall (λ entry, all_chars (λ c, negb (Ascii.eqb c " ")) entry.1 = true)
    entries →
  for_each simple_line
    ((λ line, line +:+ String "010" "") <$> scp_lines entries) written =
    Ok (written +:+ Py.write_lines (htk_lines entries)).
Proof.
  intros Hentries. revert written.
  induction Hentries as [|[stem rest] entries Hstem _ IH]; intros written.
  { cbn. by rewrite append_nil_r. }
  cbn [scp_lines htk_lines fmap list_fmap for_each fst snd] in *.
  rewrite !append_assoc.
  rewrite <-(append_assoc stem "wav"). rewrite simple_line_entry by done.
  cbn [mbind result_bind]. fold (scp_lines entries). rewrite IH.
  cbn [Py.write_lines]. fold (htk_lines entries). f_equal.
  by rewrite !append_assoc.
Qed.

End script_lines.

Lemma all_chars_impl (p q : ascii → bool) (s : string) :
  (∀ c, p c = true → q c = true) →
  all_chars p s = true → all_chars q s = true.
Proof.
  intros Hpq. induction s as [|c s IH]; [done|]. cbn [all_chars].
  rewrite !andb_true_iff. intros [Hc Hs]. split; [by apply Hpq | by apply IH].
Qed.

(** X13: on an input whose lines have the form [stem.wav], two spaces, any
    text, where the stem has no space and the line neither a line feed nor
    a carriage return, the script writes one line [stem.wav], two spaces,
    [stem.htk] for every input line, in order, changes no other file and
    raises nothing. *)
Theorem X13_simplify_rewrites_every_line (fs : Py.filesystem)
    (entries : list (string * string)) :
  Forall (λ entry, all_chars (λ c, negb (Ascii.eqb c " ")) entry.1 = true)
    entries →
  Forall (λ line,
            all_chars (λ c, negb (Ascii.eqb c "010") && negb (Ascii.eqb c "013"))
              line = true)
    (scp_lines entries) →
  fs !! "wav2htk_concat_all.scp" = Some (Py.write_lines (scp_lines entries)) →
  simplify.simplify fs =
    (<["wav2htk_simple.scp" := Py.write_lines (htk_lines entries)]> fs, Ok ()).
Proof.
  intros Hstems Hlines Hfile. unfold simplify.simplify, Py.read_file.
  rewrite Hfile, readlines_write_text.
  - by rewrite for_each_simple_line.
  - eapply Forall_impl; [exact Hlines|]. intros line.
    apply all_chars_impl. by intros c [? _]%andb_true_iff.
Qed.

Lemma X13_simplify_witness :
  let fs := one_file "wav2htk_concat_all.scp"
    "/data/timit/train/dr1/fcjf0/sa1.wav  /data/htk/train/fcjf0_sa1.htk
/data/timit/train/dr1/fcjf0/sa2.wav  /data/htk/train/fcjf0_sa2.htk
" in
  simplify.simplify fs =
    (<["wav2htk_simple.scp" :=
         "/data/timit/train/dr1/fcjf0/sa1.wav  /data/timit/train/dr1/fcjf0/sa1.htk
/data/timit/train/dr1/fcjf0/sa2.wav  /data/timit/train/dr1/fcjf0/sa2.htk
"]> fs, Ok ()).
Proof.
  intros fs.
  apply (X13_simplify_rewrites_every_line fs
           [("/data/timit/train/dr1/fcjf0/sa1.", "/data/htk/train/fcjf0_sa1.htk");
            ("/data/timit/train/dr1/fcjf0/sa2.", "/data/htk/train/fcjf0_sa2.htk")]);
    [by_decide | by_decide | vm_compute; reflexivity].
Defined.

(** ** The phone reader on a well-formed corpus *)

Section phone_corpus.
Import transcript_phone.

















End phone_corpus.



(** ** The units of a word, as collected and as looked up *)

Section word_units_scans.
Import transcript_character.

Lemma slice_pair_0 (a b : ascii) (rest : string) :
  Py.slice (String a (String b rest)) 0 (0 + 2) = String a (String b "").
Proof. by destruct rest. Qed.

Lemma unit_scan_shift (a : ascii) (word : string) (st : bool * gset string)
    (i : nat) :
  unit_scan (String a word) st (S i) = unit_scan word st i.
Proof.
  destruct st as [skip_flag units]. unfold unit_scan.
  rewrite !slice_pair. by change (S i + 2) with (S (i + 2)).
Qed.

Lemma for_each_unit_scan_shift (a : ascii) (word : string) (start count : nat)
    (st : bool * gset string) :
  for_each (unit_scan (String a word)) (seq (S start) count) st =
    for_each (unit_scan word) (seq start count) st.
Proof.
  revert start st. induction count as [|count IH]; intros start st; [done|].
  cbn [seq for_each]. rewrite unit_scan_shift.
  destruct (unit_scan word st start) as [st'|e]; [|done].
  cbn [mbind result_bind]. apply IH.
Qed.

Lemma final_unit_cons (a b : ascii) (rest : string) (st : bool * gset string) :
  final_unit (String a (String b rest)) st = final_unit (String b rest) st.
Proof. destruct st. unfold final_unit. by rewrite last_cons. Qed.

Lemma unit_scan_0 (a b : ascii) (rest : string) (units : gset string) :
  unit_scan (String a (String b rest)) (false, units) 0 =
    if decide (String a (String b "") ∈ DOUBLE_LETTERS)
    then Ok (true, {[String a (String b "")]} ∪ units)
    else Ok (false, {[String a ""]} ∪ units).
Proof. unfold unit_scan. by rewrite slice_pair_0, getitem_0. Qed.

Lemma pair_scan_0 (map_dict : gmap string nat) (a b : ascii) (rest : string)
    (index_list : list nat) :
  pair_scan map_dict (String a (String b rest)) (false, index_list) 0 =
    if decide (String a (String b "") ∈ dom map_dict)
    then idx ← Py.dict_get map_dict (String a (String b ""));
         Ok (true, index_list ++ [idx])
    else idx ← Py.dict_get map_dict (String a "");
         Ok (false, index_list ++ [idx]).
Proof. unfold pair_scan. by rewrite slice_pair_0, getitem_0. Qed.

(** The scan of [read_char] collects the units of the letters it reads. *)
Lemma unit_scan_tail_units (s : string) (units : gset string) :
  s ≠ "" →
  (st ← for_each (unit_scan s) (seq 0 (String.length s - 1)) (false, units);
   final_unit s st) = Ok (list_to_set (tail_units s) ∪ units).
Proof.
  remember (String.length s) as n eqn:Hn. revert s Hn units.
  induction n as [n IH] using lt_wf_ind. intros s Hn units Hs. subst n.
  destruct s as [|a [|b rest]]; [done| |].
  { cbn. by rewrite union_empty_r_L. }
  cbn [String.length tail_units].
  rewrite Nat.sub_succ, Nat.sub_0_r. cbn [seq for_each].
  rewrite unit_scan_0.
  case_decide as Hpair; cbn [mbind result_bind].
  - rewrite for_each_unit_scan_shift. destruct rest as [|c rest].
    { cbn. by rewrite union_empty_r_L. }
    cbn [String.length seq for_each].
    change (unit_scan (String b (String c rest))
              (true, {[String a (String b "")]} ∪ units) 0)
      with (Ok (false, {[String a (String b "")]} ∪ units)
            : result (bool * gset string)).
    cbn [mbind result_bind]. rewrite for_each_unit_scan_shift.
    pose proof (IH (String.length (String c rest))
                  ltac:(cbn [String.length]; lia)
                  (String c rest) eq_refl
                  ({[String a (String b "")]} ∪ units) ltac:(done)) as Hrest.
    cbn [String.length] in Hrest. rewrite Nat.sub_succ, Nat.sub_0_r in Hrest.
    destruct (for_each (unit_scan (String c rest)) _ _) as [st|e];
      cbn [mbind result_bind] in *; [|done].
    rewrite !final_unit_cons, Hrest. f_equal. rewrite list_to_set_cons.
    by rewrite (assoc_L (∪)), (comm_L (∪) (list_to_set _) {[_]}).
  - rewrite for_each_unit_scan_shift.
    pose proof (IH (String.length (String b rest))
                  ltac:(cbn [String.length]; lia)
                  (String b rest) eq_refl
                  ({[String a ""]} ∪ units) ltac:(done)) as Hrest.
    cbn [String.length] in Hrest. rewrite Nat.sub_succ, Nat.sub_0_r in Hrest.
    destruct (for_each (unit_scan (String b rest)) _ _) as [st|e];
      cbn [mbind result_bind] in *; [|done].
    rewrite final_unit_cons, Hrest. f_equal. rewrite list_to_set_cons.
    by rewrite (assoc_L (∪)), (comm_L (∪) (list_to_set _) {[_]}).
Qed.

Lemma upper_char_idempotent (a : ascii) :
  Py.upper_char (Py.upper_char a) = Py.upper_char a.
Proof. by destruct a as [[] [] [] [] [] [] [] []]. Qed.

(** What [read_char] adds to the capital-divided set for a word of at least
    two letters. *)
Lemma capital_units_word_units (units : gset string) (a b : ascii)
    (rest : string) :
  capital_units units (String a (String b rest)) =
    Ok (list_to_set (word_units (String a (String b rest))) ∪ units).
Proof.
  unfold capital_units. rewrite decide_False by done.
  rewrite getitem_0. cbn [mbind result_bind]. rewrite slice_from_1.
  change (Py.upper (String a "") +:+ String b rest)
    with (String (Py.upper_char a) (String b rest)).
  rewrite getitem_0. cbn [mbind result_bind].
  change (Py.upper (String (Py.upper_char a) ""))
    with (String (Py.upper_char (Py.upper_char a)) "").
  rewrite upper_char_idempotent.
  assert (Py.range 1 (String.length (String (Py.upper_char a) (String b rest)) - 1)
          = seq 1 (String.length (String b rest) - 1)) as ->
    by (unfold Py.range; cbn [String.length]; f_equal; lia).
  rewrite for_each_unit_scan_shift.
  pose proof (unit_scan_tail_units (String b rest)
                ({[String (Py.upper_char a) ""]} ∪ units) ltac:(done)) as Hscan.
  destruct (for_each (unit_scan (String b rest)) _ _) as [st|e];
    cbn [mbind result_bind] in *; [|done].
  rewrite final_unit_cons, Hscan. f_equal. cbn [word_units].
  rewrite list_to_set_cons.
  by rewrite (assoc_L (∪)), (comm_L (∪) (list_to_set _) {[_]}).
Qed.

(** The scan of [Char2idx.__call__] looks the same units up when the keys of
    two characters are double letters and the double letters among the units
    are keys. *)
Lemma pair_scan_tail_units (map_dict : gmap string nat) (s : string)
    (index_list : list nat) :
  (∀ key, is_Some (map_dict !! key) → String.length key = 2 →
          key ∈ DOUBLE_LETTERS) →
  (∀ unit, unit ∈ tail_units s → unit ∈ DOUBLE_LETTERS →
           is_Some (map_dict !! unit)) →
  s ≠ "" →
  (st ← for_each (pair_scan map_dict s) (seq 0 (String.length s - 1))
          (false, index_list);
   final_char map_dict s st) =
  (indices ← mapM (Py.dict_get map_dict) (tail_units s);
   Ok (index_list ++ indices)).
Proof.
  intros Hkeys. remember (String.length s) as n eqn:Hn.
  revert s Hn index_list.
  induction n as [n IH] using lt_wf_ind. intros s Hn index_list Hunits Hs.
  subst n. destruct s as [|a [|b rest]]; [done| |].
  { cbn [String.length tail_units]. cbn [Nat.sub seq for_each mbind result_bind].
    unfold final_char. rewrite last_single. cbn [mbind result_bind].
    rewrite mapM_cons_eq.
    destruct (Py.dict_get map_dict (String a "")) as [idx|e]; [|done].
    done. }
  cbn [String.length tail_units] in Hunits |- *.
  rewrite Nat.sub_succ, Nat.sub_0_r. cbn [seq for_each].
  rewrite pair_scan_0.
  destruct (decide (String a (String b "") ∈ DOUBLE_LETTERS)) as [Hpair|Hpair].
  - assert (is_Some (map_dict !! String a (String b ""))) as [idx Hidx]
      by (apply Hunits; [by left|done]).
    rewrite decide_True by (by apply elem_of_dom).
    rewrite (dict_get_Some _ _ _ Hidx). cbn [mbind result_bind].
    rewrite mapM_cons_eq, (dict_get_Some _ _ _ Hidx). cbn [mbind result_bind].
    rewrite for_each_pair_scan_shift. destruct rest as [|c rest].
    { done. }
    cbn [String.length seq for_each].
    change (pair_scan map_dict (String b (String c rest))
              (true, index_list ++ [idx]) 0)
      with (Ok (false, index_list ++ [idx]) : result (bool * list nat)).
    cbn [mbind result_bind]. rewrite for_each_pair_scan_shift.
    pose proof (IH (String.length (String c rest))
                  ltac:(cbn [String.length]; lia)
                  (String c rest) eq_refl (index_list ++ [idx])) as Hrest.
    cbn [String.length] in Hrest. rewrite Nat.sub_succ, Nat.sub_0_r in Hrest.
    destruct (for_each (pair_scan map_dict (String c rest)) _ _) as [st|e];
      cbn [mbind result_bind] in *.
    + rewrite !final_char_cons, Hrest;
        [|intros unit Hunit; apply Hunits; by right|done].
      destruct (mapM _ _) as [indices|e]; [|done].
      cbn [mbind result_bind]. by rewrite <-(assoc_L (++)).
    + specialize (Hrest ltac:(intros unit Hunit; apply Hunits; by right)
                   ltac:(done)).
      destruct (mapM _ _) as [indices|e']; cbn [mbind result_bind] in *;
        congruence.
  - rewrite decide_False.
    2:{ intros Hin%elem_of_dom. by apply Hpair, Hkeys. }
    rewrite mapM_cons_eq.
    destruct (Py.dict_get map_dict (String a "")) as [idx|e]; [|done].
    cbn [mbind result_bind]. rewrite for_each_pair_scan_shift.
    pose proof (IH (String.length (String b rest))
                  ltac:(cbn [String.length]; lia)
                  (String b rest) eq_refl (index_list ++ [idx])) as Hrest.
    cbn [String.length] in Hrest. rewrite Nat.sub_succ, Nat.sub_0_r in Hrest.
    destruct (for_each (pair_scan map_dict (String b rest)) _ _) as [st|e];
      cbn [mbind result_bind] in *.
    + rewrite final_char_cons, Hrest;
        [|intros unit Hunit; apply Hunits; by right|done].
      destruct (mapM _ _) as [indices|e]; [|done].
      cbn [mbind result_bind]. by rewrite <-(assoc_L (++)).
    + specialize (Hrest ltac:(intros unit Hunit; apply Hunits; by right)
                   ltac:(done)).
      destruct (mapM _ _) as [indices|e']; cbn [mbind result_bind] in *;
        congruence.
Qed.

(** [Char2idx.__call__] on a word of at least two letters. *)
Lemma capital_word_word_units (map_dict : gmap string nat)
    (index_list : list nat) (a b : ascii) (rest : string) :
  (∀ key, is_Some (map_dict !! key) → String.length key = 2 →
          key ∈ DOUBLE_LETTERS) →
  (∀ unit, unit ∈ tail_units (String b rest) → unit ∈ DOUBLE_LETTERS →
           is_Some (map_dict !! unit)) →
  capital_word map_dict index_list (String a (String b rest)) =
    (indices ← mapM (Py.dict_get map_dict)
                 (word_units (String a (String b rest)));
     Ok (index_list ++ indices)).
Proof.
  intros Hkeys Hunits. unfold capital_word. cbn [word_units].
  rewrite getitem_0, mapM_cons_eq. cbn [mbind result_bind].
  destruct (Py.dict_get map_dict (Py.upper (String a ""))) as [idx|e]; [|done].
  cbn [mbind result_bind].
  assert (Py.range 1 (String.length (String a (String b rest)) - 1)
          = seq 1 (String.length (String b rest) - 1)) as ->
    by (unfold Py.range; cbn [String.length]; f_equal; lia).
  rewrite for_each_pair_scan_shift.
  pose proof (pair_scan_tail_units map_dict (String b rest)
                (index_list ++ [idx]) Hkeys Hunits ltac:(done)) as Hscan.
  destruct (for_each (pair_scan map_dict (String b rest)) _ _) as [st|e];
    cbn [mbind result_bind] in *.
  - rewrite final_char_cons, Hscan. destruct (mapM _ _) as [indices|e]; [|done].
    cbn [mbind result_bind]. by rewrite <-(assoc_L (++)).
  - by destruct (mapM _ _).
Qed.

Lemma join_empty_cons (x : string) (l : list string) :
  Py.join "" (x :: l) = x +:+ Py.join "" l.
Proof. destruct l; [by rewrite append_nil_r | done]. Qed.

Lemma tail_units_cons (a b : ascii) (rest : string) :
  tail_units (String a (String b rest)) =
    if decide (String a (String b "") ∈ DOUBLE_LETTERS)
    then String a (String b "") :: tail_units rest
    else String a "" :: tail_units (String b rest).
Proof. done. Qed.

(** The units of a string cut it into pieces. *)
Lemma join_tail_units (s : string) : Py.join "" (tail_units s) = s.
Proof.
  remember (String.length s) as n eqn:Hn. revert s Hn.
  induction n as [n IH] using lt_wf_ind. intros s ->.
  destruct s as [|a [|b rest]]; [done..|]. rewrite tail_units_cons.
  case_decide; rewrite join_empty_cons.
  - by rewrite (IH (String.length rest) ltac:(cbn [String.length]; lia)
                  rest eq_refl).
  - by rewrite (IH (String.length (String b rest))
                  ltac:(cbn [String.length]; lia) (String b rest) eq_refl).
Qed.

End word_units_scans.

(** X15: for a word of at least two letters, [read_char] adds to the
    capital-divided set exactly the units of the word: its first letter in
    upper case, then the other letters cut from the left into pairs of
    [DOUBLE_LETTERS] and single characters; the units concatenate to the
    capitalised word.  When the keys of two characters of an index map are
    double letters and every unit of the word is a key, the capital-divided
    branch of [Char2idx.__call__] succeeds on the word and appends the
    indices of exactly these units, in order. *)
Theorem X15_capital_word_looks_up_collected_units
    (map_dict : gmap string nat) (units : gset string) (index_list : list nat)
    (a b : ascii) (rest : string) :
  let word := String a (String b rest) in
  (∀ key, is_Some (map_dict !! key) → String.length key = 2 →
          key ∈ transcript_character.DOUBLE_LETTERS) →
  (∀ unit, unit ∈ word_units word → is_Some (map_dict !! unit)) →
  transcript_character.capital_units units word
    = Ok (list_to_set (word_units word) ∪ units)
  ∧ Py.join "" (word_units word) = Py.upper (String a "") +:+ String b rest
  ∧ ∃ indices,
      mapM (Py.dict_get map_dict) (word_units word) = Ok indices
      ∧ transcript_character.capital_word map_dict index_list word
        = Ok (index_list ++ indices).
Proof.
  intros word Hkeys Hunits. subst word.
  split; [apply capital_units_word_units|]. split.
  { cbn [word_units]. by rewrite join_empty_cons, join_tail_units. }
  assert (∀ symbols, Forall (λ unit, is_Some (map_dict !! unit)) symbols →
            ∃ indices, mapM (Py.dict_get map_dict) symbols = Ok indices)
    as Hlookups.
  { induction 1 as [|unit symbols [idx Hunit] _ [indices IH]]; [by exists []|].
    exists (idx :: indices).
    by rewrite mapM_cons_eq, (dict_get_Some _ _ _ Hunit), IH. }
  destruct (Hlookups (word_units (String a (String b rest))))
    as [indices Hindices]; [by apply Forall_forall|].
  exists indices. split; [done|].
  rewrite capital_word_word_units, Hindices; [done..|].
  intros unit Hunit _. apply Hunits. cbn [word_units]. by right.
Qed.

Lemma X15_capital_word_witness :
  transcript_character.capital_units ∅ "till" = Ok {["T"; "i"; "ll"]}
  ∧ ∃ indices,
      mapM (Py.dict_get (with_markers ["T"; "i"; "l"; "ll"])) ["T"; "i"; "ll"]
        = Ok indices
      ∧ transcript_character.capital_word
          (with_markers ["T"; "i"; "l"; "ll"]) [] "till" = Ok indices.
Proof.
  destruct (X15_capital_word_looks_up_collected_units
              (with_markers ["T"; "i"; "l"; "ll"]) ∅ [] "t" "i" "ll")
    as (Hunits & _ & indices & Hlookups & Hrun).
  - intros key Hkey%with_markers_keys Hlen.
    rewrite !elem_of_cons, elem_of_nil in Hkey.
    destruct Hkey as [[->|[->|[->|[->|[]]]]]|[->| ->]]; try done.
    by_decide.
  - change (word_units "till") with ["T"; "i"; "ll"].
    intros unit Hunit. rewrite !elem_of_cons, elem_of_nil in Hunit.
    destruct Hunit as [->|[->|[->|[]]]]; by_decide.
  - split.
    + rewrite Hunits. by f_equal.
    + exists indices. split; [exact Hlookups | exact Hrun].
Defined.

(** ** The character reader on a corpus of words of two letters or more *)

Section character_corpus.
Import transcript_character.





















End character_corpus.



(** ** The phone reader on the later splits *)

Section phone_later_splits.
Import transcript_phone.

Lemma mapM_tokenize_phone_test (phone2idx_61 phone2idx_48 phone2idx_39 : Phone2idx)
    (entries : list (string * (string * string * string))) :
  mapM (tokenize phone2idx_61 phone2idx_48 phone2idx_39 true) entries
  = Ok entries.
Proof.
  induction entries as [|[utt_name [[t61 t48] t39]] entries IH]; [done|].
  rewrite mapM_cons_eq, IH. done.
Qed.

Lemma Phone2idx_init_exists (fs : Py.filesystem) (path : string)
    (remove_list : list string) :
  is_Some (fs !! path) → ∃ self, Phone2idx_init fs path remove_list = Ok self.
Proof. intros [data Hfile]. eexists. by apply Phone2idx_init_map. Qed.

Lemma Phone2idx_init_missing (fs : Py.filesystem) (path : string)
    (remove_list : list string) :
  fs !! path = None → Phone2idx_init fs path remove_list = Raise (IOError path).
Proof. intros Hfile. unfold Phone2idx_init, Py.read_file. by rewrite Hfile. Qed.

End phone_later_splits.

(** X17: in test mode [read_phone] tokenises nothing: once the table and the
    label files are read and the vocabulary directory exists or is made, it
    returns the three phone strings of every utterance as they are.  It
    still opens the three vocabulary files first, in the order phone61,
    phone48, phone39, and raises [IOError] for the first one that does not
    exist, as it does when the directory cannot be made. *)
Theorem X17_phone_test_mode_returns_phone_strings (dirs : Py.directories)
    (fs : Py.filesystem)
    (label_paths : list string) (vocab_file_save_path data : string)
    (save_vocab_file : bool)
    (trans_dict : list (string * (string * string * string))) :
  let map_file_path := Py.path_join vocab_file_save_path "../phone2phone.txt" in
  let after :=
    transcript_phone.read_phone dirs fs label_paths vocab_file_save_path
      save_vocab_file true in
  let path61 := Py.path_join vocab_file_save_path "phone61.txt" in
  let path48 := Py.path_join vocab_file_save_path "phone48.txt" in
  let path39 := Py.path_join vocab_file_save_path "phone39.txt" in
  fs !! map_file_path = Some data →
  Forall (λ row, 3 ≤ length row) (table_rows data) →
  for_each (transcript_phone.read_label after.1.2 map_file_path) label_paths []
    = Ok trans_dict →
  after.2 =
    match transcript_phone.mkdir dirs fs vocab_file_save_path with
    | Raise e => Raise e
    | Ok _ =>
        match after.1.2 !! path61, after.1.2 !! path48, after.1.2 !! path39
        with
        | Some _, Some _, Some _ => Ok trans_dict
        | None, _, _ => Raise (IOError path61)
        | Some _, None, _ => Raise (IOError path48)
        | Some _, Some _, None => Raise (IOError path39)
        end
    end.
Proof.
  intros map_file_path after path61 path48 path39 Hfile Hrows.
  subst after.
  destruct (transcript_phone.mkdir dirs fs vocab_file_save_path)
    as [[dirs' path]|e] eqn:Hmade.
  2:{ by rewrite (read_phone_not_made _ _ _ _ _ _ _ _ _ Hfile
                    (set_lines_rows _ _ _ _ Hrows) Hmade). }
  destruct (mkdir_again _ _ _ _ _ Hmade) as [-> _].
  rewrite (read_phone_made _ _ _ _ _ _ _ _ _ _ _ Hfile
             (set_lines_rows _ _ _ _ Hrows) Hmade).
  cbn [fst snd]. fold map_file_path path61 path48 path39.
  set (fs' := if save_vocab_file then _ else fs).
  intros Hscan. rewrite Hscan. cbn [mbind result_bind].
  destruct (fs' !! path61) as [data61|] eqn:H61.
  2:{ by rewrite (Phone2idx_init_missing _ _ _ H61). }
  destruct (Phone2idx_init_exists fs' path61 []) as [phone2idx_61 ->];
    [by rewrite H61|].
  cbn [mbind result_bind].
  destruct (fs' !! path48) as [data48|] eqn:H48.
  2:{ by rewrite (Phone2idx_init_missing _ _ _ H48). }
  destruct (Phone2idx_init_exists fs' path48 []) as [phone2idx_48 ->];
    [by rewrite H48|].
  cbn [mbind result_bind].
  destruct (fs' !! path39) as [data39|] eqn:H39.
  2:{ by rewrite (Phone2idx_init_missing _ _ _ H39). }
  destruct (Phone2idx_init_exists fs' path39 []) as [phone2idx_39 ->];
    [by rewrite H39|].
  cbn [mbind result_bind]. apply mapM_tokenize_phone_test.
Qed.

Lemma X17_phone_test_mode_witness :
  let fs : Py.filesystem :=
    {[ "vocab/../phone2phone.txt" := "aa aa aa
q nan nan
sh sh sh
";
       "vocab/phone61.txt" := "aa
q
sh
";
       "vocab/phone48.txt" := "aa
sh
";
       "vocab/phone39.txt" := "aa
sh
";
       "test/dr1/faks0/sa1.phn" := "0 3050 sh
3050 4559 aa
4559 5723 q
" ]} in
  (transcript_phone.read_phone {["vocab"]} fs ["test/dr1/faks0/sa1.phn"]
     "vocab" false true).2
  = Ok [("faks0_sa1", ("sh aa q", "sh aa", "sh aa"))].
Proof.
  intros fs.
  rewrite (X17_phone_test_mode_returns_phone_strings {["vocab"]} fs
             ["test/dr1/faks0/sa1.phn"] "vocab" "aa aa aa
q nan nan
sh sh sh
" false [("faks0_sa1", ("sh aa q", "sh aa", "sh aa"))]);
    [vm_compute; reflexivity | vm_compute; reflexivity | by_decide
    | vm_compute; reflexivity].
Defined.

(** ** What the readers leave alone *)

Section frame.

Lemma mkdir_bounds (dirs dirs' : Py.directories) (fs : Py.filesystem)
    (path_to_dir path : string) :
  transcript_character.mkdir dirs fs path_to_dir = Ok (dirs', path) →
  dirs ⊆ dirs'
  ∧ dirs' ⊆ {[Py.rstrip_slashes path_to_dir]} ∪ dirs
  ∧ (Py.isdir dirs path_to_dir = true → dirs' = dirs).
Proof.
  unfold transcript_character.mkdir.
  destruct (Py.isdir dirs path_to_dir) eqn:Hdir.
  { intros [= <- <-]. split; [done|]. split; [apply union_subseteq_r|done]. }
  unfold Py.os_mkdir. repeat case_decide; try done.
  cbn [mbind result_bind]. intros [= <- <-].
  split; [apply union_subseteq_r|]. by split.
Qed.



End frame.



(** X20: [mkdir_join] with one file name (a name with a dot) makes at most
    the directory [path_to_dir] and returns the joined path.  When the
    directory exists nothing is made; the empty path raises [IOError]
    ([FileNotFoundError]); after a call that returned the directory exists,
    every directory that existed still does, and the same call again
    returns the same path and makes nothing; a call that raises raises
    [IOError] for [path_to_dir], which is then no directory.  The copies of
    the function in the two modules agree. *)
Theorem X20_mkdir_join_makes_the_directory (dirs : Py.directories)
    (fs : Py.filesystem) (path_to_dir name : string) :
  Py.contains "." name = true →
  (Py.isdir dirs path_to_dir = true →
   transcript_character.mkdir_join dirs fs path_to_dir [name]
   = Ok (dirs, Py.path_join path_to_dir name))
  ∧ transcript_character.mkdir_join dirs fs "" [name] = Raise (IOError "")
  ∧ (∀ dirs' path,
       transcript_character.mkdir_join dirs fs path_to_dir [name]
         = Ok (dirs', path) →
       path = Py.path_join path_to_dir name
       ∧ Py.isdir dirs' path_to_dir = true
       ∧ dirs ⊆ dirs'
       ∧ dirs' ⊆ {[Py.rstrip_slashes path_to_dir]} ∪ dirs
       ∧ transcript_character.mkdir_join dirs' fs path_to_dir [name]
         = Ok (dirs', path))
  ∧ (∀ e,
       transcript_character.mkdir_join dirs fs path_to_dir [name] = Raise e →
       e = IOError path_to_dir ∧ Py.isdir dirs path_to_dir = false)
  ∧ transcript_phone.mkdir_join dirs fs path_to_dir [name]
    = transcript_character.mkdir_join dirs fs path_to_dir [name].
Proof.
  intros Hdot. split; [|split; [|split; [|split]]].
  - intros Hdir. apply mkdir_join_file; [|done].
    unfold transcript_character.mkdir. by rewrite Hdir.
  - done.
  - intros dirs' path Hjoin.
    destruct (mkdir_result dirs fs path_to_dir) as [[dirs0 Hmade]|Hmade].
    2:{ by rewrite (mkdir_join_raises _ _ _ _ _ Hmade) in Hjoin. }
    rewrite (mkdir_join_file _ _ _ _ _ Hmade Hdot) in Hjoin.
    injection Hjoin as <- <-.
    destruct (mkdir_again _ _ _ _ _ Hmade) as [_ Hdir].
    destruct (mkdir_bounds _ _ _ _ _ Hmade) as (Hsub & Hsup & _).
    do 4 (split; [done|]).
    by apply mkdir_join_file; [apply (mkdir_twice _ _ _ _ Hmade)|].
  - intros e Hjoin.
    destruct (mkdir_result dirs fs path_to_dir) as [[dirs0 Hmade]|Hmade].
    { by rewrite (mkdir_join_file _ _ _ _ _ Hmade Hdot) in Hjoin. }
    rewrite (mkdir_join_raises _ _ _ _ _ Hmade) in Hjoin.
    injection Hjoin as <-. split; [done|].
    unfold transcript_character.mkdir in Hmade.
    by destruct (Py.isdir dirs path_to_dir).
  - done.
Qed.

Lemma X20_mkdir_join_witness :
  transcript_character.mkdir_join {["config"]} ∅ "config/vocab_files"
    ["character.txt"]
  = Ok ({["config/vocab_files"; "config"]},
        "config/vocab_files/character.txt")
  ∧ transcript_character.mkdir_join ∅ ∅ "nodir/vocab" ["character.txt"]
    = Raise (IOError "nodir/vocab").
Proof.
  destruct (X20_mkdir_join_makes_the_directory {["config"]} ∅
              "config/vocab_files" "character.txt" eq_refl)
    as (_ & _ & Hmade & _).
  destruct (X20_mkdir_join_makes_the_directory ∅ ∅
              "nodir/vocab" "character.txt" eq_refl)
    as (_ & _ & _ & Hraise & _).
  split; [vm_compute; reflexivity|].
  destruct (transcript_character.mkdir_join ∅ ∅ "nodir/vocab"
              ["character.txt"]) as [made|e] eqn:Hjoin;
    [by vm_compute in Hjoin|].
  by destruct (Hraise e eq_refl) as [-> _].
Defined.

(** ** Utterance names *)

Section utterance_names.

Lemma split_go_piece (c : ascii) (x rest cur : string) :
  all_chars (λ a, negb (Ascii.eqb a c)) x = true →
  Py.split_go (String c "") (x +:+ rest) 0 cur =
    Py.split_go (String c "") rest 0 (String.rev_app x cur).
Proof.
  revert cur. induction x as [|a x IH]; intros cur Hx; [done|].
  cbn [all_chars] in Hx. apply andb_true_iff in Hx as [Ha Hx].
  apply negb_true_iff in Ha.
  rewrite append_cons. cbn [Py.split_go Py.startswith String.rev_app].
  rewrite (Ascii.eqb_sym c a), Ha. cbn [andb]. by apply IH.
Qed.

(** Splitting the join of pieces free of the separator gives them back. *)
Lemma split_join_char (c : ascii) (pieces : list string) :
  pieces ≠ [] →
  Forall (λ piece, all_chars (λ a, negb (Ascii.eqb a c)) piece = true) pieces →
  Py.split_go (String c "") (Py.join (String c "") pieces) 0 "" = pieces.
Proof.
  intros Hne Hpieces.
  induction Hpieces as [|x pieces Hx Hpieces IH]; [done|].
  destruct pieces as [|y pieces].
  - cbn [Py.join]. rewrite <-(append_nil_r x) at 1.
    rewrite split_go_piece by done. cbn [Py.split_go].
    by rewrite rev_rev_app.
  - change (Py.join (String c "") (x :: y :: pieces))
      with (x +:+ String c "" +:+ Py.join (String c "") (y :: pieces)).
    rewrite split_go_piece by done.
    change (String c "" +:+ Py.join (String c "") (y :: pieces))
      with (String c (Py.join (String c "") (y :: pieces))).
    cbn [Py.split_go Py.startswith]. rewrite Ascii.eqb_refl. cbn [andb].
    rewrite rev_rev_app. f_equal. by apply IH.
Qed.

End utterance_names.

(** X19: both readers name an utterance after the directory that holds the
    label file and the file name up to its first dot: for a path
    [.../speaker/stem.rest] the name is [speaker_stem], whatever the leading
    directories and whatever follows the first dot.  A path without a
    directory part raises [IndexError]. *)
Theorem X19_utterance_name_is_speaker_and_stem (dirs : list string)
    (speaker stem rest : string) :
  let no_slash s := all_chars (λ a, negb (Ascii.eqb a "/")) s = true in
  let name := stem +:+ "." +:+ rest in
  let label_path := Py.join "/" (dirs ++ [speaker; name]) in
  Forall no_slash dirs →
  no_slash speaker →
  no_slash name →
  all_chars (λ a, negb (Ascii.eqb a ".")) stem = true →
  transcript_character.utt_name_of label_path = Ok (speaker +:+ "_" +:+ stem)
  ∧ transcript_phone.utt_name_of label_path = Ok (speaker +:+ "_" +:+ stem)
  ∧ transcript_character.utt_name_of name = Raise IndexError
  ∧ transcript_phone.utt_name_of name = Raise IndexError.
Proof.
  intros no_slash name label_path Hdirs Hspeaker Hname Hstem.
  assert (Py.split_go "/" label_path 0 "" = dirs ++ [speaker; name]) as Hsplit.
  { apply split_join_char; [by destruct dirs|].
    apply Forall_app. split; [done|]. by repeat constructor. }
  assert (Py.split_go "/" name 0 "" = [name]) as Hsingle.
  { apply (split_join_char "/" [name]); [done|]. by repeat constructor. }
  assert (∃ parts, Py.split_go "." name 0 "" = stem :: parts) as [parts Hparts].
  { subst name. rewrite split_go_piece by done.
    change ("." +:+ rest) with (String "." rest).
    cbn [Py.split_go Py.startswith]. rewrite Ascii.eqb_refl. cbn [andb].
    rewrite rev_rev_app. by eexists. }
  assert (Py.item_from_end (dirs ++ [speaker; name]) 2 = Ok speaker) as Hitem.
  { unfold Py.item_from_end, Py.item. rewrite length_app. cbn [length].
    rewrite decide_True by lia.
    replace (length dirs + 2 - 2) with (length dirs + 0) by lia.
    by rewrite lookup_app_r, Nat.add_0_r, Nat.sub_diag by lia. }
  assert (Py.basename label_path = name) as Hbase.
  { unfold Py.basename. rewrite Hsplit.
    change [speaker; name] with ([speaker] ++ [name]).
    by rewrite (assoc_L (++)), List.last_last. }
  assert (Py.basename name = name) as Hbase'.
  { unfold Py.basename. by rewrite Hsingle. }
  unfold transcript_character.utt_name_of, transcript_phone.utt_name_of,
    Py.split.
  rewrite Hsplit, Hsingle. cbn [mbind result_bind]. rewrite Hitem.
  cbn [mbind result_bind]. rewrite Hbase, Hparts. cbn [mbind result_bind].
  done.
Qed.

Lemma X19_utterance_name_witness :
  transcript_character.utt_name_of "/data/timit/train/dr1/fcjf0/sa1.wrd.txt"
  = Ok "fcjf0_sa1".
Proof.
  apply (X19_utterance_name_is_speaker_and_stem
           [""; "data"; "timit"; "train"; "dr1"] "fcjf0" "sa1" "wrd.txt");
    by_decide.
Defined.
